(** * MCP client plugin: a shallow embedding of [utils/mcp_client.py] and
      [strategies/base.py], with the properties of its specification.

    Layout
    - [Py]: the Python values the code manipulates (decoded JSON, exceptions,
      insertion-ordered dicts), the builtin operations it applies to them,
      and calls as state-passing functions that may raise.
    - [History]: [FilterHistoryMessageByModelFeaturesMixin].
    - [Http]: responses, requests, server-sent events, the envelope check.
    - [McpClient]: the abstract transport interface.
    - [McpStreamableHttpClient]: the request/response transport.
    - [McpSseClient]: the event-stream transport.  The listener thread and
      the calling thread form an interleaving machine driven by a schedule;
      the calls built on [send_message] are state-passing functions.
    - [McpClients]: the multi-server registry.
    - [Scenario]: concrete servers.
    - the properties, grouped by component, then run on the scenarios.

    What is outside the source (the network, [urllib.parse], [json.loads],
    [httpx_sse] framing, [str()] and [uuid4]) enters as section variables:
    every property holds whatever they compute. *)

From Stdlib Require Import ZArith String Ascii List Bool Lia.
From stdpp Require Import base option list gmap strings pretty.

Local Open Scope string_scope.
Local Open Scope Z_scope.
Set Warnings "-register-all".

(* ===================================================================== *)
(** * Python values *)
(* ===================================================================== *)

Module Py.

(** What [json.loads] produces.  Numbers are integers: no operation of the
    client looks at a fractional part.  A [JObj] is a Python [dict] with
    string keys, in insertion order. *)
Inductive json : Type :=
| JNull
| JBool (b : bool)
| JInt (n : Z)
| JStr (s : string)
| JArr (items : list json)
| JObj (fields : list (string * json)).

(** Exceptions.  Every class below derives from [Exception], so an
    [except Exception] clause catches all of them.  [exn_str] is [str(e)]. *)
Inductive exn_class : Type :=
| Exception_
| ValueError
| RuntimeError
| ConnectionError
| KeyError
| TypeError
| AttributeError
| HTTPStatusError
| OtherError (name : string).

Record exn : Type := mk_exn { exn_cls : exn_class; exn_str : string }.

Inductive result (A : Type) : Type :=
| Ok (a : A)
| Raise (e : exn).
Arguments Ok {A} a.
Arguments Raise {A} e.

Definition is_ok {A} (r : result A) : bool :=
  match r with Ok _ => true | Raise _ => false end.

Definition raises {A} (r : result A) : Prop :=
  match r with Ok _ => False | Raise _ => True end.

(** ** Insertion-ordered dicts with string keys *)

Definition dict (V : Type) : Type := list (string * V).

Fixpoint dict_get {V} (k : string) (d : dict V) : option V :=
  match d with
  | [] => None
  | (k', v) :: d' => if String.eqb k k' then Some v else dict_get k d'
  end.

Definition dict_in {V} (k : string) (d : dict V) : bool :=
  match dict_get k d with Some _ => true | None => false end.

(** [d[k] = v]: an existing key keeps its position, a new key goes last. *)
Fixpoint dict_set {V} (k : string) (v : V) (d : dict V) : dict V :=
  match d with
  | [] => [(k, v)]
  | (k', v') :: d' =>
      if String.eqb k k' then (k, v) :: d' else (k', v') :: dict_set k v d'
  end.

(** ** Builtin operations on decoded JSON *)

Definition type_name (v : json) : string :=
  match v with
  | JNull => "NoneType"
  | JBool _ => "bool"
  | JInt _ => "int"
  | JStr _ => "str"
  | JArr _ => "list"
  | JObj _ => "dict"
  end.

(** [bool(v)] *)
Definition truthy (v : json) : bool :=
  match v with
  | JNull => false
  | JBool b => b
  | JInt n => negb (n =? 0)
  | JStr s => negb (String.eqb s "")
  | JArr l => match l with [] => false | _ => true end
  | JObj d => match d with [] => false | _ => true end
  end.

(** [needle in hay] on two [str]: substring test. *)
Fixpoint str_contains (needle hay : string) : bool :=
  String.prefix needle hay
  || match hay with
     | EmptyString => false
     | String _ hay' => str_contains needle hay'
     end.

Definition is_str (s : string) (v : json) : bool :=
  match v with JStr t => String.eqb s t | _ => false end.

(** [s in v] for a string literal [s]. *)
Definition contains (s : string) (v : json) : result bool :=
  match v with
  | JObj d => Ok (dict_in s d)
  | JArr l => Ok (existsb (is_str s) l)
  | JStr t => Ok (str_contains s t)
  | _ => Raise (mk_exn TypeError
                  ("argument of type '" +:+ type_name v +:+ "' is not iterable"))
  end.

(** [v.get(k, default)] *)
Definition get (k : string) (default : json) (v : json) : result json :=
  match v with
  | JObj d => Ok (match dict_get k d with Some x => x | None => default end)
  | _ => Raise (mk_exn AttributeError
                  ("'" +:+ type_name v +:+ "' object has no attribute 'get'"))
  end.

(** [v[k]] for a string literal [k]. *)
Definition getitem (k : string) (v : json) : result json :=
  match v with
  | JObj d =>
      match dict_get k d with
      | Some x => Ok x
      | None => Raise (mk_exn KeyError ("'" +:+ k +:+ "'"))
      end
  | JArr _ => Raise (mk_exn TypeError
                       "list indices must be integers or slices, not str")
  | JStr _ => Raise (mk_exn TypeError
                       "string indices must be integers, not 'str'")
  | _ => Raise (mk_exn TypeError
                  ("'" +:+ type_name v +:+ "' object is not subscriptable"))
  end.

Fixpoint chars (s : string) : list json :=
  match s with
  | EmptyString => []
  | String c s' => JStr (String c EmptyString) :: chars s'
  end.

(** The elements [for x in v] goes through. *)
Definition iter (v : json) : result (list json) :=
  match v with
  | JArr l => Ok l
  | JObj d => Ok (map (fun kv => JStr (fst kv)) d)
  | JStr s => Ok (chars s)
  | _ => Raise (mk_exn TypeError
                  ("'" +:+ type_name v +:+ "' object is not iterable"))
  end.

(** ** Hashable values as dict keys.  [True] and [1] are the same key. *)
Inductive key : Type :=
| KNone
| KNum (n : Z)
| KStr (s : string).

Definition to_key (v : json) : result key :=
  match v with
  | JNull => Ok KNone
  | JBool b => Ok (KNum (if b then 1 else 0))
  | JInt n => Ok (KNum n)
  | JStr s => Ok (KStr s)
  | _ => Raise (mk_exn TypeError ("unhashable type: '" +:+ type_name v +:+ "'"))
  end.

#[global] Instance key_eq_dec : EqDecision key.
Proof. solve_decision. Defined.

Definition key_encode (k : key) : unit + (Z + string) :=
  match k with
  | KNone => inl tt
  | KNum n => inr (inl n)
  | KStr s => inr (inr s)
  end.

Definition key_decode (x : unit + (Z + string)) : key :=
  match x with
  | inl _ => KNone
  | inr (inl n) => KNum n
  | inr (inr s) => KStr s
  end.

#[global] Instance key_countable : Countable key.
Proof.
  apply (inj_countable' key_encode key_decode).
  by intros [].
Defined.

(** ** Calls that change state and may raise

    A call takes the state before and returns its outcome with the state
    after; what it changed before raising stays changed. *)
Definition M (S A : Type) : Type := S -> result A * S.

Definition ret {S A} (a : A) : M S A := fun s => (Ok a, s).

Definition throw {S A} (e : exn) : M S A := fun s => (Raise e, s).

Definition bind {S A B} (c : M S A) (k : A -> M S B) : M S B :=
  fun s =>
    match c s with
    | (Ok a, s') => k a s'
    | (Raise e, s') => (Raise e, s')
    end.

(** [try: c  except Exception as e: h e] *)
Definition try_except {S A} (c : M S A) (h : exn -> M S A) : M S A :=
  fun s =>
    match c s with
    | (Ok a, s') => (Ok a, s')
    | (Raise e, s') => h e s'
    end.

(** A computation that reads no state. *)
Definition lift {S A} (r : result A) : M S A := fun s => (r, s).

(** A call on the world [W], made by an object [O] that it leaves alone. *)
Definition in_world {O W A} (c : M W A) : M (O * W) A :=
  fun '(o, w) => let '(r, w') := c w in (r, (o, w')).

(** An update of the object. *)
Definition update {O W} (f : O -> O) : M (O * W) unit :=
  fun '(o, w) => (Ok tt, (f o, w)).

End Py.

Import Py.

Notation "x <~ c ;; k" := (bind c (fun x => k))
  (at level 100, c at next level, k at level 200, right associativity).
Notation "c ;; k" := (bind c (fun _ => k))
  (at level 100, k at level 200, right associativity).

(* ===================================================================== *)
(** * strategies/base.py *)
(* ===================================================================== *)

Module History.

(** Modelled from the spec: the content tags and the model features come from
    the plugin SDK ([dify_plugin.entities]), which is not part of the source
    tree; the spec names the five tags {text, image, audio, video, document}
    and the four capabilities (vision/audio/video/document).  Every other
    feature of the SDK is [OTHER_FEATURE]. *)
Inductive PromptMessageContentType : Type :=
| TEXT | IMAGE | AUDIO | VIDEO | DOCUMENT.

Inductive ModelFeature : Type :=
| VISION | AUDIO_FEATURE | VIDEO_FEATURE | DOCUMENT_FEATURE
| OTHER_FEATURE (name : string).

#[global] Instance content_type_eq_dec : EqDecision PromptMessageContentType.
Proof. solve_decision. Defined.

#[global] Instance feature_eq_dec : EqDecision ModelFeature.
Proof. solve_decision. Defined.

Record content_item : Type := mk_item {
  item_type : PromptMessageContentType;
  item_data : string
}.

(** [msg.content]: plain text, a list of typed items, or [None]. *)
Inductive content : Type :=
| ContentText (s : string)
| ContentList (items : list content_item)
| ContentNone.

(** The fields of a [PromptMessage] the helper reads and passes on. *)
Record PromptMessage : Type := mk_msg {
  role : string;
  msg_content : content;
  name : option string
}.

Record AgentModelConfig : Type := mk_model {
  features : list ModelFeature;
  history_prompt_messages : list PromptMessage
}.

Definition has_feature (f : ModelFeature) (fs : list ModelFeature) : bool :=
  bool_decide (f ∈ fs).

(** The condition of the list comprehension. *)
Definition keep_item (fs : list ModelFeature) (item : content_item) : bool :=
  bool_decide (item_type item = TEXT)
  || (bool_decide (item_type item ∈ [IMAGE; VIDEO; DOCUMENT])
      && has_feature VISION fs)
  || (bool_decide (item_type item = AUDIO) && has_feature AUDIO_FEATURE fs)
  || (bool_decide (item_type item = VIDEO) && has_feature VIDEO_FEATURE fs)
  || (bool_decide (item_type item = DOCUMENT)
      && has_feature DOCUMENT_FEATURE fs).

Definition cleanup_message (fs : list ModelFeature) (msg : PromptMessage)
  : PromptMessage :=
  match msg_content msg with
  | ContentList items =>
      let filtered_content := List.filter (keep_item fs) items in
      {| role := role msg;
         msg_content := ContentList filtered_content;
         name := name msg |}
  | _ => msg
  end.

(** The generator, as the list of the messages it yields. *)
Definition _iter_cleanup_history_prompt_messages (model : AgentModelConfig)
  : list PromptMessage :=
  map (cleanup_message (features model)) (history_prompt_messages model).

(** The capability the spec pairs with each modality, following its words:
    "content items unsupported by a target model's declared feature set
    (vision/audio/video/document)".  Text needs no capability. *)
Definition modality_feature (t : PromptMessageContentType)
  : option ModelFeature :=
  match t with
  | TEXT => None
  | IMAGE => Some VISION
  | AUDIO => Some AUDIO_FEATURE
  | VIDEO => Some VIDEO_FEATURE
  | DOCUMENT => Some DOCUMENT_FEATURE
  end.

Definition supported_spec (fs : list ModelFeature) (item : content_item) : bool :=
  match modality_feature (item_type item) with
  | None => true
  | Some f => has_feature f fs
  end.

(** What the comprehension keeps, modality by modality: a declared vision
    capability also covers video and document items. *)
Definition retained (fs : list ModelFeature) (item : content_item) : bool :=
  match item_type item with
  | TEXT => true
  | IMAGE => has_feature VISION fs
  | AUDIO => has_feature AUDIO_FEATURE fs
  | VIDEO => has_feature VISION fs || has_feature VIDEO_FEATURE fs
  | DOCUMENT => has_feature VISION fs || has_feature DOCUMENT_FEATURE fs
  end.

End History.

(* ===================================================================== *)
(** * utils/mcp_client.py: what the transports exchange with the network *)
(* ===================================================================== *)

Module Http.

(** An [httpx.Response], by what the client reads of it.  Header names are
    in lower case, as [httpx.Headers] looks them up. *)
Record Response : Type := mk_response {
  status_code : Z;
  reason_phrase : string;
  headers : dict string;
  content : string
}.

Definition is_success (r : Response) : bool :=
  (200 <=? status_code r) && (status_code r <=? 299).

(** The arguments of [client.post]. *)
Record Request : Type := mk_request {
  req_url : string;
  req_json : json;
  req_headers : dict json
}.

(** A framed server-sent event, as [httpx_sse] hands it over. *)
Record ServerSentEvent : Type := mk_sse {
  event : string;
  data : string
}.

(** The fields of [urlparse]'s result the client reads. *)
Record ParseResult : Type := mk_parsed {
  scheme : string;
  netloc : string;
  path : string
}.

(** The check every protocol call makes on the envelope it gets back:
    [if "error" in response: raise Exception(f"{label}{response['error']}")],
    with [py_str] the [str()] of the f-string. *)
Definition fail_on_error (py_str : json -> string) (label : string)
    (response : json) : result unit :=
  match contains "error" response with
  | Raise e => Raise e
  | Ok false => Ok tt
  | Ok true =>
      match getitem "error" response with
      | Raise e => Raise e
      | Ok err => Raise (mk_exn Exception_ (label +:+ py_str err))
      end
  end.

End Http.

Import Http.

(* ===================================================================== *)
(** * class McpClient (the interface) *)
(* ===================================================================== *)

(** The abstract base class: four methods, each a call on the world the
    transport lives in (its own attributes and the network behind it). *)
Module McpClient.

Record t (W : Type) : Type := mk {
  close : M W unit;
  initialize : M W unit;
  list_tools : M W json;
  call_tool : string -> json -> M W json
}.
Arguments mk {W}.
Arguments close {W}.
Arguments initialize {W}.
Arguments list_tools {W}.
Arguments call_tool {W}.

End McpClient.

(* ===================================================================== *)
(** * class McpStreamableHttpClient *)
(* ===================================================================== *)

Module McpStreamableHttpClient.

(** The instance: [timeout] and the [httpx.Client] only configure the
    network, which is the world [W] below. *)
Record t : Type := mk {
  name : string;
  url : string;
  session_id : option string
}.

Definition __init__ (name url : string) : t :=
  {| name := name; url := url; session_id := None |}.

Section Transport.
Context {W : Type}.
(** [self.client.post]: the server's answer, or a network exception. *)
Variable http_post : Request -> M W Response.
(** [EventSource(response).iter_sse()]: the events the generator yields and
    the exception that ends it, if one does. *)
Variable iter_sse : Response -> list ServerSentEvent * option exn.
Variable json_loads : string -> result json.
(** [str(v)] inside an f-string, and the [repr] of a [bytes]. *)
Variable py_str : json -> string.
Variable bytes_repr : string -> string.
(** [self.client.close()] *)
Variable client_close : M W unit.

Definition close : M (t * W) unit :=
  fun '(self, w) =>
    try_except (in_world client_close)
      (fun e => throw (mk_exn Exception_
                         (name self +:+ " - MCP Server connection close failed: "
                          +:+ exn_str e)))
      (self, w).

(** Lines 260-263: the loop over the framed events. *)
Fixpoint read_events (self_name : string) (events : list ServerSentEvent)
    (message : json) : result json :=
  match events with
  | [] => Ok message
  | sse :: rest =>
      if negb (String.eqb (event sse) "message") then
        Raise (mk_exn Exception_
                 (self_name +:+ " - Unknown Server-Sent Event: " +:+ event sse))
      else
        match json_loads (data sse) with
        | Raise e => Raise e
        | Ok message' => read_events self_name rest message'
        end
  end.

(** Lines 255-269. *)
Definition decode_body (self : t) (response : Response) : result json :=
  if String.eqb (content response) "" then Ok (JObj [])
  else
    let message := JObj [] in
    let content_type :=
      default "None" (dict_get "content-type" (headers response)) in
    if str_contains "text/event-stream" content_type then
      let '(events, stop) := iter_sse response in
      match read_events (name self) events message with
      | Raise e => Raise e
      | Ok message =>
          match stop with Some e => Raise e | None => Ok message end
      end
    else if str_contains "application/json" content_type then
      match (if negb (String.eqb (content response) "")
             then json_loads (content response) else Ok JNull) with
      | Raise e => Raise e
      | Ok v => Ok (if truthy v then v else JObj [])
      end
    else
      Raise (mk_exn Exception_
               (name self +:+ " - Unsupported Content-Type: " +:+ content_type)).

(** Lines 252-253: the session identifier a response leaves on the
    instance. *)
Definition learn_session (self : t) (response : Response) : t :=
  match dict_get "mcp-session-id" (headers response) with
  | Some sid =>
      {| name := name self; url := url self; session_id := Some sid |}
  | None => self
  end.

Definition request_headers (self : t) : dict json :=
  let headers := [("Content-Type", JStr "application/json");
                  ("Accept", JStr "application/json, text/event-stream")] in
  match session_id self with
  | Some sid =>
      if negb (String.eqb sid "")
      then dict_set "Mcp-Session-Id" (JStr sid) headers
      else headers
  | None => headers
  end.

Definition send_message (data : json) : M (t * W) json :=
  fun '(self, w) =>
    match http_post (mk_request (url self) data (request_headers self)) w with
    | (Raise e, w') => (Raise e, (self, w'))
    | (Ok response, w') =>
        if negb (is_success response) then
          (Raise (mk_exn ValueError
                    (name self +:+ " - MCP Server response: "
                     +:+ pretty (status_code response) +:+ " "
                     +:+ reason_phrase response
                     +:+ " (" +:+ bytes_repr (content response) +:+ ")")),
           (self, w'))
        else
          let self' := learn_session self response in
          (decode_body self' response, (self', w'))
    end.

Definition init_data : json :=
  JObj [("jsonrpc", JStr "2.0");
        ("id", JInt 0);
        ("method", JStr "initialize");
        ("params",
         JObj [("protocolVersion", JStr "2024-11-05");
               ("capabilities", JObj []);
               ("clientInfo",
                JObj [("name", JStr "MCP Streamable HTTP Client");
                      ("version", JStr "1.0.0")])])].

Definition notify_data : json :=
  JObj [("jsonrpc", JStr "2.0");
        ("method", JStr "notifications/initialized");
        ("params", JObj [])].

Definition initialize : M (t * W) unit :=
  response <~ send_message init_data ;;
  lift (fail_on_error py_str "MCP Server initialize error: " response) ;;
  response <~ send_message notify_data ;;
  lift (fail_on_error py_str "MCP Server notifications/initialized error: " response).

Definition tools_data : json :=
  JObj [("jsonrpc", JStr "2.0");
        ("id", JInt 1);
        ("method", JStr "tools/list");
        ("params", JObj [])].

Definition list_tools : M (t * W) json :=
  response <~ send_message tools_data ;;
  lift (fail_on_error py_str "MCP Server tools/list error: " response) ;;
  result <~ lift (get "result" (JObj []) response) ;;
  lift (get "tools" (JArr []) result).

Definition call_data (tool_name : string) (tool_args : json) : json :=
  JObj [("jsonrpc", JStr "2.0");
        ("id", JInt 2);
        ("method", JStr "tools/call");
        ("params", JObj [("name", JStr tool_name); ("arguments", tool_args)])].

Definition call_tool (tool_name : string) (tool_args : json) : M (t * W) json :=
  response <~ send_message (call_data tool_name tool_args) ;;
  lift (fail_on_error py_str "MCP Server tools/call error: " response) ;;
  result <~ lift (get "result" (JObj []) response) ;;
  lift (get "content" (JArr []) result).

(** The class implements the interface. *)
Definition as_client : McpClient.t (t * W) :=
  McpClient.mk close initialize list_tools call_tool.

End Transport.

End McpStreamableHttpClient.

(* ===================================================================== *)
(** * class McpSseClient *)
(* ===================================================================== *)

Module McpSseClient.

(** The instance, by the attributes the two threads share.  An [Event] is
    its flag. *)
Record t : Type := mk {
  name : string;
  url : string;
  endpoint_url : option string;
  message_dict : gmap key json;
  response_ready : bool;
  should_stop : bool;
  _connected : bool;
  _error_event : bool;
  _thread_exception : option exn
}.

(** The attributes as [__init__] leaves them before it calls [connect]. *)
Definition __init__ (name url : string) : t :=
  {| name := name; url := url; endpoint_url := None; message_dict := ∅;
     response_ready := false; should_stop := false; _connected := false;
     _error_event := false; _thread_exception := None |}.

Definition set_endpoint_url (v : option string) (o : t) : t :=
  mk (name o) (url o) v (message_dict o) (response_ready o) (should_stop o)
     (_connected o) (_error_event o) (_thread_exception o).
Definition set_message_dict (v : gmap key json) (o : t) : t :=
  mk (name o) (url o) (endpoint_url o) v (response_ready o) (should_stop o)
     (_connected o) (_error_event o) (_thread_exception o).
Definition set_response_ready (v : bool) (o : t) : t :=
  mk (name o) (url o) (endpoint_url o) (message_dict o) v (should_stop o)
     (_connected o) (_error_event o) (_thread_exception o).
Definition set_should_stop (v : bool) (o : t) : t :=
  mk (name o) (url o) (endpoint_url o) (message_dict o) (response_ready o) v
     (_connected o) (_error_event o) (_thread_exception o).
Definition set_connected (v : bool) (o : t) : t :=
  mk (name o) (url o) (endpoint_url o) (message_dict o) (response_ready o)
     (should_stop o) v (_error_event o) (_thread_exception o).
Definition set_error_event (v : bool) (o : t) : t :=
  mk (name o) (url o) (endpoint_url o) (message_dict o) (response_ready o)
     (should_stop o) (_connected o) v (_thread_exception o).
Definition set_thread_exception (v : option exn) (o : t) : t :=
  mk (name o) (url o) (endpoint_url o) (message_dict o) (response_ready o)
     (should_stop o) (_connected o) (_error_event o) v.

(** How the server's event stream goes on once the events sent so far are
    read: it is closed, it breaks with an exception (a read timeout, a lost
    connection), or it stays open and silent. *)
Inductive stream_end : Type :=
| StreamClosed
| StreamError (e : exn)
| StreamOpen.

(** Where the listener thread stands in [_listen_messages]; each position is
    one access to a shared attribute. *)
Inductive listener_pc : Type :=
| LNotStarted
| LConnect                         (* lines 69-77 *)
| LNext                            (* lines 79-83, 96 *)
| LSetEndpoint (data : string)     (* line 85 *)
| LSetConnected                    (* line 87 *)
| LCheckOrigin                     (* lines 88-94 *)
| LStore (k : key) (message : json) (* line 98 *)
| LSetReady                        (* line 99 *)
| LCatch (e : exn)                 (* line 103 *)
| LSetError                        (* line 104 *)
| LSetConnectedAfterError          (* line 105 *)
| LDone.

(** Where the calling thread stands: in [connect] (lines 138-150), or in the
    waiting loop of [send_message] (lines 127-134) for a request id. *)
Inductive main_pc : Type :=
| CStart                           (* lines 138-139 *)
| CCheckError                      (* line 141 *)
| CWaitConnected                   (* line 147 *)
| CCheckAlive                      (* line 149 *)
| CConnected                       (* [connect] returned *)
| CFailed (e : exn)                (* [connect] raised *)
| SWait (message_id : json)        (* line 128 *)
| SClear (message_id : json)       (* line 129 *)
| SCheck (message_id : json)       (* line 130 *)
| SPop (message_id : json)         (* line 132 *)
| SReturned (message : json)       (* line 134 *)
| SRaised (e : exn).

(** The two threads, the object they share and the server's side of the
    event stream. *)
Record sys : Type := mk_sys {
  self : t;
  lpc : listener_pc;
  mpc : main_pc;
  get_outcome : result unit;       (* [connect_sse] and [raise_for_status] *)
  incoming : list ServerSentEvent; (* events not yet read *)
  ending : stream_end
}.

Definition with_self (f : t -> t) (s : sys) : sys :=
  mk_sys (f (self s)) (lpc s) (mpc s) (get_outcome s) (incoming s) (ending s).
Definition goto_l (pc : listener_pc) (s : sys) : sys :=
  mk_sys (self s) pc (mpc s) (get_outcome s) (incoming s) (ending s).
Definition goto_m (pc : main_pc) (s : sys) : sys :=
  mk_sys (self s) (lpc s) pc (get_outcome s) (incoming s) (ending s).
Definition set_incoming (l : list ServerSentEvent) (s : sys) : sys :=
  mk_sys (self s) (lpc s) (mpc s) (get_outcome s) l (ending s).

Definition is_alive (s : sys) : bool :=
  match lpc s with
  | LNotStarted | LDone => false
  | _ => true
  end.

Inductive tid : Type := Listener | Main.

(** The table key of a decoded message: [message["id"]], hashed. *)
Definition message_key (message : json) : result key :=
  match getitem "id" message with
  | Raise e => Raise e
  | Ok id => to_key id
  end.

Section Machine.
(** [urllib.parse]: both functions raise [ValueError] on some inputs. *)
Variable urljoin : string -> string -> result string.
Variable urlparse : string -> result ParseResult.
Variable json_loads : string -> result json.

Definition remove_request_params (url : string) : result string :=
  match urlparse url with
  | Raise e => Raise e
  | Ok parsed => urljoin url (path parsed)
  end.

(** Lines 88-94. *)
Definition check_origin (o : t) (endpoint : string) : result unit :=
  match urlparse (url o) with
  | Raise e => Raise e
  | Ok url_parsed =>
      match urlparse endpoint with
      | Raise e => Raise e
      | Ok endpoint_parsed =>
          if negb (String.eqb (netloc url_parsed) (netloc endpoint_parsed))
             || negb (String.eqb (scheme url_parsed) (scheme endpoint_parsed))
          then
            Raise (mk_exn ValueError
                     (name o
                      +:+ " - Endpoint origin does not match connection origin: "
                      +:+ endpoint))
          else Ok tt
      end
  end.

(** Line 96 and the subscript and hash of line 98. *)
Definition decode_message (data : string) : result (key * json) :=
  match json_loads data with
  | Raise e => Raise e
  | Ok message =>
      match message_key message with
      | Raise e => Raise e
      | Ok k => Ok (k, message)
      end
  end.

(** One step of [_listen_messages]; [None] when the thread cannot move
    (not started, finished, or reading a silent stream). *)
Definition listener_step (s : sys) : option sys :=
  match lpc s with
  | LNotStarted | LDone => None
  | LConnect =>
      match remove_request_params (url (self s)) with
      | Raise e => Some (goto_l (LCatch e) s)
      | Ok _ =>
          match get_outcome s with
          | Raise e => Some (goto_l (LCatch e) s)
          | Ok _ => Some (goto_l LNext s)
          end
      end
  | LNext =>
      match incoming s with
      | [] =>
          match ending s with
          | StreamClosed => Some (goto_l LDone s)
          | StreamError e => Some (goto_l (LCatch e) s)
          | StreamOpen => None
          end
      | sse :: rest =>
          let s := set_incoming rest s in
          if should_stop (self s) then Some (goto_l LDone s)
          else if String.eqb (event sse) "endpoint" then
            Some (goto_l (LSetEndpoint (data sse)) s)
          else if String.eqb (event sse) "message" then
            match decode_message (data sse) with
            | Raise e => Some (goto_l (LCatch e) s)
            | Ok (k, message) => Some (goto_l (LStore k message) s)
            end
          else Some (goto_l LNext s)
      end
  | LSetEndpoint data =>
      match urljoin (url (self s)) data with
      | Raise e => Some (goto_l (LCatch e) s)
      | Ok u => Some (goto_l LSetConnected (with_self (set_endpoint_url (Some u)) s))
      end
  | LSetConnected =>
      Some (goto_l LCheckOrigin (with_self (set_connected true) s))
  | LCheckOrigin =>
      match endpoint_url (self s) with
      | None => None
      | Some endpoint =>
          match check_origin (self s) endpoint with
          | Raise e => Some (goto_l (LCatch e) s)
          | Ok _ => Some (goto_l LNext s)
          end
      end
  | LStore k message =>
      Some (goto_l LSetReady
              (with_self (fun o => set_message_dict (<[k:=message]> (message_dict o)) o) s))
  | LSetReady =>
      Some (goto_l LNext (with_self (set_response_ready true) s))
  | LCatch e =>
      Some (goto_l LSetError (with_self (set_thread_exception (Some e)) s))
  | LSetError =>
      Some (goto_l LSetConnectedAfterError (with_self (set_error_event true) s))
  | LSetConnectedAfterError =>
      Some (goto_l LDone (with_self (set_connected true) s))
  end.

(** Lines 141-146: what [connect] raises once the error event is set. *)
Definition connect_error (o : t) : exn :=
  match _thread_exception o with
  | Some e =>
      match exn_cls e with
      | HTTPStatusError =>
          mk_exn ConnectionError
            (name o +:+ " - MCP Server connection failed: " +:+ exn_str e)
      | _ => e
      end
  | None => mk_exn TypeError "exceptions must derive from BaseException"
  end.

(** One step of the calling thread; [None] when it cannot move (blocked on
    [response_ready.wait()], or its call is over). *)
Definition main_step (s : sys) : option sys :=
  match mpc s with
  | CStart =>
      match lpc s with
      | LNotStarted => Some (goto_m CCheckError (goto_l LConnect s))
      | _ => None
      end
  | CCheckError =>
      if _error_event (self s)
      then Some (goto_m (CFailed (connect_error (self s))) s)
      else Some (goto_m CWaitConnected s)
  | CWaitConnected =>
      if _connected (self s)
      then Some (goto_m CConnected s)
      else Some (goto_m CCheckAlive s)
  | CCheckAlive =>
      if negb (is_alive s) then
        Some (goto_m (CFailed
                (mk_exn ConnectionError
                   (name (self s)
                    +:+ " - MCP Server SSE listener thread died unexpectedly!"))) s)
      else Some (goto_m CCheckError s)
  | SWait message_id =>
      if response_ready (self s)
      then Some (goto_m (SClear message_id) s)
      else None
  | SClear message_id =>
      Some (goto_m (SCheck message_id) (with_self (set_response_ready false) s))
  | SCheck message_id =>
      match to_key message_id with
      | Raise e => Some (goto_m (SRaised e) s)
      | Ok k =>
          match message_dict (self s) !! k with
          | Some _ => Some (goto_m (SPop message_id) s)
          | None => Some (goto_m (SWait message_id) s)
          end
      end
  | SPop message_id =>
      match to_key message_id with
      | Raise e => Some (goto_m (SRaised e) s)
      | Ok k =>
          let message := default JNull (message_dict (self s) !! k) in
          Some (goto_m (SReturned message)
                  (with_self (fun o => set_message_dict (delete k (message_dict o)) o) s))
      end
  | CConnected | CFailed _ | SReturned _ | SRaised _ => None
  end.

Definition thread_step (th : tid) (s : sys) : option sys :=
  match th with
  | Listener => listener_step s
  | Main => main_step s
  end.

(** A turn given to a thread that cannot move changes nothing. *)
Definition step (s : sys) (th : tid) : sys := default s (thread_step th s).

(** The machine under a schedule: who moves, turn after turn. *)
Definition run (schedule : list tid) (s : sys) : sys := foldl step s schedule.

(** How many times the calling thread runs line 132, the removal of its
    entry from the table, along a schedule. *)
Fixpoint pop_count (schedule : list tid) (s : sys) : nat :=
  match schedule with
  | [] => 0
  | th :: rest =>
      (match th, mpc s with
       | Main, SPop _ => 1
       | _, _ => 0
       end + pop_count rest (step s th))%nat
  end.

Definition main_turns (schedule : list tid) : nat :=
  length (List.filter (fun th => match th with Main => true | Listener => false end)
            schedule).

(** The turns the calling thread still needs to return once its entry is in
    the table and the signal is raised. *)
Definition turns_left (pc : main_pc) : nat :=
  match pc with
  | SWait _ => 4
  | SClear _ => 3
  | SCheck _ => 2
  | SPop _ => 1
  | _ => 0
  end.

(** The calling thread is inside the waiting loop for [message_id]. *)
Definition in_loop (message_id : json) (pc : main_pc) : Prop :=
  pc = SWait message_id \/ pc = SClear message_id
  \/ pc = SCheck message_id \/ pc = SPop message_id.

(** What holds of the machine all along a call of [send_message] that waits
    for the request id [message_id], whose table key is [kx]:
    every entry of the table, and the one about to be stored, sits under
    the key of its own id; the calling thread is in the loop or has
    returned; it reaches line 132 only with its entry in the table; and
    when it waits while its entry is in the table, the wake-up signal is
    raised or about to be. *)
Record waiting_invariant (message_id : json) (kx : key) (s : sys) : Prop := {
  inv_keyed : forall k m,
    message_dict (self s) !! k = Some m -> message_key m = Ok k;
  inv_store : forall k m, lpc s = LStore k m -> message_key m = Ok k;
  inv_pc : in_loop message_id (mpc s) \/ exists m, mpc s = SReturned m;
  inv_pop : mpc s = SPop message_id -> is_Some (message_dict (self s) !! kx);
  inv_wake : mpc s = SWait message_id ->
             is_Some (message_dict (self s) !! kx) ->
             response_ready (self s) = true \/ lpc s = LSetReady
}.

(** What holds all along the construction of a client named [nm] for [u],
    facing a server that answers the GET, sends the one event
    [endpoint: payload], resolved to [endpoint], and then keeps the stream
    open: no error is recorded, the listener is somewhere on its way through
    that event, and [_connected] is raised only with the endpoint recorded. *)
Definition connecting_listener (payload endpoint : string) (s : sys) : Prop :=
  match lpc s with
  | LNotStarted => mpc s = CStart /\ incoming s = [mk_sse "endpoint" payload]
  | LConnect => incoming s = [mk_sse "endpoint" payload]
  | LNext =>
      incoming s = [mk_sse "endpoint" payload]
      \/ (incoming s = [] /\ endpoint_url (self s) = Some endpoint)
  | LSetEndpoint d => d = payload /\ incoming s = []
  | LSetConnected | LCheckOrigin =>
      endpoint_url (self s) = Some endpoint /\ incoming s = []
  | _ => False
  end.

Definition connecting_main (s : sys) : Prop :=
  match mpc s with
  | CStart => lpc s = LNotStarted
  | CCheckError | CWaitConnected | CCheckAlive => lpc s <> LNotStarted
  | CConnected => _connected (self s) = true
  | _ => False
  end.

Record connecting_invariant (nm u payload endpoint : string) (s : sys) : Prop := {
  conn_name : name (self s) = nm;
  conn_url : url (self s) = u;
  conn_no_error : _error_event (self s) = false;
  conn_no_stop : should_stop (self s) = false;
  conn_get : get_outcome s = Ok tt;
  conn_open : ending s = StreamOpen;
  conn_endpoint : _connected (self s) = true -> endpoint_url (self s) = Some endpoint;
  conn_listener : connecting_listener payload endpoint s;
  conn_main : connecting_main s
}.

(** [McpSseClient(name, url)] entering [connect], facing a server. *)
Definition construct (name url : string) (get : result unit)
    (events : list ServerSentEvent) (e : stream_end) : sys :=
  mk_sys (__init__ name url) LNotStarted CStart get events e.

End Machine.

Section Calls.
Context {W : Type}.
Variable http_post : Request -> M W Response.
(** The [HTTPStatusError] that [raise_for_status] builds for a response. *)
Variable status_error : Response -> exn.
(** Lines 127-134, by their outcome: the loop that waits for the listener
    to deliver the response to a request id.  Its interleaving with the
    listener is the machine above, started at [SWait]. *)
Variable await_response : json -> M (t * W) json.
(** [uuid.uuid4().hex] *)
Variable uuid4_hex : M W string.
Variable py_str : json -> string.
Variable bytes_repr : string -> string.
Variable client_close : M W unit.

Definition falsy_url (u : option string) : bool :=
  match u with
  | None => true
  | Some s => String.eqb s ""
  end.

(** The [trace-id] header: [data["id"] if "id" in data else ""]. *)
Definition trace_id (data : json) : result json :=
  match contains "id" data with
  | Raise e => Raise e
  | Ok true => getitem "id" data
  | Ok false => Ok (JStr "")
  end.

Definition send_message (data : json) : M (t * W) json :=
  fun '(self, w) =>
    if falsy_url (endpoint_url self) then
      match _thread_exception self with
      | Some e =>
          (Raise (mk_exn ConnectionError
                    (name self +:+ " - MCP Server connection failed: "
                     +:+ exn_str e)), (self, w))
      | None =>
          (Raise (mk_exn RuntimeError
                    (name self +:+ " - Please call connect() first")), (self, w))
      end
    else
      match trace_id data with
      | Raise e => (Raise e, (self, w))
      | Ok trace =>
          let request :=
            mk_request (default "" (endpoint_url self)) data
              [("Content-Type", JStr "application/json"); ("trace-id", trace)] in
          match http_post request w with
          | (Raise e, w') => (Raise e, (self, w'))
          | (Ok response, w') =>
              if negb (is_success response) then
                (Raise (status_error response), (self, w'))
              else if negb (is_success response) then
                (Raise (mk_exn ValueError
                          (name self +:+ " - MCP Server response: "
                           +:+ pretty (status_code response) +:+ " "
                           +:+ reason_phrase response
                           +:+ " (" +:+ bytes_repr (content response) +:+ ")")),
                 (self, w'))
              else
                match contains "id" data with
                | Raise e => (Raise e, (self, w'))
                | Ok true =>
                    match getitem "id" data with
                    | Raise e => (Raise e, (self, w'))
                    | Ok message_id => await_response message_id (self, w')
                    end
                | Ok false => (Ok (JObj []), (self, w'))
                end
          end
      end.

Definition close : M (t * W) unit :=
  fun '(self, w) =>
    try_except
      (update (set_should_stop true) ;; in_world client_close)
      (fun e => throw (mk_exn Exception_
                         (name self +:+ " - MCP Server connection close failed: "
                          +:+ exn_str e)))
      (self, w).

Definition init_data (id : string) : json :=
  JObj [("jsonrpc", JStr "2.0");
        ("id", JStr id);
        ("method", JStr "initialize");
        ("params",
         JObj [("protocolVersion", JStr "2024-11-05");
               ("capabilities", JObj []);
               ("clientInfo",
                JObj [("name", JStr "MCP HTTP with SSE Client");
                      ("version", JStr "1.0.0")])])].

Definition notify_data : json :=
  JObj [("jsonrpc", JStr "2.0");
        ("method", JStr "notifications/initialized");
        ("params", JObj [])].

Definition initialize : M (t * W) unit :=
  id <~ in_world uuid4_hex ;;
  response <~ send_message (init_data id) ;;
  lift (fail_on_error py_str "MCP Server initialize error: " response) ;;
  response <~ send_message notify_data ;;
  lift (fail_on_error py_str "MCP Server notifications/initialized error: " response).

Definition tools_data (id : string) : json :=
  JObj [("jsonrpc", JStr "2.0");
        ("id", JStr id);
        ("method", JStr "tools/list");
        ("params", JObj [])].

Definition list_tools : M (t * W) json :=
  id <~ in_world uuid4_hex ;;
  response <~ send_message (tools_data id) ;;
  lift (fail_on_error py_str "MCP Server tools/list error: " response) ;;
  result <~ lift (get "result" (JObj []) response) ;;
  lift (get "tools" (JArr []) result).

Definition call_data (id tool_name : string) (tool_args : json) : json :=
  JObj [("jsonrpc", JStr "2.0");
        ("id", JStr id);
        ("method", JStr "tools/call");
        ("params", JObj [("name", JStr tool_name); ("arguments", tool_args)])].

Definition call_tool (tool_name : string) (tool_args : json) : M (t * W) json :=
  id <~ in_world uuid4_hex ;;
  response <~ send_message (call_data id tool_name tool_args) ;;
  lift (fail_on_error py_str "MCP Server tools/call error: " response) ;;
  result <~ lift (get "result" (JObj []) response) ;;
  lift (get "content" (JArr []) result).

(** The class implements the interface. *)
Definition as_client : McpClient.t (t * W) :=
  McpClient.mk close initialize list_tools call_tool.

End Calls.

(** ** Further invariants of the two threads *)

(** The exception line 150 raises. *)
Definition listener_died (nm : string) : exn :=
  mk_exn ConnectionError
    (nm +:+ " - MCP Server SSE listener thread died unexpectedly!").

(** What holds all along [connect], whatever the server does: an error
    event comes with its exception and with a listener on its way out;
    [_connected] is raised only over a recorded endpoint or a recorded
    error; [connect] returns only over a raised [_connected], and raises
    only the recorded exception or the one of line 150. *)
Record connect_invariant (nm : string) (s : sys) : Prop := {
  ci_name : name (self s) = nm;
  ci_error :
    _error_event (self s) = true ->
    is_Some (_thread_exception (self s))
    /\ (lpc s = LSetConnectedAfterError \/ lpc s = LDone);
  ci_connected :
    _connected (self s) = true ->
    is_Some (endpoint_url (self s)) \/ _error_event (self s) = true;
  ci_endpoint_pc :
    lpc s = LSetConnected -> is_Some (endpoint_url (self s));
  ci_error_pc : lpc s = LSetError -> is_Some (_thread_exception (self s));
  ci_after_error_pc : lpc s = LSetConnectedAfterError -> _error_event (self s) = true;
  ci_returned : mpc s = CConnected -> _connected (self s) = true;
  ci_failed :
    forall ex, mpc s = CFailed ex ->
    ex = listener_died nm
    \/ (_error_event (self s) = true /\ ex = connect_error (self s))
}.

(** All along [connect] facing a server that answers the GET and sends no
    event, the stream being closed or left open: no flag is ever raised. *)
Definition unanswered_listener (s : sys) : Prop :=
  match lpc s with
  | LNotStarted => mpc s = CStart
  | LConnect | LNext => True
  | LDone => ending s = StreamClosed
  | _ => False
  end.

Definition unanswered_main (nm : string) (s : sys) : Prop :=
  match mpc s with
  | CStart => lpc s = LNotStarted
  | CCheckError | CWaitConnected | CCheckAlive => lpc s <> LNotStarted
  | CFailed ex => ex = listener_died nm /\ lpc s = LDone
  | _ => False
  end.

Record unanswered_invariant (nm u : string) (s : sys) : Prop := {
  un_name : name (self s) = nm;
  un_url : url (self s) = u;
  un_get : get_outcome s = Ok tt;
  un_incoming : incoming s = [];
  un_ending : ending s = StreamClosed \/ ending s = StreamOpen;
  un_connected : _connected (self s) = false;
  un_error : _error_event (self s) = false;
  un_listener : unanswered_listener s;
  un_main : unanswered_main nm s
}.

(** The listener has lost its stream to the event [bad], or is about to:
    it stands before [bad], or in the handler of lines 102-105, or is over. *)
Definition listener_lost (bad : ServerSentEvent) (rest : list ServerSentEvent)
    (s : sys) : Prop :=
  match lpc s with
  | LNext => incoming s = bad :: rest
  | LCatch _ | LSetError | LSetConnectedAfterError | LDone => True
  | _ => False
  end.

(** The calling thread waits for [message_id] and has not found it. *)
Definition still_waiting (message_id : json) (pc : main_pc) : Prop :=
  pc = SWait message_id \/ pc = SClear message_id \/ pc = SCheck message_id.

Record starved_invariant (message_id : json) (kx : key)
    (bad : ServerSentEvent) (rest : list ServerSentEvent) (s : sys) : Prop := {
  st_listener : listener_lost bad rest s;
  st_main : still_waiting message_id (mpc s);
  st_absent : message_dict (self s) !! kx = None
}.

(** Shutdown has been requested and the listener is between two events, or
    on its way out. *)
Definition stopping (s : sys) : Prop :=
  should_stop (self s) = true
  /\ match lpc s with
     | LNotStarted | LConnect | LNext | LCatch _ | LSetError
     | LSetConnectedAfterError | LDone => True
     | _ => False
     end.

End McpSseClient.

(* ===================================================================== *)
(** * class McpClients (the registry) *)
(* ===================================================================== *)

Module McpClients.

(** Which class [init_client] instantiates, and with which arguments. *)
Inductive transport_call : Type :=
| NewStreamableHttp (name : string) (url headers timeout : json)
| NewSse (name : string) (url headers timeout sse_read_timeout : json).

(** [config.get(k, default)] on the server's configuration mapping. *)
Definition config_get (k : string) (default : json) (config : dict json) : json :=
  match dict_get k config with Some v => v | None => default end.

Definition init_client (name : string) (config : dict json) : transport_call :=
  let transport := JStr "sse" in
  let transport :=
    if dict_in "transport" config
    then config_get "transport" JNull config
    else transport in
  if is_str "streamable_http" transport then
    NewStreamableHttp name
      (config_get "url" JNull config)
      (config_get "headers" JNull config)
      (config_get "timeout" (JInt 50) config)
  else
    NewSse name
      (config_get "url" JNull config)
      (config_get "headers" JNull config)
      (config_get "timeout" (JInt 50) config)
      (config_get "sse_read_timeout" (JInt 50) config).

(** The registry object. *)
Record t (W : Type) : Type := mk {
  _clients : dict (McpClient.t W);
  _tools : dict json
}.
Arguments mk {W}.
Arguments _clients {W}.
Arguments _tools {W}.

(** What lies outside the registry: the transports' world, and the records
    handed to [logger.error]. *)
Record env (W : Type) : Type := mk_env {
  world : W;
  error_log : list string
}.
Arguments mk_env {W}.
Arguments world {W}.
Arguments error_log {W}.

Section Registry.
Context {W : Type}.
Variable py_str : json -> string.
(** [(progress / total) * 100]: a float that is only logged, or the
    exception the division raises ([ZeroDivisionError], [TypeError],
    [OverflowError]). *)
Variable percentage : json -> json -> result unit.

Definition St : Type := t W * env W.

(** A method call on a managed transport. *)
Definition call {A} (c : M W A) : M St A :=
  fun '(self, e) =>
    let '(r, w') := c (world e) in (r, (self, mk_env w' (error_log e))).

Definition log_error (record : string) : M St unit :=
  fun '(self, e) => (Ok tt, (self, mk_env (world e) (error_log e ++ [record]))).

Definition set_tools (server_name : string) (tools : json) : M St unit :=
  update (fun self => mk (_clients self) (dict_set server_name tools (_tools self))).

(** Lines 360-364: the loop of [fetch_tools] over [self._clients.items()]. *)
Fixpoint fetch_loop (clients : dict (McpClient.t W)) (all_tools : list json)
    : M St (list json) :=
  match clients with
  | [] => ret all_tools
  | (server_name, client) :: rest =>
      tools <~ call (McpClient.list_tools client) ;;
      items <~ lift (iter tools) ;;
      set_tools server_name tools ;;
      fetch_loop rest (all_tools ++ items)
  end.

Definition fetch_tools : M St (list json) :=
  fun '(self, e) =>
    try_except (fetch_loop (_clients self) [])
      (fun ex => throw (mk_exn RuntimeError
                          ("Error fetching tools: " +:+ exn_str ex)))
      (self, e).

(** Lines 373-375: the inner loop over one server's cached catalog. *)
Fixpoint index_catalog (clients : dict (McpClient.t W)) (server_name : string)
    (tools : list json) (tool_clients : gmap key (McpClient.t W))
    : result (gmap key (McpClient.t W)) :=
  match tools with
  | [] => Ok tool_clients
  | tool :: rest =>
      match dict_get server_name clients with
      | None => index_catalog clients server_name rest tool_clients
      | Some client =>
          match getitem "name" tool with
          | Raise ex => Raise ex
          | Ok tool_name =>
              match to_key tool_name with
              | Raise ex => Raise ex
              | Ok k =>
                  index_catalog clients server_name rest
                    (<[k:=client]> tool_clients)
              end
          end
      end
  end.

(** Lines 371-375: the routing index. *)
Fixpoint index_tools (clients : dict (McpClient.t W)) (cache : dict json)
    (tool_clients : gmap key (McpClient.t W))
    : result (gmap key (McpClient.t W)) :=
  match cache with
  | [] => Ok tool_clients
  | (server_name, tools) :: rest =>
      match iter tools with
      | Raise ex => Raise ex
      | Ok items =>
          match index_catalog clients server_name items tool_clients with
          | Raise ex => Raise ex
          | Ok tool_clients' => index_tools clients rest tool_clients'
          end
      end
  end.

(** Lines 381-388: the progress report. *)
Definition report_progress (result : json) : Py.result unit :=
  match result with
  | JObj d =>
      if dict_in "progress" d then
        match getitem "progress" result with
        | Raise ex => Raise ex
        | Ok progress =>
            match getitem "total" result with
            | Raise ex => Raise ex
            | Ok total => percentage progress total
            end
        end
      else Ok tt
  | _ => Ok tt
  end.

(** Lines 377-393: the guarded part of [execute_tool]. *)
Definition dispatch (client : option (McpClient.t W)) (tool_name : string)
    (tool_args : json) : M St string :=
  try_except
    (match client with
     | None =>
         throw (mk_exn Exception_ ("there is not a tool named " +:+ tool_name))
     | Some client =>
         result <~ call (McpClient.call_tool client tool_name tool_args) ;;
         lift (report_progress result) ;;
         ret ("Tool execution result: " +:+ py_str result)
     end)
    (fun ex =>
       let error_msg := "Error executing tool: " +:+ exn_str ex in
       log_error error_msg ;;
       ret error_msg).

Definition is_empty {V} (d : dict V) : bool :=
  match d with [] => true | _ => false end.

Definition execute_tool (tool_name : string) (tool_args : json) : M St string :=
  (fun '(self, e) =>
     if is_empty (_tools self)
     then (fetch_tools ;; ret tt) (self, e)
     else (Ok tt, (self, e))) ;;
  (fun '(self, e) =>
     match index_tools (_clients self) (_tools self) ∅ with
     | Raise ex => (Raise ex, (self, e))
     | Ok tool_clients =>
         let client := tool_clients !! KStr tool_name in
         dispatch client tool_name tool_args (self, e)
     end).

(** Lines 396-400. *)
Fixpoint close_loop (clients : dict (McpClient.t W)) : M St unit :=
  match clients with
  | [] => ret tt
  | (_, client) :: rest =>
      try_except (call (McpClient.close client)) (fun ex => log_error (exn_str ex)) ;;
      close_loop rest
  end.

Definition close : M St unit :=
  fun '(self, e) => close_loop (_clients self) (self, e).

(** A catalog as servers report it: a list of descriptors, each an object
    with a string under "name". *)
Definition named_tool (tool : json) : Prop :=
  exists d n, tool = JObj d /\ dict_get "name" d = Some (JStr n).

Definition named_catalog (tools : json) : Prop :=
  exists items, tools = JArr items /\ Forall named_tool items.

(** ** What the two loops over the transports amount to *)

(** The catalogs [fetch_tools] stores until the first failure (a catalog
    query that raises, or a catalog that cannot be iterated), that failure,
    and the world left behind. *)
Fixpoint fetch_report (clients : dict (McpClient.t W)) (w : W)
    : list (string * json) * option exn * W :=
  match clients with
  | [] => ([], None, w)
  | (server_name, client) :: rest =>
      match McpClient.list_tools client w with
      | (Raise ex, w1) => ([], Some ex, w1)
      | (Ok tools, w1) =>
          match iter tools with
          | Raise ex => ([], Some ex, w1)
          | Ok _ =>
              let '(fetched, failure, w2) := fetch_report rest w1 in
              ((server_name, tools) :: fetched, failure, w2)
          end
      end
  end.

Definition store_catalogs (fetched : list (string * json)) (cache : dict json)
    : dict json :=
  foldl (fun cache entry => dict_set (fst entry) (snd entry) cache) cache fetched.

Definition flatten_catalogs (fetched : list (string * json)) : list json :=
  flat_map (fun entry => match iter (snd entry) with Ok l => l | Raise _ => [] end)
           fetched.

(** The messages of the [close()] calls that raise, in order, and the world
    after every transport's [close()] has run. *)
Fixpoint close_report (clients : dict (McpClient.t W)) (w : W) : list string * W :=
  match clients with
  | [] => ([], w)
  | (_, client) :: rest =>
      let '(r, w1) := McpClient.close client w in
      let '(failures, w2) := close_report rest w1 in
      (match r with Raise ex => exn_str ex :: failures | Ok _ => failures end, w2)
  end.

End Registry.

(** The key under which line 375 files a descriptor: [tool["name"]],
    hashed. *)
Definition tool_key (tool : json) : result key :=
  match getitem "name" tool with
  | Raise ex => Raise ex
  | Ok tool_name => to_key tool_name
  end.

Section Construction.
Context {W : Type}.
(** The constructor of the class a [transport_call] names; the one of
    [McpSseClient] connects and may raise. *)
Variable new_client : transport_call -> M W (McpClient.t W).

(** [init_client] on a configuration entry of any JSON type: lines 339-355
    with the membership test, the subscript and the [.get] of the type at
    hand. *)
Definition init_client_of (name : string) (config : json) : result transport_call :=
  match contains "transport" config with
  | Raise ex => Raise ex
  | Ok is_given =>
      match (if is_given then getitem "transport" config else Ok (JStr "sse")) with
      | Raise ex => Raise ex
      | Ok transport =>
          if is_str "streamable_http" transport then
            match get "url" JNull config with
            | Raise ex => Raise ex
            | Ok url =>
                match get "headers" JNull config with
                | Raise ex => Raise ex
                | Ok headers =>
                    match get "timeout" (JInt 50) config with
                    | Raise ex => Raise ex
                    | Ok timeout => Ok (NewStreamableHttp name url headers timeout)
                    end
                end
            end
          else
            match get "url" JNull config with
            | Raise ex => Raise ex
            | Ok url =>
                match get "headers" JNull config with
                | Raise ex => Raise ex
                | Ok headers =>
                    match get "timeout" (JInt 50) config with
                    | Raise ex => Raise ex
                    | Ok timeout =>
                        match get "sse_read_timeout" (JInt 50) config with
                        | Raise ex => Raise ex
                        | Ok sse_read_timeout =>
                            Ok (NewSse name url headers timeout sse_read_timeout)
                        end
                    end
                end
            end
      end
  end.

(** [servers_config.items()] *)
Definition items_of (servers_config : json) : result (dict json) :=
  match servers_config with
  | JObj d => Ok d
  | _ => Raise (mk_exn AttributeError
                  ("'" +:+ type_name servers_config
                   +:+ "' object has no attribute 'items'"))
  end.

(** Lines 327-328. *)
Definition unwrap (servers_config : json) : result json :=
  match contains "mcpServers" servers_config with
  | Raise ex => Raise ex
  | Ok true => getitem "mcpServers" servers_config
  | Ok false => Ok servers_config
  end.

(** Lines 329-332: the dict comprehension. *)
Fixpoint build_clients (items : dict json) (clients : dict (McpClient.t W))
    : M W (dict (McpClient.t W)) :=
  match items with
  | [] => ret clients
  | (name, config) :: rest =>
      call <~ lift (init_client_of name config) ;;
      client <~ new_client call ;;
      build_clients rest (dict_set name client clients)
  end.

(** Lines 333-334. *)
Fixpoint initialize_all (clients : dict (McpClient.t W)) : M W unit :=
  match clients with
  | [] => ret tt
  | (_, client) :: rest => McpClient.initialize client ;; initialize_all rest
  end.

Definition __init__ (servers_config : json) : M W (t W) :=
  servers_config <~ lift (unwrap servers_config) ;;
  items <~ lift (items_of servers_config) ;;
  clients <~ build_clients items [] ;;
  initialize_all clients ;;
  ret (mk clients []).

(** The worlds the loop of lines 333-334 goes through: every handshake that
    returns, then the first that raises, if any. *)
Fixpoint handshakes (clients : dict (McpClient.t W)) (w : W) : option exn * W :=
  match clients with
  | [] => (None, w)
  | (_, client) :: rest =>
      match McpClient.initialize client w with
      | (Ok _, w1) => handshakes rest w1
      | (Raise ex, w1) => (Some ex, w1)
      end
  end.

End Construction.

End McpClients.

(* ===================================================================== *)
(** * Scenarios: concrete servers to run the definitions on *)
(* ===================================================================== *)

Module Scenario.

(** [urllib.parse] on the URLs below. *)
Definition urlparse (u : string) : result ParseResult :=
  if String.eqb u "http://h/sse" then Ok (mk_parsed "http" "h" "/sse")
  else if String.eqb u "http://h/messages" then Ok (mk_parsed "http" "h" "/messages")
  else if String.eqb u "http://evil.example/messages"
       then Ok (mk_parsed "http" "evil.example" "/messages")
  else Raise (mk_exn ValueError "Invalid URL").

Definition urljoin (base ref : string) : result string :=
  if String.eqb ref "/sse" then Ok "http://h/sse"
  else if String.eqb ref "/messages" then Ok "http://h/messages"
  else if String.eqb ref "http://evil.example/messages" then Ok ref
  else Raise (mk_exn ValueError "Invalid URL").

Definition reply_x : json :=
  JObj [("jsonrpc", JStr "2.0"); ("id", JStr "x");
        ("result", JObj [("tools", JArr [JObj [("name", JStr "add")]])])].

Definition reply_y : json :=
  JObj [("jsonrpc", JStr "2.0"); ("id", JStr "y"); ("result", JObj [])].

Definition reply_error : json :=
  JObj [("jsonrpc", JStr "2.0"); ("id", JInt 1);
        ("error", JObj [("code", JInt (-32601)); ("message", JStr "Method not found")])].

(** [json.loads] on the payloads below. *)
Definition json_loads (payload : string) : result json :=
  if String.eqb payload "X" then Ok reply_x
  else if String.eqb payload "Y" then Ok reply_y
  else if String.eqb payload "E" then Ok reply_error
  else Raise (mk_exn ValueError "Expecting value: line 1 column 1 (char 0)").

Definition py_str (v : json) : string :=
  match v with
  | JStr s => s
  | _ => "..."
  end.

Definition bytes_repr (b : string) : string := "b'" +:+ b +:+ "'".

Definition percentage (progress total : json) : result unit := Ok tt.

(** An event-stream client connected to [http://h/sse], waiting for the
    reply to the request "x" while the server sends the reply to "y" first. *)
Definition waiting_for_x : McpSseClient.sys :=
  McpSseClient.mk_sys
    (McpSseClient.mk "s1" "http://h/sse" (Some "http://h/messages") ∅
       false false true false None)
    McpSseClient.LNext
    (McpSseClient.SWait (JStr "x"))
    (Ok tt)
    [mk_sse "message" "Y"; mk_sse "message" "X"]
    McpSseClient.StreamOpen.

Definition y_then_x : list McpSseClient.tid :=
  [McpSseClient.Listener; McpSseClient.Listener; McpSseClient.Listener;
   McpSseClient.Main; McpSseClient.Main; McpSseClient.Main;
   McpSseClient.Listener; McpSseClient.Listener; McpSseClient.Listener;
   McpSseClient.Main; McpSseClient.Main; McpSseClient.Main; McpSseClient.Main].

(** A streamable server that answers every request with one response. *)
Definition answer (response : Response) : Request -> M unit Response :=
  fun _ w => (Ok response, w).

Definition two_messages : Response :=
  mk_response 200 "OK" [("content-type", "text/event-stream")]
    "event: message / data: Y / / event: message / data: X / /".

Definition two_events (response : Response)
    : list ServerSentEvent * option exn :=
  ([mk_sse "message" "Y"; mk_sse "message" "X"], None).

Definition error_reply : Response :=
  mk_response 200 "OK" [("content-type", "application/json")] "E".

Definition empty_html : Response :=
  mk_response 202 "Accepted" [("content-type", "text/html")] "".

Definition some_html : Response :=
  mk_response 200 "OK" [("content-type", "text/html")] "<p>hello</p>".

Definition streamable : McpStreamableHttpClient.t :=
  McpStreamableHttpClient.__init__ "s2" "http://h/mcp".

(** Transports for the registry, whose world is the list of the calls made
    on them. *)
Definition healthy (server : string) (tools : json) : McpClient.t (list string) :=
  McpClient.mk
    (fun w => (Ok tt, (w ++ [server +:+ ".close"])%list))
    (fun w => (Ok tt, (w ++ [server +:+ ".initialize"])%list))
    (fun w => (Ok tools, (w ++ [server +:+ ".list_tools"])%list))
    (fun tool_name _ w =>
       (Ok (JArr [JObj [("type", JStr "text"); ("text", JStr "3")]]),
        (w ++ [server +:+ ".call_tool " +:+ tool_name])%list)).

Definition broken (server : string) : McpClient.t (list string) :=
  let lost := mk_exn ConnectionError (server +:+ " - connection lost") in
  McpClient.mk
    (fun w => (Raise lost, (w ++ [server +:+ ".close"])%list))
    (fun w => (Raise lost, (w ++ [server +:+ ".initialize"])%list))
    (fun w => (Raise lost, (w ++ [server +:+ ".list_tools"])%list))
    (fun tool_name _ w => (Raise lost, (w ++ [server +:+ ".call_tool " +:+ tool_name])%list)).

Definition catalog_s1 : json := JArr [JObj [("name", JStr "add")]].

Definition first_up_second_down : McpClients.t (list string) :=
  McpClients.mk [("s1", healthy "s1" catalog_s1); ("s2", broken "s2")] [].

Definition first_down_second_up : McpClients.t (list string) :=
  McpClients.mk [("s1", broken "s1"); ("s2", healthy "s2" catalog_s1)] [].

Definition cached : McpClients.t (list string) :=
  McpClients.mk [("s1", healthy "s1" catalog_s1)] [("s1", catalog_s1)].

(** A cached catalog with a descriptor that has no name. *)
Definition cached_nameless : McpClients.t (list string) :=
  McpClients.mk [("s1", healthy "s1" (JArr [JObj []]))] [("s1", JArr [JObj []])].

Definition quiet : McpClients.env (list string) := McpClients.mk_env [] [].

(** The class constructors for the registry: every server is up and
    offers [catalog_s1]; the world records the construction. *)
Definition connect_to (call : McpClients.transport_call)
    : M (list string) (McpClient.t (list string)) :=
  fun w =>
    match call with
    | McpClients.NewStreamableHttp server _ _ _ =>
        (Ok (healthy server catalog_s1), (w ++ ["McpStreamableHttpClient " +:+ server])%list)
    | McpClients.NewSse server _ _ _ _ =>
        (Ok (healthy server catalog_s1), (w ++ ["McpSseClient " +:+ server])%list)
    end.

Definition two_servers : dict json :=
  [("s1", JObj [("url", JStr "http://h/sse")]);
   ("s2", JObj [("url", JStr "http://h/mcp"); ("transport", JStr "streamable_http")])].

(** A server notification: a message without id. *)
Definition notification : json :=
  JObj [("jsonrpc", JStr "2.0"); ("method", JStr "notifications/message");
        ("params", JObj [("level", JStr "info")])].

Definition json_loads_too (payload : string) : result json :=
  if String.eqb payload "N" then Ok notification
  else if String.eqb payload "null" then Ok JNull
  else json_loads payload.

(** The client waits for the reply to "x"; the server sends a notification,
    then that reply. *)
Definition notified_before_x : McpSseClient.sys :=
  McpSseClient.mk_sys
    (McpSseClient.mk "s1" "http://h/sse" (Some "http://h/messages") ∅
       false false true false None)
    McpSseClient.LNext
    (McpSseClient.SWait (JStr "x"))
    (Ok tt)
    [mk_sse "message" "N"; mk_sse "message" "X"]
    McpSseClient.StreamOpen.

(** The same client once [close] has requested the listener's shutdown,
    the reply to "x" still unread. *)
Definition closing_before_x : McpSseClient.sys :=
  McpSseClient.mk_sys
    (McpSseClient.mk "s1" "http://h/sse" (Some "http://h/messages") ∅
       false true true false None)
    McpSseClient.LNext
    McpSseClient.CConnected
    (Ok tt)
    [mk_sse "message" "X"]
    McpSseClient.StreamOpen.

(** A history with one item of every type, and a plain text message. *)
Definition mixed_history : list History.PromptMessage :=
  [History.mk_msg "user"
     (History.ContentList
        [History.mk_item History.TEXT "look at this";
         History.mk_item History.IMAGE "photo.png";
         History.mk_item History.AUDIO "voice.mp3";
         History.mk_item History.VIDEO "clip.mp4";
         History.mk_item History.DOCUMENT "paper.pdf"])
     None;
   History.mk_msg "assistant" (History.ContentText "I see.") None].

(** Responses of a streamable server: one that opens a session, one whose
    JSON body is [null], one that is refused. *)
Definition with_session : Response :=
  mk_response 200 "OK"
    [("content-type", "application/json"); ("mcp-session-id", "abc")] "X".

Definition null_body : Response :=
  mk_response 200 "OK" [("content-type", "application/json")] "null".

Definition not_found : Response :=
  mk_response 404 "Not Found" [("content-type", "text/plain")] "no such session".

(** An event stream that breaks after its first event. *)
Definition cut_short (response : Response) : list ServerSentEvent * option exn :=
  ([mk_sse "message" "Y"], Some (mk_exn (OtherError "RemoteProtocolError")
                                  "peer closed connection")).

Definition no_events (response : Response) : list ServerSentEvent * option exn :=
  ([], None).

(** The event-stream transport: an instance with its endpoint, one whose
    listener failed, and the outside of its calls. *)
Definition connected_client : McpSseClient.t :=
  McpSseClient.mk "s1" "http://h/sse" (Some "http://h/messages") ∅
    false false true false None.

Definition failed_client : McpSseClient.t :=
  McpSseClient.mk "s1" "http://h/sse" None ∅
    false false true true (Some (mk_exn (OtherError "ConnectError") "connection refused")).

Definition status_error (response : Response) : exn :=
  mk_exn HTTPStatusError "Client error '404 Not Found'".

Definition uuid_x : M unit string := fun w => (Ok "x", w).

Definition reply_arrives (message_id : json) : M (McpSseClient.t * unit) json :=
  fun st => (Ok reply_x, st).

Definition close_fails : M unit unit :=
  fun w => (Raise (mk_exn RuntimeError "pool is busy"), w).

(** A server that refuses the GET of the event stream. *)
Definition refused : result unit :=
  Raise (mk_exn HTTPStatusError "Client error '401 Unauthorized'").

Definition listener_runs_after_first_check : list McpSseClient.tid :=
  [McpSseClient.Main; McpSseClient.Main;
   McpSseClient.Listener; McpSseClient.Listener; McpSseClient.Listener;
   McpSseClient.Listener; McpSseClient.Listener;
   McpSseClient.Main; McpSseClient.Main].

(** Registries: two servers that offer the same tool name, and a server
    whose tool answers with a progress object that has no total. *)
Definition two_up : McpClients.t (list string) :=
  McpClients.mk [("s1", healthy "s1" catalog_s1); ("s2", healthy "s2" catalog_s1)] [].

Definition two_up_cached : McpClients.t (list string) :=
  McpClients.mk [("s1", healthy "s1" catalog_s1); ("s2", healthy "s2" catalog_s1)]
    [("s1", catalog_s1); ("s2", catalog_s1)].

Definition reporting (server : string) : McpClient.t (list string) :=
  McpClient.mk
    (fun w => (Ok tt, (w ++ [server +:+ ".close"])%list))
    (fun w => (Ok tt, (w ++ [server +:+ ".initialize"])%list))
    (fun w => (Ok catalog_s1, (w ++ [server +:+ ".list_tools"])%list))
    (fun tool_name _ w =>
       (Ok (JObj [("progress", JInt 1)]),
        (w ++ [server +:+ ".call_tool " +:+ tool_name])%list)).

Definition cached_reporting : McpClients.t (list string) :=
  McpClients.mk [("s1", reporting "s1")] [("s1", catalog_s1)].

End Scenario.

(* ===================================================================== *)
(** * Properties of the history filter *)
(* ===================================================================== *)

Section HistoryFacts.
Import History.

Lemma keep_item_retained fs item : keep_item fs item = retained fs item.
Proof.
  destruct item as [ty d]. unfold keep_item, retained. simpl.
  destruct ty; simpl;
    repeat (rewrite ?bool_decide_eq_true_2, ?bool_decide_eq_false_2
              by (first [ reflexivity | discriminate | set_solver ]));
    simpl; rewrite ?orb_false_r, ?andb_false_r, ?orb_true_r; try reflexivity.
Qed.

(** Nothing the spec's pairing of modality and capability supports is
    ever removed. *)
Lemma supported_is_retained fs item :
  supported_spec fs item = true -> keep_item fs item = true.
Proof.
  rewrite keep_item_retained. destruct item as [ty d].
  unfold supported_spec, retained. simpl.
  destruct ty; simpl; intros H; rewrite ?H, ?orb_true_r; reflexivity.
Qed.

(** C4, as stated, fails: with only the vision capability declared, a video
    item is not supported by the capability set, and the helper keeps it. *)
Lemma C4_video_kept_under_vision_only :
  ~ (forall (fs : list ModelFeature) (msg : PromptMessage) (items : list content_item),
        msg_content msg = ContentList items ->
        msg_content (cleanup_message fs msg)
        = ContentList (List.filter (supported_spec fs) items)).
Proof.
  intros H.
  specialize (H [VISION] (mk_msg "user" (ContentList [mk_item VIDEO "clip.mp4"]) None)
                [mk_item VIDEO "clip.mp4"] eq_refl).
  vm_compute in H. discriminate H.
Qed.

(** C4 (amended): the helper yields one message per history message, in
    order; a message whose content is a list keeps its role and name and
    exactly the items that are text, an image under vision, audio under
    audio, video under vision or video, a document under vision or
    document, in their order; any other message is yielded unchanged. *)
Theorem C4_history_filter (model : AgentModelConfig) :
  _iter_cleanup_history_prompt_messages model
  = map (fun msg =>
           match msg_content msg with
           | ContentList items =>
               mk_msg (role msg)
                      (ContentList (List.filter (retained (features model)) items))
                      (name msg)
           | _ => msg
           end)
        (history_prompt_messages model).
Proof.
  unfold _iter_cleanup_history_prompt_messages.
  apply map_ext. intros msg. unfold cleanup_message.
  destruct (msg_content msg) as [txt|items|]; try reflexivity.
  f_equal. f_equal. apply filter_ext. intros item. apply keep_item_retained.
Qed.

End HistoryFacts.

(* ===================================================================== *)
(** * Properties of the streamable transport *)
(* ===================================================================== *)

Section StreamableFacts.
Import McpStreamableHttpClient.
Context {W : Type}.
Variable http_post : Request -> M W Response.
Variable iter_sse : Response -> list ServerSentEvent * option exn.
Variable json_loads : string -> result json.
Variable py_str : json -> string.
Variable bytes_repr : string -> string.

Local Abbreviation read_events := (read_events json_loads).
Local Abbreviation decode_body := (decode_body iter_sse json_loads).
Local Abbreviation send_message := (send_message http_post iter_sse json_loads bytes_repr).

(** [send_message] on a successful response is the decoding of its body. *)
Lemma send_message_success self w msg response w' :
  http_post (mk_request (url self) msg (request_headers self)) w = (Ok response, w') ->
  is_success response = true ->
  send_message msg (self, w)
  = (decode_body (learn_session self response) response,
     (learn_session self response, w')).
Proof.
  intros Hpost Hok. unfold send_message. rewrite Hpost, Hok. reflexivity.
Qed.

Lemma learn_session_name self response :
  name (learn_session self response) = name self.
Proof. unfold learn_session. destruct (dict_get _ _); reflexivity. Qed.

(** The loop returns the payload of the last event when every event is a
    decodable "message". *)
Lemma read_events_all_messages nm events last v init :
  Forall (fun sse => event sse = "message" /\ is_ok (json_loads (data sse)) = true) events ->
  event last = "message" ->
  json_loads (data last) = Ok v ->
  read_events nm (events ++ [last])%list init = Ok v.
Proof.
  intros Hall Hlast Hv. revert init.
  induction Hall as [|sse rest [Hname Hdec] _ IH]; intros init; simpl.
  - rewrite Hlast, Hv. reflexivity.
  - rewrite Hname. simpl.
    destruct (json_loads (data sse)); [apply IH | discriminate Hdec].
Qed.

(** The loop raises as soon as the stream holds an event of another name. *)
Lemma read_events_other_name nm events init :
  Exists (fun sse => event sse <> "message") events ->
  raises (read_events nm events init).
Proof.
  intros Hex. revert init.
  induction Hex as [sse rest Hne | sse rest _ IH]; intros init; simpl.
  - apply String.eqb_neq in Hne. rewrite Hne. exact I.
  - destruct (String.eqb (event sse) "message"); simpl; [|exact I].
    destruct (json_loads (data sse)); [apply IH | exact I].
Qed.

(** The exception is the protocol error when the events before the first
    foreign one decode. *)
Lemma read_events_unknown_event nm before sse after init :
  Forall (fun sse => event sse = "message" /\ is_ok (json_loads (data sse)) = true) before ->
  event sse <> "message" ->
  read_events nm (before ++ sse :: after)%list init
  = Raise (mk_exn Exception_ (nm +:+ " - Unknown Server-Sent Event: " +:+ event sse)).
Proof.
  intros Hall Hne. revert init.
  induction Hall as [|x rest [Hname Hdec] _ IH]; intros init; simpl.
  - apply String.eqb_neq in Hne. rewrite Hne. reflexivity.
  - rewrite Hname. simpl.
    destruct (json_loads (data x)); [apply IH | discriminate Hdec].
Qed.

(** C6: on a successful response with a non-empty body whose content type
    names an event stream: when every framed event is named "message" (and
    carries a JSON payload), [send_message] returns the payload of the
    last one; when some framed event has another name, [send_message]
    raises, with the protocol error if the events before it decode. *)
Theorem C6_streamable_event_stream_body self w msg response w' content_type :
  http_post (mk_request (url self) msg (request_headers self)) w = (Ok response, w') ->
  is_success response = true ->
  content response <> "" ->
  dict_get "content-type" (headers response) = Some content_type ->
  str_contains "text/event-stream" content_type = true ->
  (forall (events : list ServerSentEvent) last v,
      iter_sse response = ((events ++ [last])%list, None) ->
      Forall (fun sse => event sse = "message" /\ is_ok (json_loads (data sse)) = true) events ->
      event last = "message" ->
      json_loads (data last) = Ok v ->
      fst (send_message msg (self, w)) = Ok v)
  /\ (forall events stop,
      iter_sse response = (events, stop) ->
      Exists (fun sse => event sse <> "message") events ->
      raises (fst (send_message msg (self, w))))
  /\ (forall (before : list ServerSentEvent) sse after stop,
      iter_sse response = ((before ++ sse :: after)%list, stop) ->
      Forall (fun sse => event sse = "message" /\ is_ok (json_loads (data sse)) = true) before ->
      event sse <> "message" ->
      fst (send_message msg (self, w))
      = Raise (mk_exn Exception_
                 (name self +:+ " - Unknown Server-Sent Event: " +:+ event sse))).
Proof.
  intros Hpost Hok Hbody Hct Hsse.
  rewrite (send_message_success _ _ _ _ _ Hpost Hok). simpl.
  unfold McpStreamableHttpClient.decode_body.
  apply String.eqb_neq in Hbody. rewrite Hbody, Hct. simpl. rewrite Hsse.
  repeat split.
  - intros events last v Hiter Hall Hlast Hv. rewrite Hiter.
    rewrite (read_events_all_messages _ _ _ _ _ Hall Hlast Hv). reflexivity.
  - intros events stop Hiter Hex. rewrite Hiter.
    pose proof (read_events_other_name (name (learn_session self response))
                  events (JObj []) Hex) as Hr.
    destruct (read_events _ events _); [destruct Hr | exact I].
  - intros before sse after stop Hiter Hall Hne. rewrite Hiter.
    rewrite (read_events_unknown_event _ _ _ _ _ Hall Hne).
    rewrite learn_session_name. reflexivity.
Qed.

(** C10: a successful response with an empty body makes [send_message]
    return the empty result whatever its content type is, while a
    non-empty body whose content type names neither an event stream nor
    JSON raises the protocol error. *)
Theorem C10_streamable_empty_body_first self w msg response w' :
  http_post (mk_request (url self) msg (request_headers self)) w = (Ok response, w') ->
  is_success response = true ->
  (content response = "" -> fst (send_message msg (self, w)) = Ok (JObj []))
  /\ (forall content_type,
        content response <> "" ->
        content_type = default "None" (dict_get "content-type" (headers response)) ->
        str_contains "text/event-stream" content_type = false ->
        str_contains "application/json" content_type = false ->
        fst (send_message msg (self, w))
        = Raise (mk_exn Exception_
                   (name self +:+ " - Unsupported Content-Type: " +:+ content_type))).
Proof.
  intros Hpost Hok.
  rewrite (send_message_success _ _ _ _ _ Hpost Hok). simpl.
  unfold McpStreamableHttpClient.decode_body. split.
  - intros ->. reflexivity.
  - intros ct Hbody -> Hsse Hjson.
    apply String.eqb_neq in Hbody. rewrite Hbody, Hsse, Hjson.
    rewrite learn_session_name. reflexivity.
Qed.

End StreamableFacts.

(* ===================================================================== *)
(** * Properties of the protocol calls, for both transports *)
(* ===================================================================== *)

Section ProtocolFacts.
Context {W : Type}.
Variable http_post : Request -> M W Response.
Variable iter_sse : Response -> list ServerSentEvent * option exn.
Variable json_loads : string -> result json.
Variable status_error : Response -> exn.
Variable await_response : json -> M (McpSseClient.t * W) json.
Variable uuid4_hex : M W string.
Variable py_str : json -> string.
Variable bytes_repr : string -> string.

Local Abbreviation h_send :=
  (McpStreamableHttpClient.send_message http_post iter_sse json_loads bytes_repr).
Local Abbreviation h_initialize :=
  (McpStreamableHttpClient.initialize http_post iter_sse json_loads py_str bytes_repr).
Local Abbreviation h_list_tools :=
  (McpStreamableHttpClient.list_tools http_post iter_sse json_loads py_str bytes_repr).
Local Abbreviation h_call_tool :=
  (McpStreamableHttpClient.call_tool http_post iter_sse json_loads py_str bytes_repr).
Local Abbreviation s_send :=
  (McpSseClient.send_message http_post status_error await_response bytes_repr).
Local Abbreviation s_initialize :=
  (McpSseClient.initialize http_post status_error await_response uuid4_hex py_str bytes_repr).
Local Abbreviation s_list_tools :=
  (McpSseClient.list_tools http_post status_error await_response uuid4_hex py_str bytes_repr).
Local Abbreviation s_call_tool :=
  (McpSseClient.call_tool http_post status_error await_response uuid4_hex py_str bytes_repr).

Lemma fail_on_error_raises label r :
  contains "error" r = Ok true -> raises (fail_on_error py_str label r).
Proof.
  intros H. unfold fail_on_error. rewrite H.
  destruct (getitem "error" r); exact I.
Qed.

Lemma fail_on_error_clear label r :
  contains "error" r = Ok false -> fail_on_error py_str label r = Ok tt.
Proof. intros H. unfold fail_on_error. rewrite H. reflexivity. Qed.

Lemma contains_absent_key k (d : dict json) :
  dict_get k d = None -> contains k (JObj d) = Ok false.
Proof. intros H. simpl. unfold dict_in. rewrite H. reflexivity. Qed.

(** The tail shared by [list_tools] and [call_tool]: the error check, then
    [response.get("result", {}).get(field, [])]. *)
Lemma reply_raises {S} label field r (s : S) :
  contains "error" r = Ok true ->
  raises (fst ((lift (fail_on_error py_str label r) ;;
                result <~ lift (get "result" (JObj []) r) ;;
                lift (get field (JArr []) result)) s)).
Proof.
  intros H. unfold bind, lift.
  pose proof (fail_on_error_raises label r H) as Hr.
  destruct (fail_on_error py_str label r); [destruct Hr | exact I].
Qed.

Lemma reply_without_result {S} label field d (s : S) :
  dict_get "error" d = None ->
  dict_get "result" d = None ->
  (lift (fail_on_error py_str label (JObj d)) ;;
   result <~ lift (get "result" (JObj []) (JObj d)) ;;
   lift (get field (JArr []) result)) s
  = (Ok (JArr []), s).
Proof.
  intros He Hr. unfold bind, lift.
  rewrite (fail_on_error_clear _ _ (contains_absent_key _ _ He)).
  simpl. rewrite Hr. reflexivity.
Qed.

Lemma reply_with_result {S} label field d rd (s : S) :
  dict_get "error" d = None ->
  dict_get "result" d = Some (JObj rd) ->
  (lift (fail_on_error py_str label (JObj d)) ;;
   result <~ lift (get "result" (JObj []) (JObj d)) ;;
   lift (get field (JArr []) result)) s
  = (Ok (default (JArr []) (dict_get field rd)), s).
Proof.
  intros He Hr. unfold bind, lift.
  rewrite (fail_on_error_clear _ _ (contains_absent_key _ _ He)).
  simpl. rewrite Hr. simpl. destruct (dict_get field rd); reflexivity.
Qed.

(** The handshake: either of its two replies carrying an error field makes
    it raise; none doing so, it returns. *)
Lemma handshake_first_error {S} (first second : M S json) l1 l2 s r s1 :
  first s = (Ok r, s1) ->
  contains "error" r = Ok true ->
  raises (fst ((response <~ first ;;
                lift (fail_on_error py_str l1 response) ;;
                response <~ second ;;
                lift (fail_on_error py_str l2 response)) s)).
Proof.
  intros H1 He. unfold bind at 1. rewrite H1. unfold bind, lift.
  pose proof (fail_on_error_raises l1 r He) as Hr.
  destruct (fail_on_error py_str l1 r); [destruct Hr | exact I].
Qed.

Lemma handshake_second_error {S} (first second : M S json) l1 l2 s r s1 r2 s2 :
  first s = (Ok r, s1) ->
  contains "error" r = Ok false ->
  second s1 = (Ok r2, s2) ->
  contains "error" r2 = Ok true ->
  raises (fst ((response <~ first ;;
                lift (fail_on_error py_str l1 response) ;;
                response <~ second ;;
                lift (fail_on_error py_str l2 response)) s)).
Proof.
  intros H1 He1 H2 He2. unfold bind at 1. rewrite H1. unfold bind, lift.
  rewrite (fail_on_error_clear l1 r He1), H2.
  pose proof (fail_on_error_raises l2 r2 He2) as Hr.
  destruct (fail_on_error py_str l2 r2); [destruct Hr | exact I].
Qed.

Lemma handshake_no_error {S} (first second : M S json) l1 l2 s r s1 r2 s2 :
  first s = (Ok r, s1) ->
  contains "error" r = Ok false ->
  second s1 = (Ok r2, s2) ->
  contains "error" r2 = Ok false ->
  (response <~ first ;;
   lift (fail_on_error py_str l1 response) ;;
   response <~ second ;;
   lift (fail_on_error py_str l2 response)) s = (Ok tt, s2).
Proof.
  intros H1 He1 H2 He2. unfold bind at 1. rewrite H1. unfold bind, lift.
  rewrite (fail_on_error_clear l1 r He1), H2, (fail_on_error_clear l2 r2 He2).
  reflexivity.
Qed.

Lemma bind_assoc_at {S A B C} (c : M S A) (f : A -> M S B) (g : B -> M S C) s :
  (y <~ (x <~ c ;; f x) ;; g y) s = (x <~ c ;; y <~ f x ;; g y) s.
Proof. unfold bind. destruct (c s) as [[a|e] s1]; reflexivity. Qed.

(** What the claim asks of a call that sends [request] and reads [field]
    off the reply. *)
Local Abbreviation reply_contract call request field :=
  ((forall st r st',
       request st = (Ok r, st') ->
       contains "error" r = Ok true ->
       raises (fst (call st)))
   /\ (forall st d st',
       request st = (Ok (JObj d), st') ->
       dict_get "error" d = None ->
       dict_get "result" d = None ->
       call st = (Ok (JArr []), st'))
   /\ (forall st d rd st',
       request st = (Ok (JObj d), st') ->
       dict_get "error" d = None ->
       dict_get "result" d = Some (JObj rd) ->
       call st = (Ok (default (JArr []) (dict_get field rd)), st'))).

(** What it asks of the handshake, which sends [first] then [second]. *)
Local Abbreviation handshake_contract call first second :=
  ((forall st r st1,
       first st = (Ok r, st1) ->
       contains "error" r = Ok true ->
       raises (fst (call st)))
   /\ (forall st r st1 r2 st2,
       first st = (Ok r, st1) ->
       contains "error" r = Ok false ->
       second st1 = (Ok r2, st2) ->
       contains "error" r2 = Ok true ->
       raises (fst (call st)))
   /\ (forall st r st1 r2 st2,
       first st = (Ok r, st1) ->
       contains "error" r = Ok false ->
       second st1 = (Ok r2, st2) ->
       contains "error" r2 = Ok false ->
       call st = (Ok tt, st2))).

Lemma reply_contract_holds {S} (request : M S json) label field :
  reply_contract
    (response <~ request ;;
     lift (fail_on_error py_str label response) ;;
     result <~ lift (get "result" (JObj []) response) ;;
     lift (get field (JArr []) result))
    request field.
Proof.
  repeat split.
  - intros st r st' Hsend He. unfold bind at 1. rewrite Hsend.
    apply reply_raises, He.
  - intros st d st' Hsend He Hr. unfold bind at 1. rewrite Hsend.
    apply reply_without_result; assumption.
  - intros st d rd st' Hsend He Hr. unfold bind at 1. rewrite Hsend.
    apply reply_with_result; assumption.
Qed.

Lemma handshake_contract_holds {S} (first second : M S json) l1 l2 :
  handshake_contract
    (response <~ first ;;
     lift (fail_on_error py_str l1 response) ;;
     response <~ second ;;
     lift (fail_on_error py_str l2 response))
    first second.
Proof.
  repeat split; intros.
  - eapply handshake_first_error; eassumption.
  - eapply handshake_second_error; eassumption.
  - eapply handshake_no_error; eassumption.
Qed.

(** The event-stream calls draw their request id first; regrouped, they are
    the same three steps on the request "draw an id, then send". *)
Lemma s_list_tools_regroup st :
  s_list_tools st
  = (response <~ (id <~ in_world uuid4_hex ;; s_send (McpSseClient.tools_data id)) ;;
     lift (fail_on_error py_str "MCP Server tools/list error: " response) ;;
     result <~ lift (get "result" (JObj []) response) ;;
     lift (get "tools" (JArr []) result)) st.
Proof. unfold McpSseClient.list_tools. symmetry. apply bind_assoc_at. Qed.

Lemma s_call_tool_regroup tool_name tool_args st :
  s_call_tool tool_name tool_args st
  = (response <~ (id <~ in_world uuid4_hex ;;
                  s_send (McpSseClient.call_data id tool_name tool_args)) ;;
     lift (fail_on_error py_str "MCP Server tools/call error: " response) ;;
     result <~ lift (get "result" (JObj []) response) ;;
     lift (get "content" (JArr []) result)) st.
Proof. unfold McpSseClient.call_tool. symmetry. apply bind_assoc_at. Qed.

Lemma s_initialize_regroup st :
  s_initialize st
  = (response <~ (id <~ in_world uuid4_hex ;; s_send (McpSseClient.init_data id)) ;;
     lift (fail_on_error py_str "MCP Server initialize error: " response) ;;
     response <~ s_send McpSseClient.notify_data ;;
     lift (fail_on_error py_str "MCP Server notifications/initialized error: " response)) st.
Proof. unfold McpSseClient.initialize. symmetry. apply bind_assoc_at. Qed.

(** C7: for the streamable and for the event-stream transport, [initialize],
    [list_tools] and [call_tool] raise when the reply they decode carries an
    error field; when a reply object carries none, [list_tools] returns the
    "tools" entry of its result and [call_tool] the "content" entry, the
    empty list when the entry or the result is absent, and [initialize]
    returns. *)
Theorem C7_protocol_calls_check_error_field :
  handshake_contract h_initialize
    (h_send McpStreamableHttpClient.init_data)
    (h_send McpStreamableHttpClient.notify_data)
  /\ reply_contract h_list_tools (h_send McpStreamableHttpClient.tools_data) "tools"
  /\ (forall tool_name tool_args,
        reply_contract (h_call_tool tool_name tool_args)
          (h_send (McpStreamableHttpClient.call_data tool_name tool_args)) "content")
  /\ handshake_contract s_initialize
       (id <~ in_world uuid4_hex ;; s_send (McpSseClient.init_data id))
       (s_send McpSseClient.notify_data)
  /\ reply_contract s_list_tools
       (id <~ in_world uuid4_hex ;; s_send (McpSseClient.tools_data id)) "tools"
  /\ (forall tool_name tool_args,
        reply_contract (s_call_tool tool_name tool_args)
          (id <~ in_world uuid4_hex ;;
           s_send (McpSseClient.call_data id tool_name tool_args)) "content").
Proof.
  split; [apply handshake_contract_holds|].
  split; [apply reply_contract_holds|].
  split; [intros; apply reply_contract_holds|].
  split.
  { pose proof (handshake_contract_holds
                  (id <~ in_world uuid4_hex ;; s_send (McpSseClient.init_data id))
                  (s_send McpSseClient.notify_data)
                  "MCP Server initialize error: "
                  "MCP Server notifications/initialized error: ") as (H1 & H2 & H3).
    repeat split; intros; rewrite s_initialize_regroup; eauto. }
  split.
  { pose proof (reply_contract_holds
                  (id <~ in_world uuid4_hex ;; s_send (McpSseClient.tools_data id))
                  "MCP Server tools/list error: " "tools") as (H1 & H2 & H3).
    repeat split; intros; rewrite s_list_tools_regroup; eauto. }
  intros tool_name tool_args.
  pose proof (reply_contract_holds
                (id <~ in_world uuid4_hex ;;
                 s_send (McpSseClient.call_data id tool_name tool_args))
                "MCP Server tools/call error: " "content") as (H1 & H2 & H3).
  repeat split; intros; rewrite s_call_tool_regroup; eauto.
Qed.

End ProtocolFacts.

(* ===================================================================== *)
(** * Properties of the registry *)
(* ===================================================================== *)

(** C9: the factory instantiates the streamable transport exactly when the
    configuration's "transport" entry is the string "streamable_http"; with
    any other entry, or none, it instantiates the event-stream transport,
    never an error. *)
Theorem C9_init_client_transport_kind (name : string) (config : dict json) :
  (dict_get "transport" config = Some (JStr "streamable_http") ->
   McpClients.init_client name config
   = McpClients.NewStreamableHttp name
       (McpClients.config_get "url" JNull config)
       (McpClients.config_get "headers" JNull config)
       (McpClients.config_get "timeout" (JInt 50) config))
  /\ (dict_get "transport" config <> Some (JStr "streamable_http") ->
      McpClients.init_client name config
      = McpClients.NewSse name
          (McpClients.config_get "url" JNull config)
          (McpClients.config_get "headers" JNull config)
          (McpClients.config_get "timeout" (JInt 50) config)
          (McpClients.config_get "sse_read_timeout" (JInt 50) config)).
Proof.
  unfold McpClients.init_client, McpClients.config_get, dict_in. split.
  - intros ->. reflexivity.
  - intros Hne. destruct (dict_get "transport" config) as [v|]; [|reflexivity].
    destruct v as [| |n|s| |]; try reflexivity. unfold is_str.
    destruct (String.eqb_spec "streamable_http" s) as [<-|]; [|reflexivity].
    contradiction Hne. reflexivity.
Qed.

(** ** The catalog cache as a dict *)

Lemma dict_get_set_eq {V} k (v : V) d : dict_get k (dict_set k v d) = Some v.
Proof.
  induction d as [|[k' v'] d IH]; simpl.
  - by rewrite String.eqb_refl.
  - destruct (String.eqb k k') eqn:E; simpl; [by rewrite String.eqb_refl|].
    by rewrite E.
Qed.

Lemma dict_get_set_ne {V} k k' (v : V) d :
  k <> k' -> dict_get k' (dict_set k v d) = dict_get k' d.
Proof.
  intros Hne. induction d as [|[k0 v0] d IH]; simpl.
  - destruct (String.eqb_spec k' k); [congruence|done].
  - destruct (String.eqb_spec k k0) as [->|]; simpl.
    + destruct (String.eqb_spec k' k0); [congruence|done].
    + destruct (String.eqb k' k0); [done|apply IH].
Qed.

Lemma store_catalogs_other fetched cache server :
  ~ In server (map fst fetched) ->
  dict_get server (McpClients.store_catalogs fetched cache) = dict_get server cache.
Proof.
  revert cache. induction fetched as [|[n tools] rest IH]; intros cache Hnot; [done|].
  simpl in *. unfold McpClients.store_catalogs in *. simpl.
  rewrite IH by tauto. apply dict_get_set_ne. tauto.
Qed.

Lemma store_catalogs_stored fetched cache server :
  In server (map fst fetched) ->
  exists tools,
    In (server, tools) fetched
    /\ dict_get server (McpClients.store_catalogs fetched cache) = Some tools.
Proof.
  revert cache. induction fetched as [|[n tools] rest IH]; intros cache Hin; [done|].
  unfold McpClients.store_catalogs in *. simpl in *.
  destruct (in_dec String.string_dec server (map fst rest)) as [Hr|Hr].
  - destruct (IH (dict_set n tools cache) Hr) as (t & Ht & Hg). eauto.
  - destruct Hin as [->|Hin]; [|contradiction].
    exists tools. split; [by left|].
    pose proof (store_catalogs_other rest (dict_set server tools cache) server Hr) as H.
    unfold McpClients.store_catalogs in H. rewrite H. apply dict_get_set_eq.
Qed.

Section RegistryFacts.
Context {W : Type}.
Variable py_str : json -> string.
Variable percentage : json -> json -> result unit.

Local Abbreviation fetch_loop := (@McpClients.fetch_loop W).
Local Abbreviation fetch_tools := (@McpClients.fetch_tools W).
Local Abbreviation dispatch := (@McpClients.dispatch W py_str percentage).
Local Abbreviation execute_tool := (@McpClients.execute_tool W py_str percentage).
Local Abbreviation close_loop := (@McpClients.close_loop W).

(** ** close *)

Lemma close_loop_report clients self e :
  close_loop clients (self, e)
  = (Ok tt,
     (self,
      McpClients.mk_env (snd (McpClients.close_report clients (McpClients.world e)))
        (McpClients.error_log e
           ++ fst (McpClients.close_report clients (McpClients.world e))))).
Proof.
  revert e. induction clients as [|[server_name client] rest IH]; intros [w log].
  - simpl. unfold ret. rewrite app_nil_r. reflexivity.
  - simpl. unfold bind, try_except, McpClients.call, McpClients.log_error. simpl.
    destruct (McpClient.close client w) as [[[]|ex] w1] eqn:Hc; simpl;
      rewrite IH; simpl;
      destruct (McpClients.close_report rest w1) as [failures w2]; simpl.
    + reflexivity.
    + rewrite <- app_assoc. reflexivity.
Qed.

Lemma close_report_world clients (w : W) :
  snd (McpClients.close_report clients w)
  = foldl (fun w client => snd (McpClient.close client w)) w (map snd clients).
Proof.
  revert w. induction clients as [|[server_name client] rest IH]; intros w.
  - reflexivity.
  - simpl. destruct (McpClient.close client w) as [r w1] eqn:Hc. simpl.
    rewrite <- IH.
    destruct (McpClients.close_report rest w1) as [failures w2]. reflexivity.
Qed.

(** C8: [close] never raises; it runs the [close()] of every managed
    transport, in order, each from the world the previous ones left,
    whether or not an earlier one raised; and it logs the message of each
    one that raised. *)
Theorem C8_close_continues_past_failures (self : McpClients.t W) (e : McpClients.env W) :
  fst (McpClients.close (self, e)) = Ok tt
  /\ fst (snd (McpClients.close (self, e))) = self
  /\ McpClients.world (snd (snd (McpClients.close (self, e))))
     = foldl (fun w client => snd (McpClient.close client w))
             (McpClients.world e) (map snd (McpClients._clients self))
  /\ McpClients.error_log (snd (snd (McpClients.close (self, e))))
     = (McpClients.error_log e
        ++ fst (McpClients.close_report (McpClients._clients self) (McpClients.world e)))%list.
Proof.
  unfold McpClients.close. rewrite close_loop_report. simpl.
  rewrite close_report_world. repeat split.
Qed.

(** ** fetch_tools *)

Lemma fetch_loop_report clients self e all_tools :
  fetch_loop clients all_tools (self, e)
  = (match snd (fst (McpClients.fetch_report clients (McpClients.world e))) with
     | Some ex => Raise ex
     | None =>
         Ok (all_tools
             ++ McpClients.flatten_catalogs
                  (fst (fst (McpClients.fetch_report clients (McpClients.world e)))))%list
     end,
     (McpClients.mk (McpClients._clients self)
        (McpClients.store_catalogs
           (fst (fst (McpClients.fetch_report clients (McpClients.world e))))
           (McpClients._tools self)),
      McpClients.mk_env
        (snd (McpClients.fetch_report clients (McpClients.world e)))
        (McpClients.error_log e))).
Proof.
  revert self e all_tools.
  induction clients as [|[server_name client] rest IH]; intros [cs cache] [w log] all_tools.
  - simpl. unfold ret. rewrite app_nil_r. reflexivity.
  - simpl. unfold bind, McpClients.call, lift, McpClients.set_tools, update. simpl.
    destruct (McpClient.list_tools client w) as [[tools|ex] w1] eqn:Hl; simpl;
      [|reflexivity].
    destruct (iter tools) as [items|ex] eqn:Hi; simpl; [|reflexivity].
    rewrite IH. simpl.
    destruct (McpClients.fetch_report rest w1) as [[fetched failure] w2]. simpl.
    unfold McpClients.flatten_catalogs. simpl. rewrite Hi.
    rewrite <- app_assoc. reflexivity.
Qed.

(** [fetch_tools] in one equation: the flattened catalogs when every query
    succeeds, one [RuntimeError] otherwise; either way the cache holds the
    catalogs fetched until then. *)
Lemma fetch_tools_report self e :
  fetch_tools (self, e)
  = (match snd (fst (McpClients.fetch_report (McpClients._clients self) (McpClients.world e))) with
     | Some ex => Raise (mk_exn RuntimeError ("Error fetching tools: " +:+ exn_str ex))
     | None =>
         Ok (McpClients.flatten_catalogs
               (fst (fst (McpClients.fetch_report (McpClients._clients self)
                            (McpClients.world e)))))
     end,
     (McpClients.mk (McpClients._clients self)
        (McpClients.store_catalogs
           (fst (fst (McpClients.fetch_report (McpClients._clients self)
                        (McpClients.world e))))
           (McpClients._tools self)),
      McpClients.mk_env
        (snd (McpClients.fetch_report (McpClients._clients self) (McpClients.world e)))
        (McpClients.error_log e))).
Proof.
  unfold McpClients.fetch_tools, try_except. rewrite fetch_loop_report. simpl.
  destruct (snd (fst (McpClients.fetch_report _ _))); reflexivity.
Qed.

(** The servers whose catalogs were stored come before the failing one. *)
Lemma fetch_report_prefix clients (w : W) fetched ex w' :
  McpClients.fetch_report clients w = (fetched, Some ex, w') ->
  exists failing later,
    map fst clients = (map fst fetched ++ failing :: later)%list.
Proof.
  revert w fetched. induction clients as [|[server_name client] rest IH];
    intros w fetched H; simpl in H.
  - discriminate H.
  - destruct (McpClient.list_tools client w) as [[tools|ex1] w1].
    + destruct (iter tools) as [items|ex1].
      * destruct (McpClients.fetch_report rest w1) as [[f1 fl] w2] eqn:Hr.
        injection H as <- -> <-.
        destruct (IH _ _ Hr) as (failing & later & Heq).
        exists failing, later. simpl. rewrite Heq. reflexivity.
      * injection H as <- _ _. exists server_name, (map fst rest). reflexivity.
    + injection H as <- _ _. exists server_name, (map fst rest). reflexivity.
Qed.

(** C5 (amended): when a managed transport's catalog query fails,
    [fetch_tools] raises one [RuntimeError] that carries the failure's
    message and no server name, and returns no list; the cache keeps the
    catalogs of the servers queried before the failing one, stored under
    their names, and the entries of the other servers are as they were. *)
Theorem C5_fetch_tools_failure (self : McpClients.t W) (e : McpClients.env W)
    (fetched : list (string * json)) (ex : exn) (w' : W) :
  McpClients.fetch_report (McpClients._clients self) (McpClients.world e)
  = (fetched, Some ex, w') ->
  fetch_tools (self, e)
  = (Raise (mk_exn RuntimeError ("Error fetching tools: " +:+ exn_str ex)),
     (McpClients.mk (McpClients._clients self)
        (McpClients.store_catalogs fetched (McpClients._tools self)),
      McpClients.mk_env w' (McpClients.error_log e)))
  /\ (exists failing later,
        map fst (McpClients._clients self)
        = (map fst fetched ++ failing :: later)%list)
  /\ (forall server,
        In server (map fst fetched) ->
        exists tools,
          In (server, tools) fetched
          /\ dict_get server
                (McpClients.store_catalogs fetched (McpClients._tools self))
             = Some tools)
  /\ (forall server,
        ~ In server (map fst fetched) ->
        dict_get server (McpClients.store_catalogs fetched (McpClients._tools self))
        = dict_get server (McpClients._tools self)).
Proof.
  intros H. split; [|split; [|split]].
  - rewrite fetch_tools_report, H. reflexivity.
  - eapply fetch_report_prefix. exact H.
  - intros server. apply store_catalogs_stored.
  - intros server. apply store_catalogs_other.
Qed.

(** ** execute_tool *)

(** The guarded part always returns a string of one of two shapes. *)
Lemma dispatch_returns client tool_name tool_args st :
  exists s st',
    dispatch client tool_name tool_args st = (Ok s, st')
    /\ ((exists r, s = "Tool execution result: " +:+ py_str r)
        \/ (exists ex, s = "Error executing tool: " +:+ exn_str ex))
    /\ (client = None ->
        s = "Error executing tool: there is not a tool named " +:+ tool_name).
Proof.
  destruct st as [self [w log]].
  unfold McpClients.dispatch, try_except. destruct client as [client|].
  - unfold bind, McpClients.call, lift, ret, McpClients.log_error. simpl.
    destruct (McpClient.call_tool client tool_name tool_args w) as [[r|ex] w1]; simpl.
    + destruct (McpClients.report_progress percentage r) as [[]|ex]; simpl.
      * eexists _, _. split; [reflexivity|]. split; [left; eauto | discriminate].
      * eexists _, _. split; [reflexivity|]. split; [right; eauto | discriminate].
    + eexists _, _. split; [reflexivity|]. split; [right; eauto | discriminate].
  - unfold throw, bind, McpClients.log_error, ret. simpl.
    eexists _, _. split; [reflexivity|]. split; [|reflexivity].
    right. exists (mk_exn Exception_ ("there is not a tool named " +:+ tool_name)).
    reflexivity.
Qed.

(** With a catalog cached, [execute_tool] goes straight to the routing
    index. *)
Lemma execute_tool_cached self e tool_name tool_args :
  McpClients._tools self <> [] ->
  execute_tool tool_name tool_args (self, e)
  = match McpClients.index_tools (McpClients._clients self) (McpClients._tools self) ∅ with
    | Raise ex => (Raise ex, (self, e))
    | Ok tool_clients =>
        dispatch (tool_clients !! KStr tool_name) tool_name tool_args (self, e)
    end.
Proof.
  intros Hne. unfold McpClients.execute_tool, bind.
  destruct (McpClients._tools self) eqn:Ht; [contradiction|]. simpl.
  rewrite Ht. reflexivity.
Qed.

(** With none cached, it fetches first, and a failed fetch is its outcome. *)
Lemma execute_tool_uncached self e tool_name tool_args :
  McpClients._tools self = [] ->
  execute_tool tool_name tool_args (self, e)
  = match fetch_tools (self, e) with
    | (Raise ex, st') => (Raise ex, st')
    | (Ok _, (self', e')) =>
        match McpClients.index_tools (McpClients._clients self')
                (McpClients._tools self') ∅ with
        | Raise ex => (Raise ex, (self', e'))
        | Ok tool_clients =>
            dispatch (tool_clients !! KStr tool_name) tool_name tool_args (self', e')
        end
    end.
Proof.
  intros Ht. unfold McpClients.execute_tool, bind. rewrite Ht.
  cbn [McpClients.is_empty].
  destruct (McpClients.fetch_tools (self, e)) as [[l|ex] [self' e']]; reflexivity.
Qed.

(** The routing index builds from catalogs of named descriptors. *)
Lemma index_catalog_named clients server_name items acc :
  Forall McpClients.named_tool items ->
  exists tool_clients,
    McpClients.index_catalog (W:=W) clients server_name items acc = Ok tool_clients.
Proof.
  intros Hall. revert acc.
  induction Hall as [|tool rest (d & n & -> & Hn) _ IH]; intros acc; simpl.
  - eauto.
  - destruct (dict_get server_name clients); [|apply IH].
    rewrite Hn. simpl. apply IH.
Qed.

Lemma index_tools_named clients cache acc :
  Forall (fun entry => McpClients.named_catalog (snd entry)) cache ->
  exists tool_clients,
    McpClients.index_tools (W:=W) clients cache acc = Ok tool_clients.
Proof.
  intros Hall. revert acc.
  induction Hall as [|[server_name tools] rest (items & Ht & Hitems) _ IH];
    intros acc; simpl.
  - eauto.
  - simpl in Ht. subst tools. simpl.
    destruct (index_catalog_named clients server_name items acc Hitems) as [tc ->].
    apply IH.
Qed.

(** C1, as stated, fails: with no catalog cached and one transport whose
    catalog query raises, [execute_tool] raises. *)
Lemma C1_execute_tool_raises_when_fetch_fails :
  ~ (forall (W : Type) (py_str : json -> string)
            (percentage : json -> json -> result unit)
            (self : McpClients.t W) (e : McpClients.env W)
            (tool_name : string) (tool_args : json),
        is_ok (fst (McpClients.execute_tool py_str percentage tool_name tool_args (self, e)))
        = true).
Proof.
  intros H.
  specialize (H unit (fun _ => "") (fun _ _ => Ok tt)
                (McpClients.mk
                   [("s1", McpClient.mk
                             (fun w => (Ok tt, w))
                             (fun w => (Ok tt, w))
                             (fun w => (Raise (mk_exn ConnectionError "connection lost"), w))
                             (fun _ _ w => (Ok (JArr []), w)))]
                   [])
                (McpClients.mk_env tt [])
                "missing-tool" (JObj [])).
  vm_compute in H. discriminate H.
Qed.

(** C1 (amended): once the routing index is built, from a cached catalog
    or from one fetched on the spot, [execute_tool] returns a string,
    either the success string embedding the result or an error string, and
    for a name absent from the index the error string naming it; with no
    catalog cached and a fetch that fails, it raises the fetch's error. *)
Theorem C1_execute_tool_outcomes (self : McpClients.t W) (e : McpClients.env W)
    (tool_name : string) (tool_args : json) :
  (forall tool_clients,
      McpClients._tools self <> [] ->
      McpClients.index_tools (McpClients._clients self) (McpClients._tools self) ∅
      = Ok tool_clients ->
      exists s st',
        execute_tool tool_name tool_args (self, e) = (Ok s, st')
        /\ ((exists r, s = "Tool execution result: " +:+ py_str r)
            \/ (exists ex, s = "Error executing tool: " +:+ exn_str ex))
        /\ (tool_clients !! KStr tool_name = None ->
            s = "Error executing tool: there is not a tool named " +:+ tool_name))
  /\ (forall all_tools self' e' tool_clients,
      McpClients._tools self = [] ->
      fetch_tools (self, e) = (Ok all_tools, (self', e')) ->
      McpClients.index_tools (McpClients._clients self') (McpClients._tools self') ∅
      = Ok tool_clients ->
      exists s st',
        execute_tool tool_name tool_args (self, e) = (Ok s, st')
        /\ ((exists r, s = "Tool execution result: " +:+ py_str r)
            \/ (exists ex, s = "Error executing tool: " +:+ exn_str ex))
        /\ (tool_clients !! KStr tool_name = None ->
            s = "Error executing tool: there is not a tool named " +:+ tool_name))
  /\ (forall ex st',
      McpClients._tools self = [] ->
      fetch_tools (self, e) = (Raise ex, st') ->
      execute_tool tool_name tool_args (self, e) = (Raise ex, st')
      /\ exn_cls ex = RuntimeError).
Proof.
  split; [|split].
  - intros tool_clients Hne Hidx.
    rewrite (execute_tool_cached _ _ _ _ Hne), Hidx.
    apply dispatch_returns.
  - intros all_tools self' e' tool_clients Hempty Hfetch Hidx.
    rewrite (execute_tool_uncached _ _ _ _ Hempty), Hfetch, Hidx.
    apply dispatch_returns.
  - intros ex st' Hempty Hfetch. split.
    + rewrite (execute_tool_uncached _ _ _ _ Hempty), Hfetch. reflexivity.
    + rewrite fetch_tools_report in Hfetch.
      destruct (snd (fst (McpClients.fetch_report _ _))); [|discriminate Hfetch].
      injection Hfetch as <- _. reflexivity.
Qed.

End RegistryFacts.

(* ===================================================================== *)
(** * Properties of the event-stream transport: the two threads *)
(* ===================================================================== *)

Section MachineFacts.
Import McpSseClient.
Variable urljoin : string -> string -> result string.
Variable urlparse : string -> result ParseResult.
Variable json_loads : string -> result json.

Local Abbreviation listener_step := (listener_step urljoin urlparse json_loads).
Local Abbreviation step := (step urljoin urlparse json_loads).
Local Abbreviation run := (run urljoin urlparse json_loads).
Local Abbreviation pop_count := (pop_count urljoin urlparse json_loads).

Lemma run_app a b s : run (a ++ b) s = run b (run a s).
Proof. unfold McpSseClient.run. apply foldl_app. Qed.

Lemma run_cons th rest s : run (th :: rest) s = run rest (step s th).
Proof. reflexivity. Qed.

(** The listener never touches the calling thread's position. *)
Lemma listener_step_mpc s s' : listener_step s = Some s' -> mpc s' = mpc s.
Proof.
  unfold McpSseClient.listener_step. intros H.
  repeat case_match; simplify_eq; reflexivity.
Qed.

Lemma returned_stays schedule s m :
  mpc s = SReturned m ->
  mpc (run schedule s) = SReturned m /\ pop_count schedule s = 0%nat.
Proof.
  revert s. induction schedule as [|th rest IH]; intros s Hm; [by split|].
  rewrite run_cons. cbn [McpSseClient.pop_count].
  assert (mpc (step s th) = SReturned m) as Hm'.
  { unfold McpSseClient.step. destruct th; simpl.
    - destruct (listener_step s) as [s'|] eqn:Hl; simpl; [|done].
      by rewrite (listener_step_mpc _ _ Hl).
    - unfold main_step. by rewrite Hm. }
  destruct (IH _ Hm') as [-> ->]. rewrite Hm. by destruct th.
Qed.

Lemma decode_message_key data k message :
  decode_message json_loads data = Ok (k, message) -> message_key message = Ok k.
Proof.
  unfold decode_message. intros H.
  repeat case_match; simplify_eq. done.
Qed.

Section Waiting.
Variable message_id : json.
Variable kx : key.
Hypothesis Hkey : to_key message_id = Ok kx.

Lemma listener_step_invariant s s' :
  listener_step s = Some s' ->
  waiting_invariant message_id kx s -> waiting_invariant message_id kx s'.
Proof.
  intros Hstep [Hkeyed Hstore Hpc Hpop Hwake].
  unfold McpSseClient.listener_step in Hstep.
  repeat case_match; simplify_eq; simpl in *;
    (split; simpl; [..|]; try done).
  all: try (intros Hw Hin; destruct (Hwake Hw Hin) as [?|?]; [by left | done]).
  - intros k0 m [= <- <-]. by eapply decode_message_key.
  - intros k0 m. rewrite lookup_insert. case_decide; [|by apply Hkeyed].
    intros [= <-]. subst k0. by apply Hstore.
  - intros Hp. apply lookup_insert_is_Some'. right. by apply Hpop.
  - by right.
  - by left.
Qed.

Lemma main_step_invariant s s' :
  main_step s = Some s' ->
  waiting_invariant message_id kx s -> waiting_invariant message_id kx s'.
Proof.
  intros Hstep [Hkeyed Hstore Hpc Hpop Hwake].
  assert (in_loop message_id (mpc s)) as Hloop.
  { destruct Hpc as [?|[m Hm]]; [done|].
    unfold main_step in Hstep. by rewrite Hm in Hstep. }
  unfold main_step in Hstep.
  destruct Hloop as [Hm|[Hm|[Hm|Hm]]]; rewrite Hm in Hstep.
  - destruct (response_ready (self s)); [|done]. injection Hstep as <-.
    split; cbn; try done. left. unfold in_loop. auto.
  - injection Hstep as <-.
    split; cbn; try done. left. unfold in_loop. auto.
  - rewrite Hkey in Hstep.
    destruct (message_dict (self s) !! kx) as [m|] eqn:Hl; injection Hstep as <-.
    + split; cbn; try done. left. unfold in_loop. auto.
    + split; cbn; try done.
      * left. unfold in_loop. auto.
      * intros _ [m Hin]. rewrite Hl in Hin. done.
  - rewrite Hkey in Hstep. injection Hstep as <-.
    split; cbn; try done.
    + intros k m. rewrite lookup_delete. case_decide; [done|]. apply Hkeyed.
    + right. eauto.
Qed.

Lemma step_invariant s th :
  waiting_invariant message_id kx s -> waiting_invariant message_id kx (step s th).
Proof.
  intros Hinv. unfold McpSseClient.step. destruct th; simpl.
  - destruct (listener_step s) as [s'|] eqn:Hl; simpl; [|done].
    by eapply listener_step_invariant.
  - destruct (main_step s) as [s'|] eqn:Hm; simpl; [|done].
    by eapply main_step_invariant.
Qed.

Lemma run_invariant schedule s :
  waiting_invariant message_id kx s -> waiting_invariant message_id kx (run schedule s).
Proof.
  revert s. induction schedule as [|th rest IH]; intros s Hinv; [done|].
  rewrite run_cons. apply IH, step_invariant, Hinv.
Qed.

Lemma in_loop_not_returned pc m : in_loop message_id pc -> pc <> SReturned m.
Proof. intros [-> | [-> | [-> | ->]]]; discriminate. Qed.

Lemma listener_turn_mpc s : mpc (step s Listener) = mpc s.
Proof.
  unfold McpSseClient.step. simpl.
  destruct (listener_step s) as [s'|] eqn:Hl; simpl; [|done].
  by eapply listener_step_mpc.
Qed.

(** The listener only adds to the table and only raises the signal. *)
Lemma listener_turn_keeps_entry s k :
  is_Some (message_dict (self s) !! k) ->
  is_Some (message_dict (self (step s Listener)) !! k).
Proof.
  intros Hin. unfold McpSseClient.step. simpl.
  destruct (listener_step s) as [s'|] eqn:Hl; simpl; [|done].
  unfold McpSseClient.listener_step in Hl.
  repeat case_match; simplify_eq; simpl; try done.
  apply lookup_insert_is_Some'. by right.
Qed.

Lemma listener_turn_keeps_signal s :
  response_ready (self s) = true ->
  response_ready (self (step s Listener)) = true.
Proof.
  intros Hr. unfold McpSseClient.step. simpl.
  destruct (listener_step s) as [s'|] eqn:Hl; simpl; [|done].
  unfold McpSseClient.listener_step in Hl.
  repeat case_match; simplify_eq; simpl; done.
Qed.

(** Safety: the call returns only by removing, once, the entry it found
    under its own key. *)
Lemma wait_returns_own_entry schedule s m :
  waiting_invariant message_id kx s ->
  in_loop message_id (mpc s) ->
  mpc (run schedule s) = SReturned m ->
  message_key m = Ok kx
  /\ pop_count schedule s = 1%nat
  /\ exists before after,
       schedule = (before ++ Main :: after)%list
       /\ mpc (run before s) = SPop message_id
       /\ message_dict (self (run before s)) !! kx = Some m
       /\ message_dict (self (step (run before s) Main))
          = delete kx (message_dict (self (run before s))).
Proof.
  revert s. induction schedule as [|th rest IH]; intros s Hinv Hloop Hret.
  - simpl in Hret. by apply in_loop_not_returned with (m:=m) in Hloop.
  - rewrite run_cons in Hret. cbn [McpSseClient.pop_count].
    destruct th.
    + (* a turn of the listener *)
      assert (in_loop message_id (mpc (step s Listener))) as Hloop'
        by (by rewrite listener_turn_mpc).
      destruct (IH _ (step_invariant _ _ Hinv) Hloop' Hret)
        as (Hk & Hn & before & after & Heq & Hpc & Hl & Hd); subst rest.
      split; [done|]. split; [by rewrite Hn|].
      exists (Listener :: before), after. by rewrite !run_cons.
    + (* a turn of the calling thread *)
      destruct Hloop as [Hm|[Hm|[Hm|Hm]]].
      * assert (in_loop message_id (mpc (step s Main))) as Hloop'.
        { unfold McpSseClient.step, in_loop. simpl. unfold main_step. rewrite Hm.
          destruct (response_ready (self s)); simpl; auto. }
        destruct (IH _ (step_invariant _ _ Hinv) Hloop' Hret)
          as (Hk & Hn & before & after & Heq & Hpc & Hl & Hd); subst rest.
        split; [done|]. split; [by rewrite Hm, Hn|].
        exists (Main :: before), after. by rewrite !run_cons.
      * assert (in_loop message_id (mpc (step s Main))) as Hloop'.
        { unfold McpSseClient.step, in_loop. simpl. unfold main_step. rewrite Hm.
          simpl. auto. }
        destruct (IH _ (step_invariant _ _ Hinv) Hloop' Hret)
          as (Hk & Hn & before & after & Heq & Hpc & Hl & Hd); subst rest.
        split; [done|]. split; [by rewrite Hm, Hn|].
        exists (Main :: before), after. by rewrite !run_cons.
      * assert (in_loop message_id (mpc (step s Main))) as Hloop'.
        { unfold McpSseClient.step, in_loop. simpl. unfold main_step.
          rewrite Hm, Hkey.
          destruct (message_dict (self s) !! kx); simpl; auto. }
        destruct (IH _ (step_invariant _ _ Hinv) Hloop' Hret)
          as (Hk & Hn & before & after & Heq & Hpc & Hl & Hd); subst rest.
        split; [done|]. split; [by rewrite Hm, Hn|].
        exists (Main :: before), after. by rewrite !run_cons.
      * destruct (inv_pop _ _ _ Hinv Hm) as [m0 Hm0].
        assert (step s Main
                = goto_m (SReturned m0)
                    (with_self (fun o => set_message_dict (delete kx (message_dict o)) o) s))
          as Hstep.
        { unfold McpSseClient.step. simpl. unfold main_step.
          rewrite Hm, Hkey, Hm0. reflexivity. }
        assert (mpc (step s Main) = SReturned m0) as Hret0 by (by rewrite Hstep).
        destruct (returned_stays rest _ _ Hret0) as [Hret1 Hn].
        rewrite Hret1 in Hret. injection Hret as <-.
        split; [by eapply inv_keyed|]. split; [by rewrite Hm, Hn|].
        exists [], rest. simpl. rewrite Hstep. done.
Qed.

(** Liveness: with its entry in the table and the signal raised, the call
    returns within its next four turns, whatever the listener does in
    between. *)
Lemma wait_delivers schedule s :
  waiting_invariant message_id kx s ->
  is_Some (message_dict (self s) !! kx) ->
  (mpc s = SWait message_id -> response_ready (self s) = true) ->
  (turns_left (mpc s) <= main_turns schedule)%nat ->
  exists m, mpc (run schedule s) = SReturned m.
Proof.
  revert s. induction schedule as [|th rest IH]; intros s Hinv Hin Hsig Hturns.
  - destruct (inv_pc _ _ _ Hinv) as [[Hm|[Hm|[Hm|Hm]]]|[m Hm]];
      try (rewrite Hm in Hturns; unfold main_turns in Hturns; simpl in Hturns; lia).
    by exists m.
  - destruct (inv_pc _ _ _ Hinv) as [Hloop|[m Hm]].
    2:{ exists m. by apply returned_stays. }
    rewrite run_cons. destruct th.
    + apply IH.
      * by apply step_invariant.
      * by apply listener_turn_keeps_entry.
      * rewrite listener_turn_mpc. intros Hm. by apply listener_turn_keeps_signal, Hsig.
      * by rewrite listener_turn_mpc.
    + change (main_turns (Main :: rest)) with (S (main_turns rest)) in Hturns.
      destruct Hloop as [Hm|[Hm|[Hm|Hm]]]; rewrite Hm in Hturns; simpl in Hturns.
      * assert (step s Main = goto_m (SClear message_id) s) as Hstep.
        { unfold McpSseClient.step. simpl. unfold main_step.
          by rewrite Hm, (Hsig Hm). }
        apply IH.
        -- by apply step_invariant.
        -- by rewrite Hstep.
        -- by rewrite Hstep.
        -- rewrite Hstep. simpl. lia.
      * assert (step s Main
                = goto_m (SCheck message_id) (with_self (set_response_ready false) s))
          as Hstep.
        { unfold McpSseClient.step. simpl. unfold main_step. by rewrite Hm. }
        apply IH.
        -- by apply step_invariant.
        -- by rewrite Hstep.
        -- by rewrite Hstep.
        -- rewrite Hstep. simpl. lia.
      * destruct Hin as [m0 Hm0].
        assert (step s Main = goto_m (SPop message_id) s) as Hstep.
        { unfold McpSseClient.step. simpl. unfold main_step.
          by rewrite Hm, Hkey, Hm0. }
        apply IH.
        -- by apply step_invariant.
        -- rewrite Hstep. simpl. by exists m0.
        -- by rewrite Hstep.
        -- rewrite Hstep. simpl. lia.
      * destruct Hin as [m0 Hm0]. exists m0.
        apply returned_stays.
        unfold McpSseClient.step. simpl. unfold main_step.
        by rewrite Hm, Hkey, Hm0.
Qed.

End Waiting.

(** C2: a call of [send_message] waiting for the request id [message_id]
    (hashing to the key [kx], not yet in the table), run against the
    listener under any schedule:
    - returns only a message stored under [kx], whose own id hashes to
      [kx], taken from the table by a single removal that leaves every other
      entry in place, whatever was delivered before under other ids;
    - once the listener has stored an entry under [kx] and raised the
      signal, returns within its next four turns;
    - and the table never lists a key twice. *)
Theorem C2_send_message_waits_for_its_response
    (message_id : json) (kx : key) (s0 : sys) :
  to_key message_id = Ok kx ->
  mpc s0 = SWait message_id ->
  message_dict (self s0) !! kx = None ->
  (forall k m, message_dict (self s0) !! k = Some m -> message_key m = Ok k) ->
  (forall k m, lpc s0 = LStore k m -> message_key m = Ok k) ->
  (forall schedule m,
      mpc (run schedule s0) = SReturned m ->
      message_key m = Ok kx
      /\ pop_count schedule s0 = 1%nat
      /\ exists before after,
           schedule = (before ++ Main :: after)%list
           /\ mpc (run before s0) = SPop message_id
           /\ message_dict (self (run before s0)) !! kx = Some m
           /\ message_dict (self (step (run before s0) Main))
              = delete kx (message_dict (self (run before s0))))
  /\ (forall schedule more,
      is_Some (message_dict (self (run schedule s0)) !! kx) ->
      lpc (run schedule s0) <> LSetReady ->
      (4 <= main_turns more)%nat ->
      exists m, mpc (run (schedule ++ more) s0) = SReturned m)
  /\ (forall schedule,
      NoDup (map fst (map_to_list (message_dict (self (run schedule s0)))))).
Proof.
  intros Hkey Hpc Hfresh Hkeyed Hstore.
  assert (waiting_invariant message_id kx s0) as Hinv.
  { split; try done.
    - left. unfold in_loop. auto.
    - rewrite Hpc. discriminate.
    - intros _ [m Hm]. rewrite Hfresh in Hm. discriminate. }
  split; [|split].
  - intros schedule m Hret.
    apply (wait_returns_own_entry message_id kx Hkey schedule s0 m Hinv); [|done].
    unfold in_loop. auto.
  - intros schedule more Hin Hsig Hturns. rewrite run_app.
    pose proof (run_invariant message_id kx Hkey schedule s0 Hinv) as Hinv'.
    apply (wait_delivers message_id kx Hkey more _ Hinv' Hin).
    + intros Hw. destruct (inv_wake _ _ _ Hinv' Hw Hin) as [?|?]; done.
    + destruct (inv_pc _ _ _ Hinv') as [[Hm|[Hm|[Hm|Hm]]]|[m Hm]];
        rewrite Hm; simpl; lia.
  - intros schedule. apply NoDup_fst_map_to_list.
Qed.

(** ** connect and the endpoint check *)

(** One turn of a schedule, computed on the state as it stands. *)
Ltac turn :=
  rewrite run_cons;
  unfold McpSseClient.step at 1, thread_step, main_step, McpSseClient.listener_step;
  cbn -[append McpSseClient.run McpSseClient.remove_request_params].

(** C3, first half, fails on the code: the listener raises [_connected]
    (line 87) before it compares the origins (lines 88-94), and [connect]
    leaves its loop as soon as [_connected] is raised.  With the calling
    thread at its wait when line 87 runs, the constructor returns normally
    with the cross-origin endpoint recorded, and stays returned after the
    listener has recorded the [ValueError]; only when the listener gets to
    line 104 before [connect] looks (the last conjunct) does the constructor
    raise. *)
Theorem C3_cross_origin_endpoint_can_pass
    (name url payload endpoint cleaned : string) (url_parsed endpoint_parsed : ParseResult)
    (rest : list ServerSentEvent) (ending : stream_end) :
  remove_request_params urljoin urlparse url = Ok cleaned ->
  urljoin url payload = Ok endpoint ->
  urlparse url = Ok url_parsed ->
  urlparse endpoint = Ok endpoint_parsed ->
  (netloc url_parsed <> netloc endpoint_parsed
   \/ scheme url_parsed <> scheme endpoint_parsed) ->
  let s0 := construct name url (Ok tt) (mk_sse "endpoint" payload :: rest) ending in
  let mismatch :=
    mk_exn ValueError
      (name +:+ " - Endpoint origin does not match connection origin: " +:+ endpoint) in
  let s1 := run [Main; Main; Listener; Listener; Listener; Listener; Main] s0 in
  let s2 := run [Listener; Listener; Listener; Listener] s1 in
  (mpc s1 = CConnected /\ endpoint_url (self s1) = Some endpoint)
  /\ (mpc s2 = CConnected
      /\ endpoint_url (self s2) = Some endpoint
      /\ _error_event (self s2) = true
      /\ _thread_exception (self s2) = Some mismatch)
  /\ mpc (run [Main; Listener; Listener; Listener; Listener; Listener;
               Listener; Listener; Main] s0)
     = CFailed mismatch.
Proof.
  intros Hclean Hjoin Hurl Hend Hdiff s0 mismatch.
  assert (forall o, McpSseClient.name o = name -> McpSseClient.url o = url ->
            check_origin urlparse o endpoint = Raise mismatch) as Hcheck.
  { intros o Hn Hu. unfold check_origin. rewrite Hu, Hurl, Hend, Hn.
    destruct Hdiff as [Hd|Hd]; apply String.eqb_neq in Hd; rewrite Hd; simpl.
    - reflexivity.
    - by rewrite orb_true_r. }
  intros s1 s2. unfold s2, s1. rewrite <- run_app. cbn [app].
  unfold s0, construct, __init__.
  repeat split.
  - do 2 turn. turn. rewrite Hclean. do 2 turn. rewrite Hjoin. do 2 turn. reflexivity.
  - do 2 turn. turn. rewrite Hclean. do 2 turn. rewrite Hjoin. do 2 turn. reflexivity.
  - do 2 turn. turn. rewrite Hclean. do 2 turn. rewrite Hjoin. do 3 turn.
    rewrite Hcheck by reflexivity. do 3 turn. reflexivity.
  - do 2 turn. turn. rewrite Hclean. do 2 turn. rewrite Hjoin. do 3 turn.
    rewrite Hcheck by reflexivity. do 3 turn. reflexivity.
  - do 2 turn. turn. rewrite Hclean. do 2 turn. rewrite Hjoin. do 3 turn.
    rewrite Hcheck by reflexivity. do 3 turn. reflexivity.
  - do 2 turn. turn. rewrite Hclean. do 2 turn. rewrite Hjoin. do 3 turn.
    rewrite Hcheck by reflexivity. do 3 turn. reflexivity.
  - turn. turn. rewrite Hclean. do 2 turn. rewrite Hjoin. do 2 turn.
    rewrite Hcheck by reflexivity. do 3 turn. reflexivity.
Qed.

(** ** connect with an endpoint of the same origin *)

Ltac conn_done :=
  unfold connecting_listener, connecting_main in *; simpl in *;
  repeat case_match; simplify_eq; intuition (auto; congruence).

Section SameOrigin.
Variables (nm u payload endpoint cleaned : string).
Hypothesis Hclean : remove_request_params urljoin urlparse u = Ok cleaned.
Hypothesis Hjoin : urljoin u payload = Ok endpoint.
Hypothesis Hsame :
  forall o, McpSseClient.name o = nm -> McpSseClient.url o = u ->
            check_origin urlparse o endpoint = Ok tt.

Lemma connecting_step s th :
  connecting_invariant nm u payload endpoint s ->
  connecting_invariant nm u payload endpoint (step s th).
Proof.
  intros Hinv. pose proof Hinv as [Hn Hu Herr Hstop Hget Hopen Hend Hl Hm].
  unfold McpSseClient.step. destruct th; simpl.
  - unfold McpSseClient.listener_step, connecting_listener in *.
    destruct (lpc s) eqn:Hpc; try done; simpl.
    + rewrite Hu, Hclean, Hget. simpl. split; simpl; try done; conn_done.
    + destruct Hl as [Hin|[Hin He]]; rewrite Hin.
      * rewrite Hstop. simpl. split; simpl; try done; conn_done.
      * rewrite Hopen. simpl. split; simpl; try done; conn_done.
    + destruct Hl as [-> Hin]. rewrite Hu, Hjoin. simpl.
      split; simpl; try done; conn_done.
    + split; simpl; try done; conn_done.
    + destruct Hl as [He Hin]. rewrite He, (Hsame _ Hn Hu). simpl.
      split; simpl; try done; conn_done.
  - unfold main_step, connecting_main in *.
    destruct (mpc s) eqn:Hpc; try done; simpl.
    + rewrite Hm. simpl. split; simpl; try done; conn_done.
    + rewrite Herr. simpl. split; simpl; try done; conn_done.
    + destruct (_connected (self s)) eqn:Hc; simpl;
        split; simpl; try done; conn_done.
    + assert (is_alive s = true) as ->.
      { unfold is_alive. unfold connecting_listener in Hl.
        destruct (lpc s); try done. }
      simpl. split; simpl; try done; conn_done.
Qed.

Lemma connecting_initially :
  connecting_invariant nm u payload endpoint
    (construct nm u (Ok tt) [mk_sse "endpoint" payload] StreamOpen).
Proof. split; simpl; try done; conn_done. Qed.

Lemma connecting_run schedule s :
  connecting_invariant nm u payload endpoint s ->
  connecting_invariant nm u payload endpoint (run schedule s).
Proof.
  revert s. induction schedule as [|th rest IH]; intros s Hinv; [done|].
  rewrite run_cons. apply IH, connecting_step, Hinv.
Qed.

(** C3, second half: with an endpoint of the connection's origin, the
    constructor never raises, whatever the schedule; when it has returned
    the session is marked connected with the endpoint recorded and no error;
    and it does return, for instance when the calling thread looks again
    once the listener has handled the event. *)
Lemma same_origin_endpoint_connects schedule :
  let s0 := construct nm u (Ok tt) [mk_sse "endpoint" payload] StreamOpen in
  (forall e, mpc (run schedule s0) <> CFailed e)
  /\ (mpc (run schedule s0) = CConnected ->
      _connected (self (run schedule s0)) = true
      /\ endpoint_url (self (run schedule s0)) = Some endpoint
      /\ _error_event (self (run schedule s0)) = false)
  /\ mpc (run [Main; Main; Listener; Listener; Listener; Listener; Listener; Main] s0)
     = CConnected.
Proof.
  intros s0.
  pose proof (connecting_run schedule s0 connecting_initially)
    as [Hn Hu Herr Hstop Hget Hopen Hend Hl Hm].
  split; [|split].
  - intros e He. unfold connecting_main in Hm. by rewrite He in Hm.
  - intros Hc. unfold connecting_main in Hm. rewrite Hc in Hm. auto.
  - unfold s0, construct, __init__.
    do 2 turn. turn. rewrite Hclean. do 2 turn. rewrite Hjoin. do 2 turn.
    rewrite Hsame by reflexivity. turn. reflexivity.
Qed.

End SameOrigin.

End MachineFacts.

(* ===================================================================== *)
(** * The properties on the scenarios *)
(* ===================================================================== *)

(** [close] on a registry whose first transport fails to close: the second
    one is closed all the same, and the failure is logged. *)
Example close_first_down_second_up :
  McpClients.close (Scenario.first_down_second_up, Scenario.quiet)
  = (Ok tt,
     (Scenario.first_down_second_up,
      McpClients.mk_env ["s1.close"; "s2.close"] ["s1 - connection lost"])).
Proof. reflexivity. Qed.

(** C5, as stated, fails: the first server answers, the second does not;
    [fetch_tools] raises and the cache, empty before, holds the first
    server's catalog. *)
Lemma C5_failed_fetch_keeps_partial_cache :
  ~ (forall (W : Type) (self : McpClients.t W) (e : McpClients.env W),
        raises (fst (McpClients.fetch_tools (self, e))) ->
        McpClients._tools (fst (snd (McpClients.fetch_tools (self, e))))
        = McpClients._tools self).
Proof.
  intros H.
  specialize (H _ Scenario.first_up_second_down Scenario.quiet I).
  vm_compute in H. discriminate H.
Qed.

Lemma C5_fetch_tools_failure_witness :
  McpClients.fetch_report (McpClients._clients Scenario.first_up_second_down) []
  = ([("s1", Scenario.catalog_s1)],
     Some (mk_exn ConnectionError "s2 - connection lost"),
     ["s1.list_tools"; "s2.list_tools"])
  /\ McpClients.fetch_tools (Scenario.first_up_second_down, Scenario.quiet)
     = (Raise (mk_exn RuntimeError "Error fetching tools: s2 - connection lost"),
        (McpClients.mk (McpClients._clients Scenario.first_up_second_down)
           [("s1", Scenario.catalog_s1)],
         McpClients.mk_env ["s1.list_tools"; "s2.list_tools"] [])).
Proof.
  split; [reflexivity|].
  exact (proj1 (C5_fetch_tools_failure Scenario.first_up_second_down Scenario.quiet
                  [("s1", Scenario.catalog_s1)]
                  (mk_exn ConnectionError "s2 - connection lost")
                  ["s1.list_tools"; "s2.list_tools"] eq_refl)).
Defined.

Lemma C1_execute_tool_outcomes_witness :
  McpClients._tools Scenario.cached <> []
  /\ McpClients.index_tools (McpClients._clients Scenario.cached)
       (McpClients._tools Scenario.cached) ∅
     = Ok (<[KStr "add" := Scenario.healthy "s1" Scenario.catalog_s1]> ∅)
  /\ exists s st',
       McpClients.execute_tool Scenario.py_str Scenario.percentage
         "missing-tool" (JObj []) (Scenario.cached, Scenario.quiet) = (Ok s, st')
       /\ ((exists r, s = "Tool execution result: " +:+ Scenario.py_str r)
           \/ (exists ex, s = "Error executing tool: " +:+ exn_str ex))
       /\ ((<[KStr "add" := Scenario.healthy "s1" Scenario.catalog_s1]> ∅
              : gmap key (McpClient.t (list string))) !! KStr "missing-tool" = None ->
           s = "Error executing tool: there is not a tool named " +:+ "missing-tool").
Proof.
  split; [discriminate|]. split; [reflexivity|].
  apply (proj1 (C1_execute_tool_outcomes Scenario.py_str Scenario.percentage
                  Scenario.cached Scenario.quiet "missing-tool" (JObj [])));
    [discriminate | reflexivity].
Defined.

(** The scenario of the spec: "missing-tool" on a registry with a catalog. *)
Example execute_missing_tool :
  fst (McpClients.execute_tool Scenario.py_str Scenario.percentage
         "missing-tool" (JObj []) (Scenario.cached, Scenario.quiet))
  = Ok "Error executing tool: there is not a tool named missing-tool".
Proof. reflexivity. Qed.

(** A cached descriptor without a name: the [KeyError] of [tool["name"]]
    (line 375) leaves [execute_tool]. *)
Example execute_with_nameless_descriptor :
  fst (McpClients.execute_tool Scenario.py_str Scenario.percentage
         "add" (JObj []) (Scenario.cached_nameless, Scenario.quiet))
  = Raise (mk_exn KeyError "'name'").
Proof. reflexivity. Qed.

Example execute_known_tool :
  McpClients.execute_tool Scenario.py_str Scenario.percentage
    "add" (JObj [("a", JInt 1); ("b", JInt 2)]) (Scenario.cached, Scenario.quiet)
  = (Ok "Tool execution result: ...",
     (Scenario.cached, McpClients.mk_env ["s1.call_tool add"] [])).
Proof. reflexivity. Qed.

Lemma C9_init_client_transport_kind_witness :
  (dict_get "transport" [("url", JStr "http://h/mcp"); ("transport", JStr "streamable_http")]
   = Some (JStr "streamable_http")
   /\ McpClients.init_client "s2"
        [("url", JStr "http://h/mcp"); ("transport", JStr "streamable_http")]
      = McpClients.NewStreamableHttp "s2" (JStr "http://h/mcp") JNull (JInt 50))
  /\ (dict_get "transport" [("url", JStr "http://h/sse")] <> Some (JStr "streamable_http")
      /\ McpClients.init_client "s1" [("url", JStr "http://h/sse")]
         = McpClients.NewSse "s1" (JStr "http://h/sse") JNull (JInt 50) (JInt 50))
  /\ (dict_get "transport" [("url", JStr "http://h/mcp"); ("transport", JStr "streamable-http")]
      <> Some (JStr "streamable_http")
      /\ McpClients.init_client "s3"
           [("url", JStr "http://h/mcp"); ("transport", JStr "streamable-http")]
         = McpClients.NewSse "s3" (JStr "http://h/mcp") JNull (JInt 50) (JInt 50)).
Proof.
  split; [|split].
  - split; [reflexivity|].
    exact (proj1 (C9_init_client_transport_kind "s2"
                    [("url", JStr "http://h/mcp"); ("transport", JStr "streamable_http")])
             eq_refl).
  - assert (dict_get "transport" [("url", JStr "http://h/sse")]
            <> Some (JStr "streamable_http")) as H by discriminate.
    split; [exact H|].
    exact (proj2 (C9_init_client_transport_kind "s1" [("url", JStr "http://h/sse")]) H).
  - assert (dict_get "transport"
              [("url", JStr "http://h/mcp"); ("transport", JStr "streamable-http")]
            <> Some (JStr "streamable_http")) as H by discriminate.
    split; [exact H|].
    exact (proj2 (C9_init_client_transport_kind "s3"
                    [("url", JStr "http://h/mcp"); ("transport", JStr "streamable-http")]) H).
Defined.

Lemma C6_streamable_event_stream_body_witness :
  (Scenario.answer Scenario.two_messages
     (mk_request "http://h/mcp" McpStreamableHttpClient.tools_data
        (McpStreamableHttpClient.request_headers Scenario.streamable)) tt
   = (Ok Scenario.two_messages, tt)
   /\ is_success Scenario.two_messages = true
   /\ content Scenario.two_messages <> ""
   /\ dict_get "content-type" (headers Scenario.two_messages) = Some "text/event-stream"
   /\ str_contains "text/event-stream" "text/event-stream" = true)
  /\ fst (McpStreamableHttpClient.send_message
            (Scenario.answer Scenario.two_messages) Scenario.two_events
            Scenario.json_loads Scenario.bytes_repr
            McpStreamableHttpClient.tools_data (Scenario.streamable, tt))
     = Ok Scenario.reply_x.
Proof.
  assert (content Scenario.two_messages <> "") as Hbody by discriminate.
  split; [repeat split; try reflexivity; exact Hbody|].
  apply (proj1 (C6_streamable_event_stream_body
                  (Scenario.answer Scenario.two_messages) Scenario.two_events
                  Scenario.json_loads Scenario.bytes_repr
                  Scenario.streamable tt McpStreamableHttpClient.tools_data
                  Scenario.two_messages tt "text/event-stream"
                  eq_refl eq_refl Hbody eq_refl eq_refl)
           [mk_sse "message" "Y"] (mk_sse "message" "X") Scenario.reply_x).
  - reflexivity.
  - constructor; [split; reflexivity | constructor].
  - reflexivity.
  - reflexivity.
Defined.

Lemma C10_streamable_empty_body_first_witness :
  (Scenario.answer Scenario.empty_html
     (mk_request "http://h/mcp" McpStreamableHttpClient.notify_data
        (McpStreamableHttpClient.request_headers Scenario.streamable)) tt
   = (Ok Scenario.empty_html, tt)
   /\ is_success Scenario.empty_html = true
   /\ content Scenario.empty_html = ""
   /\ fst (McpStreamableHttpClient.send_message
             (Scenario.answer Scenario.empty_html) Scenario.two_events
             Scenario.json_loads Scenario.bytes_repr
             McpStreamableHttpClient.notify_data (Scenario.streamable, tt))
      = Ok (JObj []))
  /\ (Scenario.answer Scenario.some_html
        (mk_request "http://h/mcp" McpStreamableHttpClient.notify_data
           (McpStreamableHttpClient.request_headers Scenario.streamable)) tt
      = (Ok Scenario.some_html, tt)
      /\ is_success Scenario.some_html = true
      /\ content Scenario.some_html <> ""
      /\ fst (McpStreamableHttpClient.send_message
                (Scenario.answer Scenario.some_html) Scenario.two_events
                Scenario.json_loads Scenario.bytes_repr
                McpStreamableHttpClient.notify_data (Scenario.streamable, tt))
         = Raise (mk_exn Exception_ "s2 - Unsupported Content-Type: text/html")).
Proof.
  split.
  - split; [reflexivity|]. split; [reflexivity|]. split; [reflexivity|].
    exact (proj1 (C10_streamable_empty_body_first
                    (Scenario.answer Scenario.empty_html) Scenario.two_events
                    Scenario.json_loads Scenario.bytes_repr
                    Scenario.streamable tt McpStreamableHttpClient.notify_data
                    Scenario.empty_html tt eq_refl eq_refl) eq_refl).
  - assert (content Scenario.some_html <> "") as Hbody by discriminate.
    split; [reflexivity|]. split; [reflexivity|]. split; [exact Hbody|].
    exact (proj2 (C10_streamable_empty_body_first
                    (Scenario.answer Scenario.some_html) Scenario.two_events
                    Scenario.json_loads Scenario.bytes_repr
                    Scenario.streamable tt McpStreamableHttpClient.notify_data
                    Scenario.some_html tt eq_refl eq_refl)
             "text/html" Hbody eq_refl eq_refl eq_refl).
Defined.

Lemma C7_protocol_calls_check_error_field_witness :
  McpStreamableHttpClient.send_message
    (Scenario.answer Scenario.error_reply) Scenario.two_events
    Scenario.json_loads Scenario.bytes_repr
    McpStreamableHttpClient.tools_data (Scenario.streamable, tt)
  = (Ok Scenario.reply_error, (Scenario.streamable, tt))
  /\ contains "error" Scenario.reply_error = Ok true
  /\ raises (fst (McpStreamableHttpClient.list_tools
                    (Scenario.answer Scenario.error_reply) Scenario.two_events
                    Scenario.json_loads Scenario.py_str Scenario.bytes_repr
                    (Scenario.streamable, tt))).
Proof.
  split; [reflexivity|]. split; [reflexivity|].
  exact (proj1 (proj1 (proj2
           (C7_protocol_calls_check_error_field
              (Scenario.answer Scenario.error_reply) Scenario.two_events
              Scenario.json_loads
              (fun _ => mk_exn HTTPStatusError "Client error")
              (fun _ st => (Ok Scenario.reply_x, st))
              (fun w => (Ok "x", w))
              Scenario.py_str Scenario.bytes_repr)))
           (Scenario.streamable, tt) Scenario.reply_error (Scenario.streamable, tt)
           eq_refl eq_refl).
Defined.

(** The same reply, by computation: the exception [list_tools] raises. *)
Example list_tools_error_reply :
  fst (McpStreamableHttpClient.list_tools
         (Scenario.answer Scenario.error_reply) Scenario.two_events
         Scenario.json_loads Scenario.py_str Scenario.bytes_repr
         (Scenario.streamable, tt))
  = Raise (mk_exn Exception_ "MCP Server tools/list error: ...").
Proof. reflexivity. Qed.

(** The reply to "y" is delivered first: the call for "x" wakes up, finds
    nothing under its id, waits again, and returns the reply to "x" once
    it is there; the reply to "y" stays in the table. *)
Example y_then_x_returns_x :
  McpSseClient.mpc
    (McpSseClient.run Scenario.urljoin Scenario.urlparse Scenario.json_loads
       Scenario.y_then_x Scenario.waiting_for_x)
  = McpSseClient.SReturned Scenario.reply_x
  /\ McpSseClient.message_dict
       (McpSseClient.self
          (McpSseClient.run Scenario.urljoin Scenario.urlparse Scenario.json_loads
             Scenario.y_then_x Scenario.waiting_for_x))
     = {[ KStr "y" := Scenario.reply_y ]}.
Proof. split; reflexivity. Qed.

Lemma C2_send_message_waits_for_its_response_witness :
  (to_key (JStr "x") = Ok (KStr "x")
   /\ McpSseClient.mpc Scenario.waiting_for_x = McpSseClient.SWait (JStr "x")
   /\ McpSseClient.message_dict (McpSseClient.self Scenario.waiting_for_x) !! KStr "x" = None
   /\ McpSseClient.mpc
        (McpSseClient.run Scenario.urljoin Scenario.urlparse Scenario.json_loads
           Scenario.y_then_x Scenario.waiting_for_x)
      = McpSseClient.SReturned Scenario.reply_x)
  /\ McpSseClient.message_key Scenario.reply_x = Ok (KStr "x")
  /\ McpSseClient.pop_count Scenario.urljoin Scenario.urlparse Scenario.json_loads
       Scenario.y_then_x Scenario.waiting_for_x = 1%nat.
Proof.
  split; [repeat split; reflexivity|].
  assert (forall k m,
            McpSseClient.message_dict (McpSseClient.self Scenario.waiting_for_x) !! k = Some m ->
            McpSseClient.message_key m = Ok k) as Hkeyed.
  { intros k m H. simpl in H. rewrite lookup_empty in H. discriminate H. }
  assert (forall k m,
            McpSseClient.lpc Scenario.waiting_for_x = McpSseClient.LStore k m ->
            McpSseClient.message_key m = Ok k) as Hstore.
  { intros k m H. discriminate H. }
  destruct (proj1 (C2_send_message_waits_for_its_response
                     Scenario.urljoin Scenario.urlparse Scenario.json_loads
                     (JStr "x") (KStr "x") Scenario.waiting_for_x
                     eq_refl eq_refl eq_refl Hkeyed Hstore)
              Scenario.y_then_x Scenario.reply_x eq_refl) as (Hk & Hn & _).
  split; [exact Hk | exact Hn].
Defined.

Lemma C3_cross_origin_endpoint_can_pass_witness :
  (McpSseClient.remove_request_params Scenario.urljoin Scenario.urlparse "http://h/sse"
   = Ok "http://h/sse"
   /\ Scenario.urljoin "http://h/sse" "http://evil.example/messages"
      = Ok "http://evil.example/messages"
   /\ Scenario.urlparse "http://h/sse" = Ok (mk_parsed "http" "h" "/sse")
   /\ Scenario.urlparse "http://evil.example/messages"
      = Ok (mk_parsed "http" "evil.example" "/messages")
   /\ "h" <> "evil.example")
  /\ McpSseClient.mpc
       (McpSseClient.run Scenario.urljoin Scenario.urlparse Scenario.json_loads
          [McpSseClient.Main; McpSseClient.Main; McpSseClient.Listener;
           McpSseClient.Listener; McpSseClient.Listener; McpSseClient.Listener;
           McpSseClient.Main]
          (McpSseClient.construct "s1" "http://h/sse" (Ok tt)
             [mk_sse "endpoint" "http://evil.example/messages"]
             McpSseClient.StreamOpen))
     = McpSseClient.CConnected
  /\ McpSseClient.endpoint_url
       (McpSseClient.self
          (McpSseClient.run Scenario.urljoin Scenario.urlparse Scenario.json_loads
             [McpSseClient.Main; McpSseClient.Main; McpSseClient.Listener;
              McpSseClient.Listener; McpSseClient.Listener; McpSseClient.Listener;
              McpSseClient.Main]
             (McpSseClient.construct "s1" "http://h/sse" (Ok tt)
                [mk_sse "endpoint" "http://evil.example/messages"]
                McpSseClient.StreamOpen)))
     = Some "http://evil.example/messages".
Proof.
  assert ("h" <> "evil.example") as Hdiff by discriminate.
  split; [repeat split; try reflexivity; exact Hdiff|].
  exact (proj1 (C3_cross_origin_endpoint_can_pass
                  Scenario.urljoin Scenario.urlparse Scenario.json_loads
                  "s1" "http://h/sse" "http://evil.example/messages"
                  "http://evil.example/messages" "http://h/sse"
                  (mk_parsed "http" "h" "/sse")
                  (mk_parsed "http" "evil.example" "/messages")
                  [] McpSseClient.StreamOpen
                  eq_refl eq_refl eq_refl eq_refl (or_introl Hdiff))).
Defined.

(* ===================================================================== *)
(** * Further properties of the history filter *)
(* ===================================================================== *)

Section HistoryMore.
Import History.

Lemma keep_item_monotone fs fs' item :
  (forall f, f ∈ fs -> f ∈ fs') ->
  keep_item fs item = true -> keep_item fs' item = true.
Proof.
  intros Hsub. rewrite !keep_item_retained. unfold retained, has_feature.
  assert (forall f, bool_decide (f ∈ fs) = true -> bool_decide (f ∈ fs') = true) as Hb.
  { intros f Hf. apply bool_decide_eq_true in Hf. apply bool_decide_eq_true. auto. }
  destruct (item_type item); try done; try apply Hb.
  - intros [H|H]%orb_true_iff; apply orb_true_iff; [left|right]; by apply Hb.
  - intros [H|H]%orb_true_iff; apply orb_true_iff; [left|right]; by apply Hb.
Qed.

Lemma filter_filter_monotone fs fs' (items : list content_item) :
  (forall f, f ∈ fs -> f ∈ fs') ->
  List.filter (keep_item fs) (List.filter (keep_item fs') items)
  = List.filter (keep_item fs) items.
Proof.
  intros Hsub. induction items as [|item rest IH]; [done|]. simpl.
  destruct (keep_item fs' item) eqn:E'; simpl.
  - destruct (keep_item fs item); by rewrite IH.
  - destruct (keep_item fs item) eqn:E; [|done].
    apply (keep_item_monotone _ _ _ Hsub) in E. congruence.
Qed.

Lemma cleanup_message_twice fs fs' (msg : PromptMessage) :
  (forall f, f ∈ fs -> f ∈ fs') ->
  cleanup_message fs (cleanup_message fs' msg) = cleanup_message fs msg.
Proof.
  intros Hsub. unfold cleanup_message.
  destruct (msg_content msg) as [txt|items|] eqn:E; simpl.
  - by rewrite E.
  - by rewrite (filter_filter_monotone _ _ _ Hsub).
  - by rewrite E.
Qed.

(** Filtering composes along capability sets: a history already filtered
    for a model with more capabilities, filtered again for one with fewer,
    is the history filtered for the latter. *)
Theorem cleanup_after_richer_model (fs fs' : list ModelFeature)
    (history : list PromptMessage) :
  (forall f, f ∈ fs -> f ∈ fs') ->
  _iter_cleanup_history_prompt_messages
    (mk_model fs (_iter_cleanup_history_prompt_messages (mk_model fs' history)))
  = _iter_cleanup_history_prompt_messages (mk_model fs history).
Proof.
  intros Hsub. unfold _iter_cleanup_history_prompt_messages. simpl.
  rewrite List.map_map. apply map_ext. intros msg.
  by apply cleanup_message_twice.
Qed.

(** The helper is idempotent: a filtered history passes unchanged. *)
Theorem cleanup_idempotent (model : AgentModelConfig) :
  _iter_cleanup_history_prompt_messages
    (mk_model (features model) (_iter_cleanup_history_prompt_messages model))
  = _iter_cleanup_history_prompt_messages model.
Proof.
  destruct model as [fs history].
  unfold _iter_cleanup_history_prompt_messages. simpl.
  rewrite List.map_map. apply map_ext. intros msg.
  by apply cleanup_message_twice.
Qed.

(** Vision and audio together keep every item, also video and documents
    of a model that declares neither capability: the history comes back as
    it is. *)
Theorem cleanup_identity_under_vision_and_audio (model : AgentModelConfig) :
  VISION ∈ features model ->
  AUDIO_FEATURE ∈ features model ->
  _iter_cleanup_history_prompt_messages model = history_prompt_messages model.
Proof.
  intros Hv Ha. unfold _iter_cleanup_history_prompt_messages.
  rewrite <- (List.map_id (history_prompt_messages model)) at 2.
  apply map_ext. intros [r c n]. unfold cleanup_message. simpl.
  destruct c as [txt|items|]; try done. f_equal. f_equal.
  induction items as [|item rest IH]; [done|]. simpl.
  assert (keep_item (features model) item = true) as ->.
  { rewrite keep_item_retained. unfold retained, has_feature.
    rewrite !(bool_decide_eq_true_2 _ Hv), !(bool_decide_eq_true_2 _ Ha).
    by destruct (item_type item). }
  by rewrite IH.
Qed.

(** With none of the four capabilities declared, exactly the text items
    stay. *)
Theorem cleanup_text_only_without_capabilities (fs : list ModelFeature)
    (items : list content_item) (r : string) (n : option string) :
  VISION ∉ fs -> AUDIO_FEATURE ∉ fs -> VIDEO_FEATURE ∉ fs -> DOCUMENT_FEATURE ∉ fs ->
  _iter_cleanup_history_prompt_messages (mk_model fs [mk_msg r (ContentList items) n])
  = [mk_msg r
       (ContentList (List.filter (fun item => bool_decide (item_type item = TEXT)) items))
       n].
Proof.
  intros Hv Ha Hvd Hd. unfold _iter_cleanup_history_prompt_messages, cleanup_message.
  simpl. do 3 f_equal. apply filter_ext. intros item.
  rewrite keep_item_retained. unfold retained, has_feature.
  rewrite !(bool_decide_eq_false_2 _ Hv), !(bool_decide_eq_false_2 _ Ha),
    !(bool_decide_eq_false_2 _ Hvd), !(bool_decide_eq_false_2 _ Hd).
  by destruct (item_type item).
Qed.

End HistoryMore.

(* ===================================================================== *)
(** * Further properties of the streamable transport *)
(* ===================================================================== *)

Section StreamableMore.
Import McpStreamableHttpClient.
Context {W : Type}.
Variable http_post : Request -> M W Response.
Variable iter_sse : Response -> list ServerSentEvent * option exn.
Variable json_loads : string -> result json.
Variable py_str : json -> string.
Variable bytes_repr : string -> string.

Local Abbreviation send_message := (send_message http_post iter_sse json_loads bytes_repr).
Local Abbreviation list_tools := (list_tools http_post iter_sse json_loads py_str bytes_repr).
Local Abbreviation call_tool := (call_tool http_post iter_sse json_loads py_str bytes_repr).

(** The session identifier is sticky: a successful response that carries a
    non-empty one leaves it on the instance, whatever its body decodes to;
    the instance then sends it with every request, to the same URL; and a
    later successful response without the header keeps it. *)
Theorem session_id_is_sticky self w msg response w' sid :
  http_post (mk_request (url self) msg (request_headers self)) w = (Ok response, w') ->
  is_success response = true ->
  dict_get "mcp-session-id" (headers response) = Some sid ->
  sid <> "" ->
  let self' := fst (snd (send_message msg (self, w))) in
  session_id self' = Some sid
  /\ url self' = url self
  /\ name self' = name self
  /\ dict_get "Mcp-Session-Id" (request_headers self') = Some (JStr sid)
  /\ (forall msg2 response2 w2,
        http_post (mk_request (url self') msg2 (request_headers self')) w'
        = (Ok response2, w2) ->
        is_success response2 = true ->
        dict_get "mcp-session-id" (headers response2) = None ->
        session_id (fst (snd (send_message msg2 (self', w')))) = Some sid).
Proof.
  intros Hpost Hok Hsid Hne self'.
  assert (self' = mk (name self) (url self) (Some sid)) as ->.
  { unfold self'. rewrite (send_message_success _ _ _ _ _ _ _ _ _ Hpost Hok). simpl.
    unfold learn_session. by rewrite Hsid. }
  split; [reflexivity|]. split; [reflexivity|]. split; [reflexivity|]. split.
  - unfold request_headers. simpl.
    apply String.eqb_neq in Hne. rewrite Hne. reflexivity.
  - intros msg2 response2 w2 Hpost2 Hok2 Hnone.
    rewrite (send_message_success _ _ _ _ _ _ _ _ _ Hpost2 Hok2). simpl.
    unfold learn_session. by rewrite Hnone.
Qed.

(** A request that fails leaves the instance as it was: a network
    exception goes through unchanged, and a response outside 200-299 raises
    [ValueError] without its session identifier, if it has one, being
    learned. *)
Theorem failed_request_keeps_session self w msg :
  (forall e w',
      http_post (mk_request (url self) msg (request_headers self)) w = (Raise e, w') ->
      send_message msg (self, w) = (Raise e, (self, w')))
  /\ (forall response w',
      http_post (mk_request (url self) msg (request_headers self)) w = (Ok response, w') ->
      is_success response = false ->
      send_message msg (self, w)
      = (Raise (mk_exn ValueError
                  (name self +:+ " - MCP Server response: "
                   +:+ pretty (status_code response) +:+ " "
                   +:+ reason_phrase response
                   +:+ " (" +:+ bytes_repr (content response) +:+ ")")),
         (self, w'))).
Proof.
  split.
  - intros e w' Hpost. unfold McpStreamableHttpClient.send_message. by rewrite Hpost.
  - intros response w' Hpost Hko. unfold McpStreamableHttpClient.send_message.
    by rewrite Hpost, Hko.
Qed.

Lemma decode_json_body self response content_type v :
  content response <> "" ->
  dict_get "content-type" (headers response) = Some content_type ->
  str_contains "text/event-stream" content_type = false ->
  str_contains "application/json" content_type = true ->
  json_loads (content response) = Ok v ->
  decode_body iter_sse json_loads self response
  = Ok (if truthy v then v else JObj []).
Proof.
  intros Hbody Hct Hsse Hjson Hv. unfold decode_body.
  apply String.eqb_neq in Hbody. rewrite Hbody, Hct. simpl.
  by rewrite Hsse, Hjson, Hv.
Qed.

(** A JSON body that Python holds false ([null], [false], [0], an empty
    string, list or object) stands for the empty envelope: [send_message]
    returns [{}], so that [list_tools] and [call_tool] return the empty list
    instead of failing on a reply that is no object. *)
Theorem falsy_json_body_is_empty_envelope self w response w' content_type v :
  is_success response = true ->
  content response <> "" ->
  dict_get "content-type" (headers response) = Some content_type ->
  str_contains "text/event-stream" content_type = false ->
  str_contains "application/json" content_type = true ->
  json_loads (content response) = Ok v ->
  truthy v = false ->
  (forall msg,
      http_post (mk_request (url self) msg (request_headers self)) w = (Ok response, w') ->
      send_message msg (self, w) = (Ok (JObj []), (learn_session self response, w')))
  /\ (http_post (mk_request (url self) tools_data (request_headers self)) w
      = (Ok response, w') ->
      list_tools (self, w) = (Ok (JArr []), (learn_session self response, w')))
  /\ (forall tool_name tool_args,
      http_post (mk_request (url self) (call_data tool_name tool_args)
                   (request_headers self)) w = (Ok response, w') ->
      call_tool tool_name tool_args (self, w)
      = (Ok (JArr []), (learn_session self response, w'))).
Proof.
  intros Hok Hbody Hct Hsse Hjson Hv Hfalsy.
  assert (forall msg,
            http_post (mk_request (url self) msg (request_headers self)) w
            = (Ok response, w') ->
            send_message msg (self, w)
            = (Ok (JObj []), (learn_session self response, w'))) as Hsend.
  { intros msg Hpost.
    rewrite (send_message_success _ _ _ _ _ _ _ _ _ Hpost Hok).
    rewrite (decode_json_body _ _ _ _ Hbody Hct Hsse Hjson Hv), Hfalsy. reflexivity. }
  split; [exact Hsend|]. split.
  - intros Hpost. unfold McpStreamableHttpClient.list_tools.
    unfold bind at 1. rewrite (Hsend _ Hpost). reflexivity.
  - intros tool_name tool_args Hpost. unfold McpStreamableHttpClient.call_tool.
    unfold bind at 1. rewrite (Hsend _ Hpost). reflexivity.
Qed.

(** An event-stream body that frames no event gives the empty result; and an
    exception that ends the stream is raised even after events that were
    all decoded. *)
Theorem event_stream_without_events_or_cut_short self w msg response w' content_type :
  http_post (mk_request (url self) msg (request_headers self)) w = (Ok response, w') ->
  is_success response = true ->
  content response <> "" ->
  dict_get "content-type" (headers response) = Some content_type ->
  str_contains "text/event-stream" content_type = true ->
  (iter_sse response = ([], None) ->
   fst (send_message msg (self, w)) = Ok (JObj []))
  /\ (forall events e,
        iter_sse response = (events, Some e) ->
        Forall (fun sse => event sse = "message"
                           /\ is_ok (json_loads (data sse)) = true) events ->
        fst (send_message msg (self, w)) = Raise e).
Proof.
  intros Hpost Hok Hbody Hct Hsse.
  rewrite (send_message_success _ _ _ _ _ _ _ _ _ Hpost Hok). simpl.
  unfold decode_body. apply String.eqb_neq in Hbody. rewrite Hbody, Hct. simpl.
  rewrite Hsse. split.
  - intros ->. reflexivity.
  - intros events e -> Hall.
    assert (forall init, exists v,
              read_events json_loads (name (learn_session self response)) events init
              = Ok v) as Hread.
    { induction Hall as [|sse rest [Hn Hd] _ IH]; intros init; simpl; [eauto|].
      rewrite Hn. simpl. destruct (json_loads (data sse)); [apply IH | discriminate Hd]. }
    destruct (Hread (JObj [])) as [v ->]. reflexivity.
Qed.

End StreamableMore.

(* ===================================================================== *)
(** * Further properties of the event-stream transport: the calls *)
(* ===================================================================== *)

Section SseCallsMore.
Context {W : Type}.
Variable http_post : Request -> M W Response.
Variable status_error : Response -> exn.
Variable await_response : json -> M (McpSseClient.t * W) json.
Variable uuid4_hex : M W string.
Variable py_str : json -> string.
Variable bytes_repr : string -> string.
Variable client_close : M W unit.

Local Abbreviation s_send :=
  (McpSseClient.send_message http_post status_error await_response bytes_repr).
Local Abbreviation s_initialize :=
  (McpSseClient.initialize http_post status_error await_response uuid4_hex py_str bytes_repr).
Local Abbreviation s_list_tools :=
  (McpSseClient.list_tools http_post status_error await_response uuid4_hex py_str bytes_repr).
Local Abbreviation s_call_tool :=
  (McpSseClient.call_tool http_post status_error await_response uuid4_hex py_str bytes_repr).

(** Without an endpoint nothing is sent: [send_message] raises at once and
    leaves the instance and the network as they are, with a
    [ConnectionError] that carries the listener's failure when one is
    recorded and a [RuntimeError] otherwise; [list_tools], [call_tool] and
    [initialize] raise the same after drawing their request id. *)
Theorem send_message_without_endpoint (self : McpSseClient.t) (w : W) :
  McpSseClient.falsy_url (McpSseClient.endpoint_url self) = true ->
  let refusal :=
    match McpSseClient._thread_exception self with
    | Some e =>
        mk_exn ConnectionError
          (McpSseClient.name self +:+ " - MCP Server connection failed: " +:+ exn_str e)
    | None =>
        mk_exn RuntimeError (McpSseClient.name self +:+ " - Please call connect() first")
    end in
  (forall data, s_send data (self, w) = (Raise refusal, (self, w)))
  /\ (forall id w1,
        uuid4_hex w = (Ok id, w1) ->
        s_list_tools (self, w) = (Raise refusal, (self, w1))
        /\ (forall tool_name tool_args,
              s_call_tool tool_name tool_args (self, w) = (Raise refusal, (self, w1)))
        /\ s_initialize (self, w) = (Raise refusal, (self, w1))).
Proof.
  intros Hno refusal.
  assert (forall data w0, s_send data (self, w0) = (Raise refusal, (self, w0))) as Hsend.
  { intros data w0. unfold McpSseClient.send_message, refusal. rewrite Hno.
    by destruct (McpSseClient._thread_exception self). }
  split; [intros data; apply Hsend|].
  intros id w1 Hid. repeat split.
  - unfold McpSseClient.list_tools, bind, in_world. by rewrite Hid, Hsend.
  - intros tool_name tool_args.
    unfold McpSseClient.call_tool, bind, in_world. by rewrite Hid, Hsend.
  - unfold McpSseClient.initialize, bind, in_world. by rewrite Hid, Hsend.
Qed.

Lemma send_message_posted (self : McpSseClient.t) (w w' : W)
    (endpoint : string) (d : dict json) (response : Response) :
  McpSseClient.endpoint_url self = Some endpoint ->
  endpoint <> "" ->
  http_post
    (mk_request endpoint (JObj d)
       [("Content-Type", JStr "application/json");
        ("trace-id", default (JStr "") (dict_get "id" d))]) w
  = (Ok response, w') ->
  is_success response = true ->
  s_send (JObj d) (self, w)
  = match dict_get "id" d with
    | Some message_id => await_response message_id (self, w')
    | None => (Ok (JObj []), (self, w'))
    end.
Proof.
  intros Hend Hne Hpost Hok.
  assert (McpSseClient.falsy_url (McpSseClient.endpoint_url self) = false) as Hf.
  { rewrite Hend. simpl. by apply String.eqb_neq. }
  assert (McpSseClient.trace_id (JObj d) = Ok (default (JStr "") (dict_get "id" d)))
    as Htrace.
  { unfold McpSseClient.trace_id. simpl. unfold dict_in.
    by destruct (dict_get "id" d). }
  unfold McpSseClient.send_message. rewrite Hf, Htrace, Hend. simpl.
  rewrite Hpost, Hok. simpl. unfold dict_in.
  by destruct (dict_get "id" d).
Qed.

(** With an endpoint, a request object is posted to it once, its id as the
    [trace-id] header (the empty string when it has none), and: a network
    exception goes through; a response outside 200-299 raises what
    [raise_for_status] builds, never the [ValueError] of line 124; a
    request without id returns [{}] without waiting; a request with an id
    goes on to wait for its reply. *)
Theorem send_message_with_endpoint (self : McpSseClient.t) (w : W)
    (endpoint : string) (d : dict json) :
  McpSseClient.endpoint_url self = Some endpoint ->
  endpoint <> "" ->
  let request :=
    mk_request endpoint (JObj d)
      [("Content-Type", JStr "application/json");
       ("trace-id", default (JStr "") (dict_get "id" d))] in
  (forall e w', http_post request w = (Raise e, w') ->
                s_send (JObj d) (self, w) = (Raise e, (self, w')))
  /\ (forall response w',
        http_post request w = (Ok response, w') ->
        is_success response = false ->
        s_send (JObj d) (self, w) = (Raise (status_error response), (self, w')))
  /\ (forall response w',
        http_post request w = (Ok response, w') ->
        is_success response = true ->
        dict_get "id" d = None ->
        s_send (JObj d) (self, w) = (Ok (JObj []), (self, w')))
  /\ (forall response w' message_id,
        http_post request w = (Ok response, w') ->
        is_success response = true ->
        dict_get "id" d = Some message_id ->
        s_send (JObj d) (self, w) = await_response message_id (self, w')).
Proof.
  intros Hend Hne request.
  assert (McpSseClient.falsy_url (McpSseClient.endpoint_url self) = false) as Hf.
  { rewrite Hend. simpl. by apply String.eqb_neq. }
  assert (McpSseClient.trace_id (JObj d) = Ok (default (JStr "") (dict_get "id" d)))
    as Htrace.
  { unfold McpSseClient.trace_id. simpl. unfold dict_in.
    by destruct (dict_get "id" d). }
  unfold McpSseClient.send_message. rewrite Hf, Htrace, Hend. simpl.
  fold request. repeat split.
  - intros e w' ->. reflexivity.
  - intros response w' -> Hko. by rewrite Hko.
  - intros response w' -> Hok Hid. rewrite Hok. simpl.
    unfold dict_in. by rewrite Hid.
  - intros response w' message_id -> Hok Hid. rewrite Hok. simpl.
    unfold dict_in. by rewrite Hid.
Qed.

(** The handshake waits for one reply only: after the reply to the
    "initialize" request, the notification is posted and [initialize]
    returns without any wait. *)
Theorem initialize_waits_once (self self2 : McpSseClient.t) (w w1 w2 w3 w4 : W)
    (id endpoint endpoint2 : string) (response1 response2 : Response) (reply : json) :
  uuid4_hex w = (Ok id, w1) ->
  McpSseClient.endpoint_url self = Some endpoint ->
  endpoint <> "" ->
  http_post
    (mk_request endpoint (McpSseClient.init_data id)
       [("Content-Type", JStr "application/json"); ("trace-id", JStr id)]) w1
  = (Ok response1, w2) ->
  is_success response1 = true ->
  await_response (JStr id) (self, w2) = (Ok reply, (self2, w3)) ->
  contains "error" reply = Ok false ->
  McpSseClient.endpoint_url self2 = Some endpoint2 ->
  endpoint2 <> "" ->
  http_post
    (mk_request endpoint2 McpSseClient.notify_data
       [("Content-Type", JStr "application/json"); ("trace-id", JStr "")]) w3
  = (Ok response2, w4) ->
  is_success response2 = true ->
  s_initialize (self, w) = (Ok tt, (self2, w4)).
Proof.
  intros Hid Hend Hne Hpost1 Hok1 Hwait Hclean Hend2 Hne2 Hpost2 Hok2.
  unfold McpSseClient.init_data in Hpost1. unfold McpSseClient.notify_data in Hpost2.
  match type of Hpost1 with
  | http_post (mk_request _ (JObj ?d) _) _ = _ =>
      pose proof (send_message_posted self w1 w2 endpoint d response1
                    Hend Hne Hpost1 Hok1) as H1
  end.
  match type of Hpost2 with
  | http_post (mk_request _ (JObj ?d) _) _ = _ =>
      pose proof (send_message_posted self2 w3 w4 endpoint2 d response2
                    Hend2 Hne2 Hpost2 Hok2) as H2
  end.
  simpl (dict_get _ _) in H1, H2.
  unfold McpSseClient.initialize. unfold bind at 1. unfold in_world. rewrite Hid.
  unfold bind at 1. unfold McpSseClient.init_data.
  rewrite H1, Hwait.
  unfold bind at 1, lift at 1.
  rewrite (fail_on_error_clear _ _ _ Hclean).
  unfold bind at 1. unfold McpSseClient.notify_data.
  rewrite H2. reflexivity.
Qed.

(** Closing a transport wraps a failure of the HTTP client in one
    [Exception] naming the transport, and raises nothing else; the
    event-stream transport has requested the listener's shutdown by then,
    also when closing fails. *)
Theorem close_wraps_failure (sse : McpSseClient.t) (http : McpStreamableHttpClient.t)
    (w : W) :
  McpSseClient.close client_close (sse, w)
  = (match fst (client_close w) with
     | Ok _ => Ok tt
     | Raise e =>
         Raise (mk_exn Exception_
                  (McpSseClient.name sse +:+ " - MCP Server connection close failed: "
                   +:+ exn_str e))
     end,
     (McpSseClient.set_should_stop true sse, snd (client_close w)))
  /\ McpStreamableHttpClient.close client_close (http, w)
     = (match fst (client_close w) with
        | Ok _ => Ok tt
        | Raise e =>
            Raise (mk_exn Exception_
                     (McpStreamableHttpClient.name http
                      +:+ " - MCP Server connection close failed: " +:+ exn_str e))
        end,
        (http, snd (client_close w))).
Proof.
  unfold McpSseClient.close, McpStreamableHttpClient.close, try_except, bind,
    update, in_world, throw.
  destruct (client_close w) as [[[]|e] w']; split; reflexivity.
Qed.

End SseCallsMore.

(* ===================================================================== *)
(** * Further properties of the event-stream transport: the two threads *)
(* ===================================================================== *)

Section MachineMore.
Import McpSseClient.
Variable urljoin : string -> string -> result string.
Variable urlparse : string -> result ParseResult.
Variable json_loads : string -> result json.

Local Abbreviation listener_step := (listener_step urljoin urlparse json_loads).
Local Abbreviation step := (step urljoin urlparse json_loads).
Local Abbreviation run := (run urljoin urlparse json_loads).

Ltac inv_field :=
  intros; simpl in *; subst; try done;
  try (intuition (eauto; congruence)).

(** ** What connect can return or raise, whatever the server does *)

Lemma connect_step nm s th :
  connect_invariant nm s -> connect_invariant nm (step s th).
Proof.
  intros Hinv. pose proof Hinv as [Hn Herr Hconn Hepc Herrpc Haft Hret Hfail].
  unfold McpSseClient.step. destruct th; simpl.
  - destruct (listener_step s) as [s'|] eqn:Hstep; simpl; [|done].
    unfold McpSseClient.listener_step in Hstep.
    repeat case_match; simplify_eq; split; inv_field.
    + destruct (Hfail _ H0) as [?|[Hee ?]]; [by left|].
      destruct (Herr Hee) as [_ [?|?]]; congruence.
    + destruct (Hfail _ H0) as [?|[Hee ?]]; [by left|].
      destruct (Herr Hee) as [_ [?|?]]; congruence.
  - destruct (main_step s) as [s'|] eqn:Hstep; simpl; [|done].
    unfold main_step in Hstep.
    repeat case_match; simplify_eq; split; inv_field.
    left. by injection H1 as <-.
Qed.

Lemma connect_initially nm u get events ending :
  connect_invariant nm (construct nm u get events ending).
Proof. split; simpl; try done; by right. Qed.

Lemma connect_run nm schedule s :
  connect_invariant nm s -> connect_invariant nm (run schedule s).
Proof.
  revert s. induction schedule as [|th rest IH]; intros s Hinv; [done|].
  change (run (th :: rest) s) with (run rest (step s th)).
  apply IH, connect_step, Hinv.
Qed.

(** Whatever the server does and whatever the schedule: when the
    constructor returns, an endpoint or a failure of the listener is
    recorded on the instance; when it raises, it raises the recorded failure
    (wrapped if it is an HTTP status error) or the error of line 150; and an
    instance that came back without endpoint refuses every message with a
    [ConnectionError] carrying the failure, sending nothing. *)
Theorem connect_returns_over_endpoint_or_failure
    (nm u : string) (get : result unit) (events : list ServerSentEvent)
    (ending : stream_end) (schedule : list tid) :
  let s := run schedule (construct nm u get events ending) in
  (mpc s = CConnected ->
   is_Some (endpoint_url (self s)) \/ is_Some (_thread_exception (self s)))
  /\ (forall ex,
        mpc s = CFailed ex ->
        ex = listener_died nm
        \/ (is_Some (_thread_exception (self s)) /\ ex = connect_error (self s)))
  /\ (forall (W : Type) (http_post : Request -> M W Response)
             (status_error : Response -> exn)
             (await_response : json -> M (t * W) json)
             (bytes_repr : string -> string) (data : json) (w : W),
        mpc s = CConnected ->
        endpoint_url (self s) = None ->
        exists e,
          _thread_exception (self s) = Some e
          /\ send_message http_post status_error await_response bytes_repr
               data (self s, w)
             = (Raise (mk_exn ConnectionError
                         (nm +:+ " - MCP Server connection failed: " +:+ exn_str e)),
                (self s, w))).
Proof.
  intros s.
  pose proof (connect_run nm schedule _ (connect_initially nm u get events ending))
    as [Hn Herr Hconn Hepc Herrpc Haft Hret Hfail].
  fold s in Hn, Herr, Hconn, Hepc, Herrpc, Haft, Hret, Hfail.
  split; [|split].
  - intros Hc. destruct (Hconn (Hret Hc)) as [?|He]; [by left|].
    right. by apply Herr.
  - intros ex Hf. destruct (Hfail ex Hf) as [?|[He ->]]; [by left|].
    right. split; [by apply Herr | done].
  - intros W http_post status_error await_response bytes_repr data w Hc Hnone.
    destruct (Hconn (Hret Hc)) as [[x Hx]|He]; [congruence|].
    destruct (Herr He) as [[e Hex] _]. exists e. split; [done|].
    unfold send_message. rewrite Hnone, Hex, Hn. reflexivity.
Qed.

(** ** A server that sends no event *)

Lemma run_ending schedule s : ending (run schedule s) = ending s.
Proof.
  revert s. induction schedule as [|th rest IH]; intros s; [done|].
  change (run (th :: rest) s) with (run rest (step s th)). rewrite IH.
  unfold McpSseClient.step. destruct th; simpl.
  - destruct (listener_step s) as [s'|] eqn:Hstep; simpl; [|done].
    unfold McpSseClient.listener_step in Hstep.
    repeat case_match; simplify_eq; done.
  - destruct (main_step s) as [s'|] eqn:Hstep; simpl; [|done].
    unfold main_step in Hstep.
    repeat case_match; simplify_eq; done.
Qed.

Ltac un_done :=
  unfold unanswered_listener, unanswered_main in *; simpl in *;
  repeat case_match; simplify_eq; intuition (auto; congruence).

Section Unanswered.
Variables (nm u cleaned : string).
Hypothesis Hclean : remove_request_params urljoin urlparse u = Ok cleaned.

Lemma unanswered_step s th :
  unanswered_invariant nm u s -> unanswered_invariant nm u (step s th).
Proof.
  intros Hinv. pose proof Hinv as [Hn Hu Hget Hin Hend Hconn Herr Hl Hm].
  unfold McpSseClient.step. destruct th; simpl.
  - unfold McpSseClient.listener_step, unanswered_listener in *.
    destruct (lpc s) eqn:Hpc; try done; simpl.
    + rewrite Hu, Hclean, Hget. simpl. split; simpl; try done; un_done.
    + rewrite Hin. destruct Hend as [He|He]; rewrite He; simpl; [|done].
      split; simpl; try done; un_done.
  - unfold main_step, unanswered_main in *.
    destruct (mpc s) eqn:Hpc; try done; simpl.
    + rewrite Hm. simpl. split; simpl; try done; un_done.
    + rewrite Herr. simpl. split; simpl; try done; un_done.
    + rewrite Hconn. simpl. split; simpl; try done; un_done.
    + unfold is_alive, unanswered_listener in *.
      destruct (lpc s) eqn:Hl'; try done; simpl;
        split; simpl; try done; un_done.
Qed.

Lemma unanswered_run schedule s :
  unanswered_invariant nm u s -> unanswered_invariant nm u (run schedule s).
Proof.
  revert s. induction schedule as [|th rest IH]; intros s Hinv; [done|].
  change (run (th :: rest) s) with (run rest (step s th)).
  apply IH, unanswered_step, Hinv.
Qed.

(** Facing a server that answers the GET and sends no event, the
    constructor never returns, whatever the schedule.  If the server has
    closed the stream it can only raise the error of line 150, and does on
    the schedule shown; if the stream stays open it never raises either:
    construction hangs. *)
Theorem connect_without_endpoint_event (e : stream_end) (schedule : list tid) :
  e = StreamClosed \/ e = StreamOpen ->
  mpc (run schedule (construct nm u (Ok tt) [] e)) <> CConnected
  /\ (forall ex,
        mpc (run schedule (construct nm u (Ok tt) [] e)) = CFailed ex ->
        ex = listener_died nm /\ e = StreamClosed)
  /\ mpc (run [Main; Listener; Listener; Main; Main; Main]
            (construct nm u (Ok tt) [] StreamClosed))
     = CFailed (listener_died nm).
Proof.
  intros He.
  assert (unanswered_invariant nm u (construct nm u (Ok tt) [] e)) as Hinit.
  { split; simpl; try done. }
  pose proof (unanswered_run schedule _ Hinit) as [Hn Hu Hget Hin Hend Hconn Herr Hl Hm].
  pose proof (run_ending schedule (construct nm u (Ok tt) [] e)) as Hsame.
  simpl in Hsame.
  split; [|split].
  - intros Hc. unfold unanswered_main in Hm. by rewrite Hc in Hm.
  - intros ex Hf. unfold unanswered_main in Hm. rewrite Hf in Hm.
    destruct Hm as [-> Hd]. split; [done|].
    unfold unanswered_listener in Hl. rewrite Hd in Hl. congruence.
  - unfold McpSseClient.run, construct, __init__. cbn [foldl].
    unfold McpSseClient.step at 6. cbn [thread_step main_step mpc lpc default goto_m goto_l].
    unfold McpSseClient.step at 5. cbn -[append remove_request_params McpSseClient.step].
    rewrite Hclean. cbn -[append McpSseClient.step].
    unfold McpSseClient.step. cbn -[append]. reflexivity.
Qed.

End Unanswered.

(** ** A message the listener cannot take *)

Section Starved.
Variables (message_id : json) (kx : key) (bad : ServerSentEvent)
          (rest : list ServerSentEvent) (failure : exn).
Hypothesis Hkey : to_key message_id = Ok kx.
Hypothesis Hname : event bad = "message".
Hypothesis Hbad : decode_message json_loads (data bad) = Raise failure.

Lemma starved_step s th :
  starved_invariant message_id kx bad rest s ->
  starved_invariant message_id kx bad rest (step s th).
Proof.
  intros Hinv. pose proof Hinv as [Hl Hm Habs].
  unfold McpSseClient.step. destruct th; simpl.
  - unfold McpSseClient.listener_step, listener_lost in *.
    destruct (lpc s) eqn:Hpc; try done; simpl.
    + rewrite Hl. cbn [set_incoming self]. rewrite Hname, Hbad.
      destruct (should_stop (self s)); simpl;
        split; simpl; try done; unfold listener_lost; simpl; done.
  - assert (forall s', lpc s' = lpc s -> incoming s' = incoming s ->
              listener_lost bad rest s') as Hkeep.
    { intros s' H1 H2. unfold listener_lost in *. by rewrite H1, H2. }
    unfold main_step.
    destruct Hm as [Hpc|[Hpc|Hpc]]; rewrite Hpc.
    + destruct (response_ready (self s)); simpl; [|done].
      split; simpl; try done; first [by eapply Hkeep | (unfold still_waiting; by auto)].
    + simpl. split; simpl; try done; first [by eapply Hkeep | (unfold still_waiting; by auto)].
    + rewrite Hkey, Habs. simpl.
      split; simpl; try done; first [by eapply Hkeep | (unfold still_waiting; by auto)].
Qed.

Lemma starved_run schedule s :
  starved_invariant message_id kx bad rest s ->
  starved_invariant message_id kx bad rest (run schedule s).
Proof.
  revert s. induction schedule as [|th rest' IH]; intros s Hinv; [done|].
  change (run (th :: rest') s) with (run rest' (step s th)).
  apply IH, starved_step, Hinv.
Qed.

(** One message the listener cannot take (a payload that is no JSON, or,
    like a server notification, has no id, or has an unhashable one) ends
    the listener: the events behind it are never read, so a call waiting
    for a reply that comes later in the stream never returns and never
    raises, whatever the schedule. *)
Theorem undeliverable_message_starves_the_call (s : sys) (schedule : list tid) :
  lpc s = LNext ->
  incoming s = bad :: rest ->
  mpc s = SWait message_id ->
  message_dict (self s) !! kx = None ->
  (forall m, mpc (run schedule s) <> SReturned m)
  /\ (forall ex, mpc (run schedule s) <> SRaised ex)
  /\ message_dict (self (run schedule s)) !! kx = None
  /\ (incoming (run schedule s) = bad :: rest \/ incoming (run schedule s) = rest).
Proof.
  intros Hpc Hin Hm Habs.
  assert (starved_invariant message_id kx bad rest s) as Hinit.
  { split; [|left; done|done]. unfold listener_lost. by rewrite Hpc. }
  pose proof (starved_run schedule s Hinit) as [Hl Hw Hnone].
  repeat split; try done.
  - intros m Hr. destruct Hw as [H|[H|H]]; congruence.
  - intros ex Hr. destruct Hw as [H|[H|H]]; congruence.
  - clear Hl Hw Hnone Hinit.
    assert (forall s0, (incoming s0 = bad :: rest /\ lpc s0 = LNext)
                       \/ (incoming s0 = rest /\ listener_lost bad rest s0
                           /\ lpc s0 <> LNext) ->
                       incoming (run schedule s0) = bad :: rest
                       \/ incoming (run schedule s0) = rest) as Hgen.
    { induction schedule as [|th rest' IH]; intros s0 H0.
      - simpl. destruct H0 as [[? _]|[? _]]; auto.
      - change (run (th :: rest') s0) with (run rest' (step s0 th)). apply IH.
        unfold McpSseClient.step. destruct th; simpl.
        + unfold McpSseClient.listener_step.
          destruct H0 as [[Hi Hp]|(Hi & Hlost & Hp)].
          * rewrite Hp, Hi. cbn [set_incoming self]. rewrite Hname, Hbad.
            right. destruct (should_stop (self s0)); simpl;
              (split; [done|split; [by unfold listener_lost|done]]).
          * unfold listener_lost in Hlost.
            destruct (lpc s0) eqn:E; try done; simpl;
              right;
              (split; [done|split; unfold listener_lost; simpl; rewrite ?E; done]).
        + assert (forall s1, main_step s0 = Some s1 ->
                    incoming s1 = incoming s0 /\ lpc s1 = lpc s0
                    \/ (mpc s0 = CStart /\ lpc s0 = LNotStarted)) as Hmain.
          { intros s1 Hs. unfold main_step in Hs.
            repeat case_match; simplify_eq; auto. }
          destruct (main_step s0) as [s1|] eqn:Hs; simpl; [|done].
          destruct (Hmain s1 eq_refl) as [[Hi' Hp']|[_ Hns]].
          * destruct H0 as [[Hi Hp]|(Hi & Hlost & Hp)]; [left|right].
            -- by rewrite Hi', Hp'.
            -- rewrite Hi', Hp'. split; [done|]. split; [|done].
               unfold listener_lost in *. by rewrite Hp', Hi'.
          * destruct H0 as [[Hi Hp]|(Hi & Hlost & Hp)]; [congruence|].
            unfold listener_lost in Hlost. by rewrite Hns in Hlost. }
    apply Hgen. left. done.
Qed.

End Starved.

(** ** After shutdown is requested *)

Lemma stopping_step s th :
  stopping s ->
  stopping (step s th)
  /\ endpoint_url (self (step s th)) = endpoint_url (self s)
  /\ message_dict (self (step s th)) ⊆ message_dict (self s)
  /\ (incoming (step s th) = incoming s
      \/ (incoming (step s th) = tail (incoming s) /\ lpc (step s th) = LDone)).
Proof.
  intros Hinv. pose proof Hinv as [Hstop Hl].
  unfold McpSseClient.step. destruct th; simpl.
  - destruct (listener_step s) as [s'|] eqn:Hs; simpl; [|by auto].
    unfold McpSseClient.listener_step in Hs.
    destruct (lpc s) eqn:Hpc; try done.
    + (* LConnect *)
      assert (s' = goto_l LNext s \/ exists e, s' = goto_l (LCatch e) s) as Hcases.
      { repeat case_match; simplify_eq; eauto. }
      destruct Hcases as [->|[e ->]]; unfold stopping; simpl; auto 6.
    + (* LNext *)
      destruct (incoming s) as [|sse more] eqn:Hin.
      * assert (s' = goto_l LDone s \/ exists e, s' = goto_l (LCatch e) s) as Hcases.
        { repeat case_match; simplify_eq; eauto. }
        destruct Hcases as [->|[e ->]]; unfold stopping; simpl; auto 6.
      * cbn [set_incoming self] in Hs. rewrite Hstop in Hs. injection Hs as <-.
        unfold stopping. simpl. rewrite ?Hin. simpl. auto 6.
    + injection Hs as <-. unfold stopping. simpl. auto 6.
    + injection Hs as <-. unfold stopping. simpl. auto 6.
    + injection Hs as <-. unfold stopping. simpl. auto 6.
  - destruct (main_step s) as [s'|] eqn:Hs; simpl; [|by auto].
    assert ((lpc s' = lpc s \/ (lpc s = LNotStarted /\ lpc s' = LConnect))
            /\ should_stop (self s') = should_stop (self s)
            /\ endpoint_url (self s') = endpoint_url (self s)
            /\ message_dict (self s') ⊆ message_dict (self s)
            /\ incoming s' = incoming s) as (Hp & Hst & He & Hd & Hi).
    { clear Hinv Hl. unfold main_step in Hs.
      repeat case_match; simplify_eq; simpl; repeat split; auto.
      apply delete_subseteq. }
    split; [|auto].
    unfold stopping in *. rewrite Hst. split; [done|].
    destruct Hp as [->|[_ ->]]; done.
Qed.

Lemma done_run schedule s :
  lpc s = LDone ->
  incoming (run schedule s) = incoming s /\ lpc (run schedule s) = LDone.
Proof.
  revert s. induction schedule as [|th rest IH]; intros s Hd; [done|].
  change (run (th :: rest) s) with (run rest (step s th)).
  assert (incoming (step s th) = incoming s /\ lpc (step s th) = LDone) as [Ha Hb].
  { unfold McpSseClient.step. destruct th; simpl.
    - unfold McpSseClient.listener_step. by rewrite Hd.
    - destruct (main_step s) as [s2|] eqn:Hs; simpl; [|done].
      unfold main_step in Hs.
      repeat case_match; simplify_eq; simpl; try done; congruence. }
  destruct (IH _ Hb) as [Hc Hd2]. split; [congruence|done].
Qed.

Lemma stopping_run schedule s :
  stopping s ->
  endpoint_url (self (run schedule s)) = endpoint_url (self s)
  /\ message_dict (self (run schedule s)) ⊆ message_dict (self s)
  /\ (incoming (run schedule s) = incoming s
      \/ (incoming (run schedule s) = tail (incoming s)
          /\ lpc (run schedule s) = LDone)).
Proof.
  revert s. induction schedule as [|th rest IH]; intros s H0; [by auto|].
  change (run (th :: rest) s) with (run rest (step s th)).
  destruct (stopping_step s th H0) as (H1 & He & Hd & Hi).
  destruct (IH _ H1) as (He' & Hd' & Hi').
  split; [congruence|]. split; [by etrans|].
  destruct Hi as [Hi|[Hi Hdone]].
  - rewrite Hi in Hi'. done.
  - right. destruct (done_run rest _ Hdone) as [Hx Hy]. split; [congruence|done].
Qed.

(** Once shutdown is requested and the listener stands between two events,
    nothing is delivered any more, whatever the schedule: the endpoint stays
    as it is, the table gains no entry, and at most the next event is read,
    to be dropped. *)
Theorem nothing_delivered_after_stop (s : sys) (schedule : list tid) :
  should_stop (self s) = true ->
  lpc s = LNext ->
  endpoint_url (self (run schedule s)) = endpoint_url (self s)
  /\ message_dict (self (run schedule s)) ⊆ message_dict (self s)
  /\ (incoming (run schedule s) = incoming s
      \/ incoming (run schedule s) = tail (incoming s)).
Proof.
  intros Hstop Hpc.
  assert (stopping s) as Hinit by (split; [done|by rewrite Hpc]).
  destruct (stopping_run schedule s Hinit) as (He & Hd & [Hi|[Hi _]]); auto.
Qed.

(** [close] ends delivery also when it fails: whether the HTTP client closes
    or raises (wrapped, then, in one [Exception] naming the transport), the
    instance [close] leaves has the shutdown requested, and a listener that
    stood between two events delivers nothing to it any more, whatever the
    schedule: a reply still on its way is lost. *)
Theorem close_ends_delivery (W : Type) (client_close : M W unit) (w : W)
    (s : sys) (schedule : list tid) :
  lpc s = LNext ->
  let outcome := close client_close (self s, w) in
  let closed :=
    mk_sys (fst (snd outcome)) (lpc s) (mpc s) (get_outcome s) (incoming s) (ending s) in
  fst outcome
  = match fst (client_close w) with
    | Ok _ => Ok tt
    | Raise e =>
        Raise (mk_exn Exception_
                 (name (self s) +:+ " - MCP Server connection close failed: "
                  +:+ exn_str e))
    end
  /\ should_stop (fst (snd outcome)) = true
  /\ endpoint_url (self (run schedule closed)) = endpoint_url (self s)
  /\ message_dict (self (run schedule closed)) ⊆ message_dict (self s)
  /\ (incoming (run schedule closed) = incoming s
      \/ incoming (run schedule closed) = tail (incoming s)).
Proof.
  intros Hpc outcome closed.
  assert (fst outcome
          = match fst (client_close w) with
            | Ok _ => Ok tt
            | Raise e =>
                Raise (mk_exn Exception_
                         (name (self s) +:+ " - MCP Server connection close failed: "
                          +:+ exn_str e))
            end
          /\ fst (snd outcome) = set_should_stop true (self s)) as [Hout Hself].
  { unfold outcome, close, try_except, bind, update, in_world, throw.
    by destruct (client_close w) as [[[]|e] w']. }
  split; [exact Hout|]. split; [by rewrite Hself|].
  assert (stopping closed) as Hinit.
  { unfold stopping, closed. simpl. rewrite Hself, Hpc. by split. }
  destruct (stopping_run schedule closed Hinit) as (He & Hd & Hi).
  unfold closed at 2 in He. unfold closed at 2 in Hd.
  simpl in He, Hd. rewrite Hself in He, Hd. simpl in He, Hd.
  split; [exact He|]. split; [exact Hd|].
  destruct Hi as [Hi|[Hi _]]; [left|right]; exact Hi.
Qed.

End MachineMore.

(* ===================================================================== *)
(** * Further properties of the registry *)
(* ===================================================================== *)

Lemma dict_set_fresh {V} k (v : V) d :
  ~ In k (map fst d) -> dict_set k v d = (d ++ [(k, v)])%list.
Proof.
  induction d as [|[k' v'] d IH]; intros Hnot; [done|]. simpl in *.
  destruct (String.eqb_spec k k') as [->|Hne]; [tauto|].
  rewrite IH by tauto. done.
Qed.

Lemma store_catalogs_fresh fetched cache :
  NoDup (map fst fetched) ->
  (forall k, In k (map fst fetched) -> ~ In k (map fst cache)) ->
  McpClients.store_catalogs fetched cache = (cache ++ fetched)%list.
Proof.
  revert cache. induction fetched as [|[n tools] rest IH]; intros cache Hnd Hdisj.
  - unfold McpClients.store_catalogs. simpl. by rewrite app_nil_r.
  - unfold McpClients.store_catalogs in *. simpl in *.
    apply NoDup_cons in Hnd as [Hn Hnd].
    rewrite dict_set_fresh by (apply Hdisj; by left).
    rewrite IH; [by rewrite <- app_assoc|done|].
    intros k Hk. rewrite map_app, in_app_iff. simpl.
    intros [Hc|[<-|[]]].
    + apply (Hdisj k); [by right|done].
    + apply Hn. by apply list_elem_of_In.
Qed.

Section RegistryMore.
Context {W : Type}.
Variable py_str : json -> string.
Variable percentage : json -> json -> result unit.

Local Abbreviation fetch_tools := (@McpClients.fetch_tools W).
Local Abbreviation dispatch := (@McpClients.dispatch W py_str percentage).
Local Abbreviation execute_tool := (@McpClients.execute_tool W py_str percentage).

Lemma fetch_report_complete clients (w : W) fetched w' :
  McpClients.fetch_report clients w = (fetched, None, w') ->
  map fst fetched = map fst clients
  /\ Forall (fun entry => exists items, iter (snd entry) = Ok items) fetched.
Proof.
  revert w fetched. induction clients as [|[server_name client] rest IH];
    intros w fetched H; simpl in H.
  - injection H as <- _. by split.
  - destruct (McpClient.list_tools client w) as [[tools|ex] w1]; [|done].
    destruct (iter tools) as [items|ex] eqn:Hi; [|done].
    destruct (McpClients.fetch_report rest w1) as [[f1 fl] w2] eqn:Hr.
    injection H as <- -> <-.
    destruct (IH _ _ Hr) as [Hn Hall]. split; simpl; [by rewrite Hn|].
    constructor; [eauto|done].
Qed.

(** When every catalog query succeeds, [fetch_tools] returns the catalogs'
    items in one list, server after server in the order of the registry, and
    caches each catalog under its server's name; started from an empty
    cache, the cache is the list of the servers with their catalogs. *)
Theorem fetch_tools_success (self : McpClients.t W) (e : McpClients.env W)
    (fetched : list (string * json)) (w' : W) :
  McpClients.fetch_report (McpClients._clients self) (McpClients.world e)
  = (fetched, None, w') ->
  fetch_tools (self, e)
  = (Ok (McpClients.flatten_catalogs fetched),
     (McpClients.mk (McpClients._clients self)
        (McpClients.store_catalogs fetched (McpClients._tools self)),
      McpClients.mk_env w' (McpClients.error_log e)))
  /\ map fst fetched = map fst (McpClients._clients self)
  /\ Forall (fun entry => exists items, iter (snd entry) = Ok items) fetched
  /\ (NoDup (map fst (McpClients._clients self)) ->
      McpClients._tools self = [] ->
      McpClients.store_catalogs fetched (McpClients._tools self) = fetched).
Proof.
  intros H. destruct (fetch_report_complete _ _ _ _ H) as [Hn Hall].
  split; [|split; [done|split; [done|]]].
  - rewrite fetch_tools_report, H. reflexivity.
  - intros Hnd ->. rewrite store_catalogs_fresh; [done|by rewrite Hn|].
    intros k _ [].
Qed.

(** ** Routing *)

Lemma index_catalog_other clients server_name items acc idx k :
  McpClients.index_catalog (W:=W) clients server_name items acc = Ok idx ->
  (forall tool, In tool items -> McpClients.tool_key tool <> Ok k) ->
  idx !! k = acc !! k.
Proof.
  revert acc. induction items as [|tool rest IH]; intros acc H Hno; simpl in H.
  - by injection H as <-.
  - destruct (dict_get server_name clients) as [client|].
    + pose proof (Hno tool (or_introl eq_refl)) as Hk.
      unfold McpClients.tool_key in Hk.
      destruct (getitem "name" tool) as [n|]; [|done].
      destruct (to_key n) as [k'|] eqn:Hk'; [|done].
      rewrite (IH _ H) by (intros t Ht; apply Hno; by right).
      apply lookup_insert_ne. congruence.
    + apply (IH _ H). intros t Ht. apply Hno. by right.
Qed.

Lemma index_catalog_owner clients server_name items acc idx k client :
  McpClients.index_catalog (W:=W) clients server_name items acc = Ok idx ->
  dict_get server_name clients = Some client ->
  (acc !! k = Some client
   \/ exists tool, In tool items /\ McpClients.tool_key tool = Ok k) ->
  idx !! k = Some client.
Proof.
  intros H Hc. revert acc H. induction items as [|t rest IH]; intros acc H Hor.
  - simpl in H. injection H as <-. destruct Hor as [?|(tool & [] & _)]. done.
  - simpl in H. rewrite Hc in H.
    destruct (getitem "name" t) as [n|] eqn:Hn; [|done].
    destruct (to_key n) as [k'|] eqn:Hk'; [|done].
    apply (IH _ H). destruct (decide (k' = k)) as [->|Hne].
    + left. apply lookup_insert_eq.
    + rewrite lookup_insert_ne by done.
      destruct Hor as [?|(tool & [<-|Hin] & Hk)]; [by left| |by eauto].
      unfold McpClients.tool_key in Hk. rewrite Hn, Hk' in Hk. congruence.
Qed.

Lemma index_tools_other clients cache acc idx k :
  McpClients.index_tools (W:=W) clients cache acc = Ok idx ->
  (forall entry items tool,
      In entry cache -> iter (snd entry) = Ok items -> In tool items ->
      McpClients.tool_key tool <> Ok k) ->
  idx !! k = acc !! k.
Proof.
  revert acc. induction cache as [|[server_name tools] rest IH]; intros acc H Hno;
    simpl in H.
  - by injection H as <-.
  - destruct (iter tools) as [items|] eqn:Hi; [|done].
    destruct (McpClients.index_catalog clients server_name items acc) as [acc'|] eqn:Hc;
      [|done].
    rewrite (IH _ H) by (intros entry its tool Hin; apply Hno; by right).
    apply (index_catalog_other _ _ _ _ _ _ Hc).
    intros tool Hin. by apply (Hno (server_name, tools) items tool (or_introl eq_refl)).
Qed.

(** On a name collision the last server wins: a tool name is routed to the
    transport of the last cached catalog that offers it, whatever the
    catalogs before it say. *)
Theorem routing_last_catalog_wins (clients : dict (McpClient.t W))
    (before after : dict json) (server_name : string) (tools : json)
    (items : list json) (tool : json) (tool_name : string)
    (client : McpClient.t W) (tool_clients : gmap key (McpClient.t W)) :
  McpClients.index_tools clients (before ++ (server_name, tools) :: after)%list ∅
  = Ok tool_clients ->
  dict_get server_name clients = Some client ->
  iter tools = Ok items ->
  In tool items ->
  McpClients.tool_key tool = Ok (KStr tool_name) ->
  (forall entry its t,
      In entry after -> iter (snd entry) = Ok its -> In t its ->
      McpClients.tool_key t <> Ok (KStr tool_name)) ->
  tool_clients !! KStr tool_name = Some client.
Proof.
  intros H Hc Hi Hin Hk Hafter.
  assert (forall acc idx,
            McpClients.index_tools clients
              (before ++ (server_name, tools) :: after)%list acc = Ok idx ->
            idx !! KStr tool_name = Some client) as Hgen.
  { clear H. induction before as [|[s0 t0] rest IH]; intros acc idx H; simpl in H.
    - rewrite Hi in H.
      destruct (McpClients.index_catalog clients server_name items acc) as [acc'|] eqn:Hcat;
        [|done].
      rewrite (index_tools_other _ _ _ _ _ H Hafter).
      apply (index_catalog_owner _ _ _ _ _ _ _ Hcat Hc). right. eauto.
    - destruct (iter t0) as [its|]; [|done].
      destruct (McpClients.index_catalog clients s0 its acc) as [acc'|]; [|done].
      by apply (IH _ _ H). }
  by apply (Hgen _ _ H).
Qed.

(** ** execute_tool on a cached catalog *)

Lemma dispatch_keeps_registry client tool_name tool_args self e :
  fst (snd (dispatch client tool_name tool_args (self, e))) = self.
Proof.
  destruct e as [w log].
  unfold McpClients.dispatch, try_except. destruct client as [client|].
  - unfold bind, McpClients.call, lift, ret, McpClients.log_error. simpl.
    destruct (McpClient.call_tool client tool_name tool_args w) as [[r|ex] w1]; simpl;
      [|done].
    by destruct (McpClients.report_progress percentage r) as [[]|ex].
  - reflexivity.
Qed.

(** With a catalog cached, [execute_tool] neither queries a catalog nor
    touches the cache: the registry is left as it is; for a name the routing
    index lacks, no transport is called and the error is logged once; for a
    name it has, the transports see exactly one [call_tool], on the owner. *)
Theorem execute_tool_uses_cache (self : McpClients.t W) (e : McpClients.env W)
    (tool_name : string) (tool_args : json) :
  McpClients._tools self <> [] ->
  fst (snd (execute_tool tool_name tool_args (self, e))) = self
  /\ (forall tool_clients,
        McpClients.index_tools (McpClients._clients self) (McpClients._tools self) ∅
        = Ok tool_clients ->
        tool_clients !! KStr tool_name = None ->
        snd (snd (execute_tool tool_name tool_args (self, e)))
        = McpClients.mk_env (McpClients.world e)
            (McpClients.error_log e
             ++ ["Error executing tool: there is not a tool named " +:+ tool_name]))
  /\ (forall tool_clients client,
        McpClients.index_tools (McpClients._clients self) (McpClients._tools self) ∅
        = Ok tool_clients ->
        tool_clients !! KStr tool_name = Some client ->
        McpClients.world (snd (snd (execute_tool tool_name tool_args (self, e))))
        = snd (McpClient.call_tool client tool_name tool_args (McpClients.world e))).
Proof.
  intros Hne. rewrite (execute_tool_cached _ _ _ _ _ _ Hne). split; [|split].
  - destruct (McpClients.index_tools _ _ _); [|done].
    apply dispatch_keeps_registry.
  - intros tool_clients -> ->. destruct e as [w log]. reflexivity.
  - intros tool_clients client -> ->. destruct e as [w log].
    unfold McpClients.dispatch, try_except, bind, McpClients.call, lift, ret,
      McpClients.log_error. simpl.
    destruct (McpClient.call_tool client tool_name tool_args w) as [[r|ex] w1]; simpl;
      [|done].
    by destruct (McpClients.report_progress percentage r) as [[]|ex].
Qed.

(** The progress report can turn a call that succeeded into an error
    string: the string [execute_tool] returns follows the report, and a
    result object that has "progress" but no "total" gives the error string
    of the missing key, although the transport returned it normally. *)
Theorem progress_report_decides_the_string (self : McpClients.t W)
    (e : McpClients.env W) (tool_name : string) (tool_args : json)
    (tool_clients : gmap key (McpClient.t W)) (client : McpClient.t W)
    (result : json) (w1 : W) :
  McpClients._tools self <> [] ->
  McpClients.index_tools (McpClients._clients self) (McpClients._tools self) ∅
  = Ok tool_clients ->
  tool_clients !! KStr tool_name = Some client ->
  McpClient.call_tool client tool_name tool_args (McpClients.world e) = (Ok result, w1) ->
  fst (execute_tool tool_name tool_args (self, e))
  = Ok (match McpClients.report_progress percentage result with
        | Ok _ => "Tool execution result: " +:+ py_str result
        | Raise ex => "Error executing tool: " +:+ exn_str ex
        end)
  /\ (forall d,
        result = JObj d ->
        dict_in "progress" d = true ->
        dict_get "total" d = None ->
        fst (execute_tool tool_name tool_args (self, e))
        = Ok "Error executing tool: 'total'")
  /\ ((forall d, result = JObj d -> dict_in "progress" d = false) ->
      fst (execute_tool tool_name tool_args (self, e))
      = Ok ("Tool execution result: " +:+ py_str result)).
Proof.
  intros Hne Hidx Hroute Hcall.
  assert (fst (execute_tool tool_name tool_args (self, e))
          = Ok (match McpClients.report_progress percentage result with
                | Ok _ => "Tool execution result: " +:+ py_str result
                | Raise ex => "Error executing tool: " +:+ exn_str ex
                end)) as Hgen.
  { rewrite (execute_tool_cached _ _ _ _ _ _ Hne), Hidx, Hroute.
    destruct e as [w log]. simpl in Hcall.
    unfold McpClients.dispatch, try_except, bind, McpClients.call, lift, ret,
      McpClients.log_error. simpl. rewrite Hcall. simpl.
    by destruct (McpClients.report_progress percentage result) as [[]|ex]. }
  split; [done|]. split.
  - intros d -> Hp Ht. rewrite Hgen. unfold McpClients.report_progress.
    rewrite Hp. simpl. unfold dict_in in Hp.
    destruct (dict_get "progress" d); [|done]. by rewrite Ht.
  - intros Hno. rewrite Hgen. unfold McpClients.report_progress.
    destruct result as [| | | | |d]; try done. by rewrite (Hno d eq_refl).
Qed.

End RegistryMore.

(** ** Construction of the registry *)

(** On a configuration entry that is an object, [init_client] chooses as
    in C9; on an entry of any other JSON type it raises, a [TypeError] or an
    [AttributeError], before any transport is built. *)
Theorem init_client_on_any_entry (name : string) (config : json) :
  (forall d, config = JObj d ->
             McpClients.init_client_of name config = Ok (McpClients.init_client name d))
  /\ ((forall d, config <> JObj d) ->
      exists ex,
        McpClients.init_client_of name config = Raise ex
        /\ (exn_cls ex = TypeError \/ exn_cls ex = AttributeError)).
Proof.
  split.
  - intros d ->. unfold McpClients.init_client_of, McpClients.init_client,
      McpClients.config_get. simpl. unfold dict_in.
    destruct (dict_get "transport" d) as [v|]; simpl;
      [destruct (is_str "streamable_http" v)|]; reflexivity.
  - intros Hno. unfold McpClients.init_client_of.
    destruct config as [|b|n|s|l|d]; simpl; eauto.
    + destruct (str_contains "transport" s); simpl; eauto.
    + destruct (existsb (is_str "transport") l); simpl; eauto.
    + by destruct (Hno d).
Qed.

Section ConstructionMore.
Context {W : Type}.
Variable new_client : McpClients.transport_call -> M W (McpClient.t W).

Local Abbreviation build_clients := (McpClients.build_clients new_client).
Local Abbreviation __init__ := (McpClients.__init__ new_client).

(** A configuration nested under "mcpServers" builds what the flat one
    builds; whatever else stands beside that key is ignored. *)
Theorem mcpServers_wrapper_is_transparent (d siblings : dict json) (w : W) :
  dict_get "mcpServers" d = None ->
  __init__ (JObj (("mcpServers", JObj d) :: siblings)) w = __init__ (JObj d) w.
Proof.
  intros Hnone. unfold McpClients.__init__. unfold bind at 1 3, lift at 1 3.
  unfold McpClients.unwrap. simpl. unfold dict_in. rewrite Hnone. reflexivity.
Qed.

Lemma initialize_all_handshakes clients (w : W) :
  McpClients.initialize_all clients w
  = match McpClients.handshakes clients w with
    | (Some ex, w') => (Raise ex, w')
    | (None, w') => (Ok tt, w')
    end.
Proof.
  revert w. induction clients as [|[n c] rest IH]; intros w; [done|].
  simpl. unfold bind.
  destruct (McpClient.initialize c w) as [[[]|ex] w1]; [apply IH|done].
Qed.

Lemma build_clients_names items acc (w : W) clients w' :
  build_clients items acc w = (Ok clients, w') ->
  NoDup (map fst acc ++ map fst items) ->
  map fst clients = (map fst acc ++ map fst items)%list.
Proof.
  revert acc w. induction items as [|[n config] rest IH]; intros acc w H Hnd.
  - simpl in H. injection H as <- _. by rewrite app_nil_r.
  - simpl in H. unfold bind, lift in H.
    destruct (McpClients.init_client_of n config) as [call|]; [|done].
    destruct (new_client call w) as [[client|] w1]; [|done].
    simpl in Hnd.
    assert (~ In n (map fst acc)) as Hfresh.
    { apply NoDup_app in Hnd as (_ & Hdisj & _). intros Hin.
      apply (Hdisj n); [by apply list_elem_of_In|]. by left. }
    rewrite (IH _ _ H); rewrite dict_set_fresh by done; rewrite map_app; simpl.
    + by rewrite <- app_assoc.
    + by rewrite <- app_assoc.
Qed.

(** Construction has two phases and stops at the first failure: every
    transport is built, in the order of the configuration, before any
    handshake; a constructor that raises ends construction with no handshake
    made; a handshake that raises ends it with the later ones not made, and
    the transports built so far are not closed.  A registry that comes out
    lists the configured servers in order and has no catalog cached. *)
Theorem construction_is_two_phase (d : dict json) (w : W) :
  dict_get "mcpServers" d = None ->
  __init__ (JObj d) w
  = match build_clients d [] w with
    | (Raise ex, w1) => (Raise ex, w1)
    | (Ok clients, w1) =>
        match McpClients.handshakes clients w1 with
        | (Some ex, w2) => (Raise ex, w2)
        | (None, w2) => (Ok (McpClients.mk clients []), w2)
        end
    end
  /\ (forall registry w',
        __init__ (JObj d) w = (Ok registry, w') ->
        McpClients._tools registry = []
        /\ (NoDup (map fst d) ->
            map fst (McpClients._clients registry) = map fst d)).
Proof.
  intros Hnone.
  assert (__init__ (JObj d) w
          = match build_clients d [] w with
            | (Raise ex, w1) => (Raise ex, w1)
            | (Ok clients, w1) =>
                match McpClients.handshakes clients w1 with
                | (Some ex, w2) => (Raise ex, w2)
                | (None, w2) => (Ok (McpClients.mk clients []), w2)
                end
            end) as Heq.
  { unfold McpClients.__init__. unfold bind at 1, lift at 1.
    unfold McpClients.unwrap. simpl. unfold dict_in. rewrite Hnone.
    unfold bind at 1, lift at 1. simpl. unfold bind at 1.
    destruct (build_clients d [] w) as [[clients|ex] w1]; [|done].
    unfold bind. rewrite initialize_all_handshakes.
    by destruct (McpClients.handshakes clients w1) as [[ex|] w2]. }
  split; [done|].
  intros registry w' H. rewrite Heq in H.
  destruct (build_clients d [] w) as [[clients|ex] w1] eqn:Hb; [|done].
  destruct (McpClients.handshakes clients w1) as [[ex|] w2]; [done|].
  injection H as <- _. split; [done|].
  intros Hnd. simpl. by apply (build_clients_names _ _ _ _ _ Hb).
Qed.

End ConstructionMore.

(* ===================================================================== *)
(** * The further properties on the scenarios *)
(* ===================================================================== *)

Lemma cleanup_after_richer_model_witness :
  History._iter_cleanup_history_prompt_messages
    (History.mk_model [History.AUDIO_FEATURE]
       (History._iter_cleanup_history_prompt_messages
          (History.mk_model [History.VISION; History.AUDIO_FEATURE]
             Scenario.mixed_history)))
  = History._iter_cleanup_history_prompt_messages
      (History.mk_model [History.AUDIO_FEATURE] Scenario.mixed_history).
Proof.
  apply (cleanup_after_richer_model [History.AUDIO_FEATURE]
           [History.VISION; History.AUDIO_FEATURE] Scenario.mixed_history).
  intros f Hf. apply list_elem_of_In in Hf. apply list_elem_of_In.
  destruct Hf as [<-|[]]. right. left. reflexivity.
Defined.

Lemma cleanup_identity_under_vision_and_audio_witness :
  History._iter_cleanup_history_prompt_messages
    (History.mk_model [History.VISION; History.AUDIO_FEATURE] Scenario.mixed_history)
  = Scenario.mixed_history.
Proof.
  apply (cleanup_identity_under_vision_and_audio
           (History.mk_model [History.VISION; History.AUDIO_FEATURE]
              Scenario.mixed_history)); simpl.
  - left.
  - right. left.
Defined.

Lemma session_id_is_sticky_witness :
  McpStreamableHttpClient.session_id
    (fst (snd (McpStreamableHttpClient.send_message
                 (Scenario.answer Scenario.with_session) Scenario.two_events
                 Scenario.json_loads Scenario.bytes_repr
                 McpStreamableHttpClient.tools_data (Scenario.streamable, tt))))
  = Some "abc"
  /\ dict_get "Mcp-Session-Id"
       (McpStreamableHttpClient.request_headers
          (fst (snd (McpStreamableHttpClient.send_message
                       (Scenario.answer Scenario.with_session) Scenario.two_events
                       Scenario.json_loads Scenario.bytes_repr
                       McpStreamableHttpClient.tools_data (Scenario.streamable, tt)))))
     = Some (JStr "abc").
Proof.
  assert ("abc" <> "") as Hne by discriminate.
  pose proof (session_id_is_sticky
                (Scenario.answer Scenario.with_session) Scenario.two_events
                Scenario.json_loads Scenario.bytes_repr
                Scenario.streamable tt McpStreamableHttpClient.tools_data
                Scenario.with_session tt "abc" eq_refl eq_refl eq_refl Hne)
    as (H1 & _ & _ & H4 & _).
  split; [exact H1 | exact H4].
Defined.

Lemma failed_request_keeps_session_witness :
  McpStreamableHttpClient.send_message
    (Scenario.answer Scenario.not_found) Scenario.two_events
    Scenario.json_loads Scenario.bytes_repr
    McpStreamableHttpClient.tools_data (Scenario.streamable, tt)
  = (Raise (mk_exn ValueError
              "s2 - MCP Server response: 404 Not Found (b'no such session')"),
     (Scenario.streamable, tt)).
Proof.
  exact (proj2 (failed_request_keeps_session
                  (Scenario.answer Scenario.not_found) Scenario.two_events
                  Scenario.json_loads Scenario.bytes_repr
                  Scenario.streamable tt McpStreamableHttpClient.tools_data)
           Scenario.not_found tt eq_refl eq_refl).
Defined.

Lemma falsy_json_body_is_empty_envelope_witness :
  McpStreamableHttpClient.list_tools
    (Scenario.answer Scenario.null_body) Scenario.two_events
    Scenario.json_loads_too Scenario.py_str Scenario.bytes_repr
    (Scenario.streamable, tt)
  = (Ok (JArr []), (Scenario.streamable, tt)).
Proof.
  assert (content Scenario.null_body <> "") as Hbody by discriminate.
  exact (proj1 (proj2 (falsy_json_body_is_empty_envelope
                         (Scenario.answer Scenario.null_body) Scenario.two_events
                         Scenario.json_loads_too Scenario.py_str Scenario.bytes_repr
                         Scenario.streamable tt Scenario.null_body tt
                         "application/json" JNull
                         eq_refl Hbody eq_refl eq_refl eq_refl eq_refl eq_refl))
           eq_refl).
Defined.

Lemma event_stream_without_events_or_cut_short_witness :
  fst (McpStreamableHttpClient.send_message
         (Scenario.answer Scenario.two_messages) Scenario.no_events
         Scenario.json_loads Scenario.bytes_repr
         McpStreamableHttpClient.tools_data (Scenario.streamable, tt))
  = Ok (JObj [])
  /\ fst (McpStreamableHttpClient.send_message
            (Scenario.answer Scenario.two_messages) Scenario.cut_short
            Scenario.json_loads Scenario.bytes_repr
            McpStreamableHttpClient.tools_data (Scenario.streamable, tt))
     = Raise (mk_exn (OtherError "RemoteProtocolError") "peer closed connection").
Proof.
  assert (content Scenario.two_messages <> "") as Hbody by discriminate.
  split.
  - exact (proj1 (event_stream_without_events_or_cut_short
                    (Scenario.answer Scenario.two_messages) Scenario.no_events
                    Scenario.json_loads Scenario.bytes_repr
                    Scenario.streamable tt McpStreamableHttpClient.tools_data
                    Scenario.two_messages tt "text/event-stream"
                    eq_refl eq_refl Hbody eq_refl eq_refl) eq_refl).
  - apply (proj2 (event_stream_without_events_or_cut_short
                    (Scenario.answer Scenario.two_messages) Scenario.cut_short
                    Scenario.json_loads Scenario.bytes_repr
                    Scenario.streamable tt McpStreamableHttpClient.tools_data
                    Scenario.two_messages tt "text/event-stream"
                    eq_refl eq_refl Hbody eq_refl eq_refl)
             [mk_sse "message" "Y"]).
    + reflexivity.
    + constructor; [split; reflexivity | constructor].
Defined.

Lemma send_message_without_endpoint_witness :
  McpSseClient.falsy_url (McpSseClient.endpoint_url Scenario.failed_client) = true
  /\ McpSseClient.list_tools (Scenario.answer Scenario.empty_html) Scenario.status_error
       Scenario.reply_arrives Scenario.uuid_x Scenario.py_str Scenario.bytes_repr
       (Scenario.failed_client, tt)
     = (Raise (mk_exn ConnectionError
                 "s1 - MCP Server connection failed: connection refused"),
        (Scenario.failed_client, tt)).
Proof.
  split; [reflexivity|].
  exact (proj1 (proj2 (send_message_without_endpoint
                         (Scenario.answer Scenario.empty_html) Scenario.status_error
                         Scenario.reply_arrives Scenario.uuid_x Scenario.py_str
                         Scenario.bytes_repr Scenario.failed_client tt eq_refl)
                  "x" tt eq_refl)).
Defined.

Lemma send_message_with_endpoint_witness :
  McpSseClient.send_message (Scenario.answer Scenario.not_found) Scenario.status_error
    Scenario.reply_arrives Scenario.bytes_repr
    (JObj [("jsonrpc", JStr "2.0"); ("id", JStr "x"); ("method", JStr "ping")])
    (Scenario.connected_client, tt)
  = (Raise (Scenario.status_error Scenario.not_found), (Scenario.connected_client, tt))
  /\ McpSseClient.send_message (Scenario.answer Scenario.empty_html) Scenario.status_error
       Scenario.reply_arrives Scenario.bytes_repr
       (JObj [("jsonrpc", JStr "2.0"); ("method", JStr "notifications/initialized")])
       (Scenario.connected_client, tt)
     = (Ok (JObj []), (Scenario.connected_client, tt)).
Proof.
  assert ("http://h/messages" <> "") as Hne by discriminate.
  split.
  - exact (proj1 (proj2 (send_message_with_endpoint
                           (Scenario.answer Scenario.not_found) Scenario.status_error
                           Scenario.reply_arrives Scenario.bytes_repr
                           Scenario.connected_client tt "http://h/messages"
                           [("jsonrpc", JStr "2.0"); ("id", JStr "x");
                            ("method", JStr "ping")]
                           eq_refl Hne))
             Scenario.not_found tt eq_refl eq_refl).
  - exact (proj1 (proj2 (proj2 (send_message_with_endpoint
                           (Scenario.answer Scenario.empty_html) Scenario.status_error
                           Scenario.reply_arrives Scenario.bytes_repr
                           Scenario.connected_client tt "http://h/messages"
                           [("jsonrpc", JStr "2.0");
                            ("method", JStr "notifications/initialized")]
                           eq_refl Hne)))
             Scenario.empty_html tt eq_refl eq_refl eq_refl).
Defined.

Lemma initialize_waits_once_witness :
  McpSseClient.initialize (Scenario.answer Scenario.empty_html) Scenario.status_error
    Scenario.reply_arrives Scenario.uuid_x Scenario.py_str Scenario.bytes_repr
    (Scenario.connected_client, tt)
  = (Ok tt, (Scenario.connected_client, tt)).
Proof.
  assert ("http://h/messages" <> "") as Hne by discriminate.
  exact (initialize_waits_once
           (Scenario.answer Scenario.empty_html) Scenario.status_error
           Scenario.reply_arrives Scenario.uuid_x Scenario.py_str Scenario.bytes_repr
           Scenario.connected_client Scenario.connected_client tt tt tt tt tt
           "x" "http://h/messages" "http://h/messages"
           Scenario.empty_html Scenario.empty_html Scenario.reply_x
           eq_refl eq_refl Hne eq_refl eq_refl eq_refl eq_refl eq_refl Hne
           eq_refl eq_refl).
Defined.

Lemma connect_returns_over_endpoint_or_failure_witness :
  McpSseClient.mpc
    (McpSseClient.run Scenario.urljoin Scenario.urlparse Scenario.json_loads
       Scenario.listener_runs_after_first_check
       (McpSseClient.construct "s1" "http://h/sse" Scenario.refused []
          McpSseClient.StreamOpen))
  = McpSseClient.CConnected
  /\ exists e,
       McpSseClient.send_message (Scenario.answer Scenario.empty_html)
         Scenario.status_error Scenario.reply_arrives Scenario.bytes_repr
         McpSseClient.notify_data
         (McpSseClient.self
            (McpSseClient.run Scenario.urljoin Scenario.urlparse Scenario.json_loads
               Scenario.listener_runs_after_first_check
               (McpSseClient.construct "s1" "http://h/sse" Scenario.refused []
                  McpSseClient.StreamOpen)), tt)
       = (Raise (mk_exn ConnectionError
                   ("s1" +:+ " - MCP Server connection failed: " +:+ exn_str e)),
          (McpSseClient.self
             (McpSseClient.run Scenario.urljoin Scenario.urlparse Scenario.json_loads
                Scenario.listener_runs_after_first_check
                (McpSseClient.construct "s1" "http://h/sse" Scenario.refused []
                   McpSseClient.StreamOpen)), tt)).
Proof.
  split; [reflexivity|].
  destruct (proj2 (proj2 (connect_returns_over_endpoint_or_failure
                            Scenario.urljoin Scenario.urlparse Scenario.json_loads
                            "s1" "http://h/sse" Scenario.refused []
                            McpSseClient.StreamOpen
                            Scenario.listener_runs_after_first_check))
              unit (Scenario.answer Scenario.empty_html) Scenario.status_error
              Scenario.reply_arrives Scenario.bytes_repr McpSseClient.notify_data tt
              eq_refl eq_refl) as (e & _ & He).
  exists e. exact He.
Defined.

Lemma connect_without_endpoint_event_witness :
  McpSseClient.remove_request_params Scenario.urljoin Scenario.urlparse "http://h/sse"
  = Ok "http://h/sse"
  /\ McpSseClient.mpc
       (McpSseClient.run Scenario.urljoin Scenario.urlparse Scenario.json_loads
          [McpSseClient.Main; McpSseClient.Listener; McpSseClient.Listener;
           McpSseClient.Main; McpSseClient.Main; McpSseClient.Main]
          (McpSseClient.construct "s1" "http://h/sse" (Ok tt) []
             McpSseClient.StreamClosed))
     = McpSseClient.CFailed (McpSseClient.listener_died "s1")
  /\ McpSseClient.mpc
       (McpSseClient.run Scenario.urljoin Scenario.urlparse Scenario.json_loads
          Scenario.y_then_x
          (McpSseClient.construct "s1" "http://h/sse" (Ok tt) []
             McpSseClient.StreamOpen))
     <> McpSseClient.CConnected.
Proof.
  split; [reflexivity|]. split.
  - exact (proj2 (proj2 (connect_without_endpoint_event
                           Scenario.urljoin Scenario.urlparse Scenario.json_loads
                           "s1" "http://h/sse" "http://h/sse" eq_refl
                           McpSseClient.StreamClosed [] (or_introl eq_refl)))).
  - exact (proj1 (connect_without_endpoint_event
                    Scenario.urljoin Scenario.urlparse Scenario.json_loads
                    "s1" "http://h/sse" "http://h/sse" eq_refl
                    McpSseClient.StreamOpen Scenario.y_then_x (or_intror eq_refl))).
Defined.

Lemma undeliverable_message_starves_the_call_witness :
  (to_key (JStr "x") = Ok (KStr "x")
   /\ McpSseClient.decode_message Scenario.json_loads_too "N"
      = Raise (mk_exn KeyError "'id'"))
  /\ McpSseClient.mpc
       (McpSseClient.run Scenario.urljoin Scenario.urlparse Scenario.json_loads_too
          Scenario.y_then_x Scenario.notified_before_x)
     <> McpSseClient.SReturned Scenario.reply_x.
Proof.
  split; [split; reflexivity|].
  exact (proj1 (undeliverable_message_starves_the_call
                  Scenario.urljoin Scenario.urlparse Scenario.json_loads_too
                  (JStr "x") (KStr "x") (mk_sse "message" "N")
                  [mk_sse "message" "X"] (mk_exn KeyError "'id'")
                  eq_refl eq_refl eq_refl
                  Scenario.notified_before_x Scenario.y_then_x
                  eq_refl eq_refl eq_refl eq_refl) Scenario.reply_x).
Defined.

Lemma nothing_delivered_after_stop_witness :
  McpSseClient.message_dict
    (McpSseClient.self
       (McpSseClient.run Scenario.urljoin Scenario.urlparse Scenario.json_loads
          Scenario.y_then_x Scenario.closing_before_x))
  ⊆ McpSseClient.message_dict (McpSseClient.self Scenario.closing_before_x).
Proof.
  exact (proj1 (proj2 (nothing_delivered_after_stop
                         Scenario.urljoin Scenario.urlparse Scenario.json_loads
                         Scenario.closing_before_x Scenario.y_then_x
                         eq_refl eq_refl))).
Defined.

Lemma fetch_tools_success_witness :
  McpClients.fetch_report (McpClients._clients Scenario.two_up) []
  = ([("s1", Scenario.catalog_s1); ("s2", Scenario.catalog_s1)], None,
     ["s1.list_tools"; "s2.list_tools"])
  /\ McpClients.fetch_tools (Scenario.two_up, Scenario.quiet)
     = (Ok [JObj [("name", JStr "add")]; JObj [("name", JStr "add")]],
        (McpClients.mk (McpClients._clients Scenario.two_up)
           [("s1", Scenario.catalog_s1); ("s2", Scenario.catalog_s1)],
         McpClients.mk_env ["s1.list_tools"; "s2.list_tools"] [])).
Proof.
  split; [reflexivity|].
  exact (proj1 (fetch_tools_success Scenario.two_up Scenario.quiet
                  [("s1", Scenario.catalog_s1); ("s2", Scenario.catalog_s1)]
                  ["s1.list_tools"; "s2.list_tools"] eq_refl)).
Defined.

Lemma routing_last_catalog_wins_witness :
  (<[KStr "add" := Scenario.healthy "s2" Scenario.catalog_s1]>
     (<[KStr "add" := Scenario.healthy "s1" Scenario.catalog_s1]> ∅)
     : gmap key (McpClient.t (list string))) !! KStr "add"
  = Some (Scenario.healthy "s2" Scenario.catalog_s1).
Proof.
  apply (routing_last_catalog_wins
           (McpClients._clients Scenario.two_up_cached)
           [("s1", Scenario.catalog_s1)] [] "s2" Scenario.catalog_s1
           [JObj [("name", JStr "add")]] (JObj [("name", JStr "add")]) "add"
           (Scenario.healthy "s2" Scenario.catalog_s1)).
  - reflexivity.
  - reflexivity.
  - reflexivity.
  - left. reflexivity.
  - reflexivity.
  - intros entry its t [].
Defined.

Lemma execute_tool_uses_cache_witness :
  McpClients._tools Scenario.cached <> []
  /\ fst (snd (McpClients.execute_tool Scenario.py_str Scenario.percentage
                 "add" (JObj []) (Scenario.cached, Scenario.quiet)))
     = Scenario.cached.
Proof.
  assert (McpClients._tools Scenario.cached <> []) as Hne by discriminate.
  split; [exact Hne|].
  exact (proj1 (execute_tool_uses_cache Scenario.py_str Scenario.percentage
                  Scenario.cached Scenario.quiet "add" (JObj []) Hne)).
Defined.

Lemma progress_report_decides_the_string_witness :
  McpClient.call_tool (Scenario.reporting "s1") "add" (JObj []) []
  = (Ok (JObj [("progress", JInt 1)]), ["s1.call_tool add"])
  /\ fst (McpClients.execute_tool Scenario.py_str Scenario.percentage
            "add" (JObj []) (Scenario.cached_reporting, Scenario.quiet))
     = Ok "Error executing tool: 'total'".
Proof.
  assert (McpClients._tools Scenario.cached_reporting <> []) as Hne by discriminate.
  split; [reflexivity|].
  exact (proj1 (proj2 (progress_report_decides_the_string
                         Scenario.py_str Scenario.percentage
                         Scenario.cached_reporting Scenario.quiet "add" (JObj [])
                         (<[KStr "add" := Scenario.reporting "s1"]> ∅)
                         (Scenario.reporting "s1")
                         (JObj [("progress", JInt 1)]) ["s1.call_tool add"]
                         Hne eq_refl eq_refl eq_refl))
           [("progress", JInt 1)] eq_refl eq_refl eq_refl).
Defined.

Lemma init_client_on_any_entry_witness :
  McpClients.init_client_of "s1" (JObj [("url", JStr "http://h/sse")])
  = Ok (McpClients.NewSse "s1" (JStr "http://h/sse") JNull (JInt 50) (JInt 50))
  /\ exists ex,
       McpClients.init_client_of "s1" (JStr "http://h/sse") = Raise ex
       /\ (exn_cls ex = TypeError \/ exn_cls ex = AttributeError).
Proof.
  split.
  - exact (proj1 (init_client_on_any_entry "s1" (JObj [("url", JStr "http://h/sse")]))
             [("url", JStr "http://h/sse")] eq_refl).
  - apply (proj2 (init_client_on_any_entry "s1" (JStr "http://h/sse"))).
    intros d. discriminate.
Defined.

Lemma mcpServers_wrapper_is_transparent_witness :
  McpClients.__init__ Scenario.connect_to
    (JObj [("mcpServers", JObj Scenario.two_servers); ("theme", JStr "dark")]) []
  = McpClients.__init__ Scenario.connect_to (JObj Scenario.two_servers) [].
Proof.
  exact (mcpServers_wrapper_is_transparent Scenario.connect_to
           Scenario.two_servers [("theme", JStr "dark")] [] eq_refl).
Defined.

Lemma construction_is_two_phase_witness :
  snd (McpClients.__init__ Scenario.connect_to (JObj Scenario.two_servers) [])
  = ["McpSseClient s1"; "McpStreamableHttpClient s2"; "s1.initialize"; "s2.initialize"].
Proof.
  rewrite (proj1 (construction_is_two_phase Scenario.connect_to
                    Scenario.two_servers [] eq_refl)).
  reflexivity.
Defined.

Lemma close_ends_delivery_witness :
  fst (McpSseClient.close Scenario.close_fails
         (McpSseClient.self Scenario.waiting_for_x, tt))
  = Raise (mk_exn Exception_ "s1 - MCP Server connection close failed: pool is busy")
  /\ McpSseClient.message_dict
       (McpSseClient.self
          (McpSseClient.run Scenario.urljoin Scenario.urlparse Scenario.json_loads
             Scenario.y_then_x
             (McpSseClient.mk_sys
                (fst (snd (McpSseClient.close Scenario.close_fails
                             (McpSseClient.self Scenario.waiting_for_x, tt))))
                (McpSseClient.lpc Scenario.waiting_for_x)
                (McpSseClient.mpc Scenario.waiting_for_x)
                (McpSseClient.get_outcome Scenario.waiting_for_x)
                (McpSseClient.incoming Scenario.waiting_for_x)
                (McpSseClient.ending Scenario.waiting_for_x))))
     ⊆ McpSseClient.message_dict (McpSseClient.self Scenario.waiting_for_x).
Proof.
  destruct (close_ends_delivery
              Scenario.urljoin Scenario.urlparse Scenario.json_loads
              unit Scenario.close_fails tt Scenario.waiting_for_x Scenario.y_then_x
              eq_refl) as (Hout & _ & _ & Hdict & _).
  split; [exact Hout | exact Hdict].
Defined.
